(** * mqmbench: correlation engine, tier summarizer and metric wrappers

    A shallow embedding of the analysis code of the multilingual MQM
    benchmark ([mqmbench/analysis/correlation.py], the wrappers
    [bleu.py], [chrf.py], [gemba.py], [comet.py] and [bertscore.py] of
    [mqmbench/metrics], and [_run_metrics] of [mqmbench/pipeline.py]),
    followed by the properties the specification states about it. The annotation-to-score converter
    ([mqmbench/data/converter.py]) is not among the sources at hand; its
    algorithm is written down from section 4.2 of the specification.

    Conventions of the embedding:
    - Python floats are rationals ([Q], exact arithmetic) extended with a
      not-a-number value; a Python [None] in a float slot is the [None] of
      [option].
    - Python strings are [string]; they are compared lexicographically by
      character code, which is what Python does on code points.
    - A pandas DataFrame is a list of typed rows; [groupby] and
      [sort_values] are written out as functions on lists.
    - Calls into scipy, sacrebleu, transformers, COMET and BERTScore are
      operations of a type class: the code only passes values to them and
      stores what they return. *)

From Stdlib Require Import List String Ascii Bool Arith ZArith QArith.
From Stdlib Require Import Lia Lqa Permutation Sorted OrderedTypeEx.
Import ListNotations.

Set Implicit Arguments.

Open Scope string_scope.
Open Scope list_scope.

(* ================================================================== *)
(** * Part I. Definitions                                               *)
(* ================================================================== *)

(** ** Python values and control *)

Module Py.

(** A Python float: a rational, or NaN. *)
Inductive pyfloat : Type :=
| NaN
| Fin (q : Q).

(** Outcome of a call that may raise. *)
Inductive exn : Type :=
| KeyError (key : string)
| ValueError (msg : string)
| AttributeError (name : string).

Inductive result (A : Type) : Type :=
| Ok (a : A)
| Raise (e : exn).

Arguments Ok {A} a.
Arguments Raise {A} e.

Definition bind {A B : Type} (m : result A) (k : A -> result B) : result B :=
  match m with
  | Ok a => k a
  | Raise e => Raise e
  end.

(** [for x in xs: acc.extend(f x)], stopping at the first exception. *)
Fixpoint for_extend {A B : Type} (f : A -> result (list B)) (xs : list A)
  : result (list B) :=
  match xs with
  | [] => Ok []
  | x :: xs' =>
      bind (f x) (fun ys => bind (for_extend f xs') (fun zs => Ok (ys ++ zs)))
  end.

(** [x in xs] for a list of strings. *)
Definition str_in (x : string) (xs : list string) : bool :=
  existsb (String.eqb x) xs.

(** [zip(xs, ys)]: stops at the shorter list. *)
Definition zip {A B : Type} (xs : list A) (ys : list B) : list (A * B) :=
  combine xs ys.

(** *** Sorting

    Insertion of [x] in front of the first element that is not below it:
    folding this from the right is a stable sort, the behaviour of
    [sort_values] on several columns and of the sorted group keys of
    [groupby]. *)
Section Sorting.
Variable A : Type.
Variable leb : A -> A -> bool.

Fixpoint insert (x : A) (l : list A) : list A :=
  match l with
  | [] => [x]
  | y :: l' => if leb x y then x :: y :: l' else y :: insert x l'
  end.

Fixpoint stable_sort (l : list A) : list A :=
  match l with
  | [] => []
  | x :: l' => insert x (stable_sort l')
  end.

(** The order that the comparison decides. *)
Definition le (a b : A) : Prop := leb a b = true.

End Sorting.

(** Distinct values of a list, in increasing order: the group keys of
    [groupby(..., sort=True)]. *)
Definition sorted_unique {A : Type} (eq_dec : forall x y : A, {x = y} + {x <> y})
  (leb : A -> A -> bool) (l : list A) : list A :=
  stable_sort leb (nodup eq_dec l).

(** Lexicographic order on pairs and triples of strings. *)
Definition leb2 (a b : string * string) : bool :=
  match String.compare (fst a) (fst b) with
  | Lt => true
  | Gt => false
  | Eq => String.leb (snd a) (snd b)
  end.

Definition leb3 (a b : string * string * string) : bool :=
  match String.compare (fst (fst a)) (fst (fst b)) with
  | Lt => true
  | Gt => false
  | Eq => leb2 (snd (fst a), snd a) (snd (fst b), snd b)
  end.

Definition pair_eq_dec (a b : string * string) : {a = b} + {a <> b}.
Proof. decide equality; apply string_dec. Defined.

Definition pair_eqb (a b : string * string) : bool :=
  if pair_eq_dec a b then true else false.

(** *** Dictionaries with string keys

    A [dict] keeps its keys in insertion order; assigning to a key that is
    present replaces the value in place. *)
Definition dict (V : Type) : Type := list (string * V).

Fixpoint dict_set {V : Type} (d : dict V) (k : string) (v : V) : dict V :=
  match d with
  | [] => [(k, v)]
  | (k', v') :: d' =>
      if String.eqb k k' then (k', v) :: d' else (k', v') :: dict_set d' k v
  end.

Fixpoint dict_lookup {V : Type} (d : dict V) (k : string) : option V :=
  match d with
  | [] => None
  | (k', v') :: d' => if String.eqb k k' then Some v' else dict_lookup d' k
  end.

(** [d.get(k, default)] *)
Definition dict_get {V : Type} (d : dict V) (k : string) (default : V) : V :=
  match dict_lookup d k with
  | Some v => v
  | None => default
  end.

End Py.

Import Py.

Declare Scope py_scope.
Notation "x <- m ;; k" := (bind m (fun x => k))
  (at level 61, m at next level, right associativity) : py_scope.
Open Scope py_scope.

(** ** scipy.stats, as the correlation engine uses it *)

(** [stats.pearsonr(x, y)] and [stats.spearmanr(x, y)] return a
    coefficient and a two-sided p-value; the engine converts both with
    [float(...)]. *)
Class SciPyStats : Type := {
  pearsonr : list pyfloat -> list pyfloat -> pyfloat * pyfloat;
  spearmanr : list pyfloat -> list pyfloat -> pyfloat * pyfloat
}.

(** ** mqmbench/analysis/correlation.py *)

Module Correlation.

(** Language resource tiers matching settings.toml. *)
Definition RESOURCE_TIERS : dict (list string) :=
  [ ("high", ["es"; "pt"]);
    ("medium", ["th"; "hr"; "tl"; "hy"]);
    ("low", ["ht"; "lo"; "mh"; "nv"; "gil"; "to"]) ].

(** The joined segment score table. [columns] holds the labels of the
    table, as [scores_df.columns] does; every row carries its language,
    the value of the column [lang] by which the engine groups, and a
    float under each label. The cells are floats throughout: a request
    for a column of texts is outside this model. *)
Record ScoreRow : Type := {
  row_lang : string;
  cell : string -> pyfloat
}.

Record ScoreTable : Type := {
  columns : list string;
  rows : list ScoreRow
}.

(** The dictionary returned by [correlate_metric_vs_human]. *)
Record CorrResult : Type := {
  res_lang : string;
  res_metric : string;
  res_n : nat;
  res_pearson_r : option pyfloat;
  res_pearson_p : option pyfloat;
  res_spearman_r : option pyfloat;
  res_spearman_p : option pyfloat
}.

(** A row of the correlation table: the dictionary above with
    [resource_tier] added. A statistic that is not set is [None], as in
    the dictionary; the table built from the dictionaries holds a
    missing value in its place. *)
Record CorrelationRecord : Type := {
  lang : string;
  resource_tier : string;
  metric : string;
  n : nat;
  pearson_r : option pyfloat;
  pearson_p : option pyfloat;
  spearman_r : option pyfloat;
  spearman_p : option pyfloat
}.

Section Engine.
Context {scipy : SciPyStats}.

Definition _pearson (x y : list pyfloat) : pyfloat * pyfloat :=
  let '(r, p) := pearsonr x y in (r, p).

Definition _spearman (x y : list pyfloat) : pyfloat * pyfloat :=
  let '(r, p) := spearmanr x y in (r, p).

(** Compute Pearson and Spearman for one metric against human scores. *)
Definition correlate_metric_vs_human (human_scores metric_scores : list pyfloat)
  (metric_name lang : string) : CorrResult :=
  if (List.length human_scores <? 3)%nat then
    {| res_lang := lang;
       res_metric := metric_name;
       res_n := List.length human_scores;
       res_pearson_r := None;
       res_pearson_p := None;
       res_spearman_r := None;
       res_spearman_p := None |}
  else
    let '(pr, pp) := _pearson human_scores metric_scores in
    let '(sr, sp) := _spearman human_scores metric_scores in
    {| res_lang := lang;
       res_metric := metric_name;
       res_n := List.length human_scores;
       res_pearson_r := Some pr;
       res_pearson_p := Some pp;
       res_spearman_r := Some sr;
       res_spearman_p := Some sp |}.

(** The comprehension [{lang: tier for tier, langs in
    resource_tiers.items() for lang in langs}]: a language listed twice
    keeps the tier assigned last. *)
Definition lang_to_tier (resource_tiers : dict (list string)) : dict string :=
  fold_left
    (fun d tl => fold_left (fun d' l => dict_set d' l (fst tl)) (snd tl) d)
    resource_tiers [].

(** [scores_df.groupby("lang")]: one group per distinct language, keys in
    increasing order, each group keeping the rows in table order. *)
Definition groupby_lang (rs : list ScoreRow) : list (string * list ScoreRow) :=
  map (fun k => (k, filter (fun r => String.eqb (row_lang r) k) rs))
      (sorted_unique string_dec String.leb (map row_lang rs)).

(** [group[col].tolist()]; a missing label raises [KeyError]. *)
Definition column_tolist (cols : list string) (group : list ScoreRow)
  (col : string) : result (list pyfloat) :=
  if str_in col cols then Ok (map (fun r => cell r col) group)
  else Raise (KeyError col).

Definition add_tier (tiers : dict string) (r : CorrResult) : CorrelationRecord :=
  {| lang := res_lang r;
     resource_tier := dict_get tiers (res_lang r) "unknown";
     metric := res_metric r;
     n := res_n r;
     pearson_r := res_pearson_r r;
     pearson_p := res_pearson_p r;
     spearman_r := res_spearman_r r;
     spearman_p := res_spearman_p r |}.

(** The body of the inner loop, for one metric of one group. *)
Definition metric_rows (cols : list string) (tiers : dict string)
  (lang : string) (group : list ScoreRow) (human : list pyfloat)
  (metric : string) : list CorrelationRecord :=
  if negb (str_in metric cols) then []
  else
    let metric_vals := map (fun r => cell r metric) group in
    [add_tier tiers (correlate_metric_vs_human human metric_vals metric lang)].

(** The body of the outer loop, for one group. *)
Definition group_rows (cols : list string) (tiers : dict string)
  (metric_columns : list string) (human_column : string)
  (g : string * list ScoreRow) : result (list CorrelationRecord) :=
  human <- column_tolist cols (snd g) human_column ;;
  Ok (flat_map (metric_rows cols tiers (fst g) (snd g) human) metric_columns).

(** The rows collected by the two loops, before they are sorted. *)
Definition collect_rows (scores_df : ScoreTable) (metric_columns : list string)
  (human_column : string) (resource_tiers : dict (list string))
  : result (list CorrelationRecord) :=
  for_extend
    (group_rows (columns scores_df) (lang_to_tier resource_tiers)
                metric_columns human_column)
    (groupby_lang (rows scores_df)).

Definition sort_key (r : CorrelationRecord) : string * string * string :=
  (metric r, resource_tier r, lang r).

Definition sort_values (rs : list CorrelationRecord) : list CorrelationRecord :=
  stable_sort (fun a b => leb3 (sort_key a) (sort_key b)) rs.

(** Run full correlation analysis across all languages and metrics. *)
Definition run_correlation_analysis (scores_df : ScoreTable)
  (metric_columns : list string) (human_column : string)
  (resource_tiers : option (dict (list string)))
  : result (list CorrelationRecord) :=
  let resource_tiers :=
    match resource_tiers with
    | None => RESOURCE_TIERS
    | Some t => t
    end in
  rows <- collect_rows scores_df metric_columns human_column resource_tiers ;;
  Ok (sort_values rows).

End Engine.

(** *** Tier summary *)

Record TierSummary : Type := {
  ts_metric : string;
  ts_resource_tier : string;
  ts_pearson_r : pyfloat;
  ts_spearman_r : pyfloat
}.

(** The values of a column that are neither [None] nor NaN. *)
Definition defined_values (col : CorrelationRecord -> option pyfloat)
  (rs : list CorrelationRecord) : list Q :=
  flat_map (fun r => match col r with
                     | Some (Fin q) => [q]
                     | _ => []
                     end) rs.

Definition Qsum (l : list Q) : Q := fold_right Qplus 0 l.

(** [mean()] of a group: missing values are skipped, and a group with no
    value left has mean NaN. The mean is the exact one, where pandas
    returns it rounded to a binary64 number. *)
Definition mean_skipna (vals : list Q) : pyfloat :=
  match vals with
  | [] => NaN
  | _ => Fin (Qsum vals / inject_Z (Z.of_nat (List.length vals)))
  end.

Definition tier_key (r : CorrelationRecord) : string * string :=
  (metric r, resource_tier r).

Definition group_of (k : string * string) (rs : list CorrelationRecord)
  : list CorrelationRecord :=
  filter (fun r => pair_eqb (tier_key r) k) rs.

(** [groupby(["metric", "resource_tier"])[["pearson_r", "spearman_r"]]
    .mean().reset_index()] *)
Definition groupby_mean (rs : list CorrelationRecord) : list TierSummary :=
  map (fun k =>
         {| ts_metric := fst k;
            ts_resource_tier := snd k;
            ts_pearson_r := mean_skipna (defined_values pearson_r (group_of k rs));
            ts_spearman_r := mean_skipna (defined_values spearman_r (group_of k rs)) |})
      (sorted_unique pair_eq_dec leb2 (map tier_key rs)).

Definition ts_key (s : TierSummary) : string * string :=
  (ts_metric s, ts_resource_tier s).

(** Aggregate per-language correlations to per-tier averages. *)
Definition summarize_by_tier (correlation_df : list CorrelationRecord)
  : list TierSummary :=
  stable_sort (fun a b => leb2 (ts_key a) (ts_key b)) (groupby_mean correlation_df).

End Correlation.

(** ** sacrebleu and transformers, as the metric wrappers use them *)

(** [sacrebleu.sentence_bleu(hyp, refs).score] and
    [sacrebleu.CHRF(word_order=w).sentence_score(hyp, refs).score]. *)
Class SacreBleu : Type := {
  sentence_bleu : string -> list string -> Q;
  chrf_sentence_score : nat -> string -> list string -> Q
}.

(** [pipeline("text-generation", model=m, max_new_tokens=256,
    do_sample=False)(batch)]: for each prompt of the batch, the
    ["generated_text"] of its first candidate. *)
Class Transformers : Type := {
  text_generation : string -> list string -> list string
}.

(** ** mqmbench/metrics/bleu.py *)

Module Bleu.
Section Wrapper.
Context {sacrebleu : SacreBleu}.

(** Compute sentence-level BLEU for each hypothesis/reference pair. *)
Definition score (sources hypotheses references : list string)
  (lang : option string) : list Q :=
  map (fun hr => sentence_bleu (fst hr) [snd hr] / 100)
      (zip hypotheses references).

End Wrapper.
End Bleu.

(** ** mqmbench/metrics/chrf.py *)

Module Chrf.
Section Wrapper.
Context {sacrebleu : SacreBleu}.

(** Compute sentence-level ChrF++ for each hypothesis/reference pair. *)
Definition score (sources hypotheses references : list string)
  (lang : option string) : list Q :=
  let chrf := chrf_sentence_score 2 in
  map (fun hr => chrf (fst hr) [snd hr] / 100)
      (zip hypotheses references).

End Wrapper.
End Chrf.

(** ** mqmbench/metrics/gemba.py *)

Module Gemba.

Definition newline : string := String (ascii_of_nat 10) EmptyString.

(** [GEMBA_PROMPT_TEMPLATE.format(...)] *)
Definition format_prompt (source_lang target_lang source hypothesis : string)
  : string :=
  "You are evaluating a machine translation from " ++ source_lang ++ " to "
    ++ target_lang ++ "." ++ newline ++ newline
    ++ "Source: " ++ source ++ newline
    ++ "Translation: " ++ hypothesis ++ newline ++ newline
    ++ "List any translation errors in the format:" ++ newline
    ++ "ERROR: [severity: major|minor] [category: mistranslation|omission|grammar|register|other] [text: ...]"
    ++ newline ++ newline
    ++ "If there are no errors, write: NO ERRORS".

Definition SEVERITY_PENALTIES : dict Q := [("major", 5); ("minor", 1)].

(** Case mapping and white space, on the ASCII range. *)
Definition upper_char (c : ascii) : ascii :=
  let k := nat_of_ascii c in
  if ((97 <=? k) && (k <=? 122))%nat then ascii_of_nat (k - 32) else c.

Definition lower_char (c : ascii) : ascii :=
  let k := nat_of_ascii c in
  if ((65 <=? k) && (k <=? 90))%nat then ascii_of_nat (k + 32) else c.

Fixpoint upper (s : string) : string :=
  match s with
  | EmptyString => EmptyString
  | String c s' => String (upper_char c) (upper s')
  end.

Fixpoint lower (s : string) : string :=
  match s with
  | EmptyString => EmptyString
  | String c s' => String (lower_char c) (lower s')
  end.

Definition is_space (c : ascii) : bool :=
  let k := nat_of_ascii c in
  (((9 <=? k) && (k <=? 13)) || ((28 <=? k) && (k <=? 32)))%nat.

(** [sub in s] *)
Fixpoint contains (sub s : string) : bool :=
  match s with
  | EmptyString => String.eqb sub EmptyString
  | String _ s' => String.prefix sub s || contains sub s'
  end.

(** The regular expression [severity:\s*(major|minor)] with
    [re.IGNORECASE], matched at the start of [s]: the text of group 1 and
    what follows the match. *)
Fixpoint literal_ci (pat s : string) : option (string * string) :=
  match pat with
  | EmptyString => Some (EmptyString, s)
  | String a pat' =>
      match s with
      | EmptyString => None
      | String b s' =>
          if Ascii.eqb (lower_char b) a then
            match literal_ci pat' s' with
            | Some (m, rest) => Some (String b m, rest)
            | None => None
            end
          else None
      end
  end.

Fixpoint skip_spaces (s : string) : string :=
  match s with
  | EmptyString => EmptyString
  | String c s' => if is_space c then skip_spaces s' else s
  end.

Definition match_severity (s : string) : option (string * string) :=
  match literal_ci "severity:" s with
  | None => None
  | Some (_, after_colon) =>
      let t := skip_spaces after_colon in
      match literal_ci "major" t with
      | Some g => Some g
      | None => literal_ci "minor" t
      end
  end.

(** [re.finditer]: the matches from left to right, none overlapping
    another; [skip] counts the characters still covered by the last
    match. The result lists [match.group(1)] of each. *)
Fixpoint finditer_from (skip : nat) (s : string) : list string :=
  match s with
  | EmptyString => []
  | String _ s' =>
      match skip with
      | S k => finditer_from k s'
      | O =>
          match match_severity s with
          | Some (g, rest) =>
              g :: finditer_from (String.length s - String.length rest - 1) s'
          | None => finditer_from 0 s'
          end
      end
  end.

Definition finditer (s : string) : list string := finditer_from 0 s.

(** Parse LLM output and compute MQM penalty score. *)
Definition _parse_gemba_output (text : string) : Q :=
  if contains "NO ERRORS" (upper text) then 0
  else
    fold_left
      (fun penalty g => penalty + dict_get SEVERITY_PENALTIES (lower g) 0)
      (finditer text) 0.

(** [[prompts[i : i + size] for i in range(0, len(prompts), size)]] *)
Fixpoint batches_fuel {A : Type} (fuel size : nat) (l : list A) : list (list A) :=
  match fuel with
  | O => []
  | S fuel' =>
      match l with
      | [] => []
      | _ => firstn size l :: batches_fuel fuel' size (skipn size l)
      end
  end.

Definition batches {A : Type} (size : nat) (l : list A) : list (list A) :=
  batches_fuel (List.length l) size l.

Section Wrapper.
Context {transformers : Transformers}.

(** Compute GEMBA-MQM scores using a local LLM. *)
Definition score (sources hypotheses references : list string)
  (lang : option string) (model_name source_lang target_lang : string)
  (batch_size : Z) : result (list Q) :=
  if String.eqb model_name "" then
    Raise (ValueError
      "gemba.score() requires model_name. Set metrics.gemba_model in settings.toml.")
  else
    let target_lang :=
      match lang with
      | Some l => if String.eqb l "" then target_lang else l
      | None => target_lang
      end in
    let pipe := text_generation model_name in
    let prompts :=
      map (fun sh => format_prompt source_lang target_lang (fst sh) (snd sh))
          (zip sources hypotheses) in
    if (batch_size =? 0)%Z then
      Raise (ValueError "range() arg 3 must not be zero")
    else if (batch_size <? 0)%Z then Ok []
    else
      Ok (flat_map (fun batch => map _parse_gemba_output (pipe batch))
                   (batches (Z.to_nat batch_size) prompts)).

End Wrapper.
End Gemba.

(** ** mqmbench/pipeline.py: the GEMBA branch of [_run_metrics] *)

Module Pipeline.
Section Metrics.
Context {transformers : Transformers}.

(** Convert a penalty to a quality score (higher = better). *)
Definition penalty_to_quality (p : Q) : Q := 1 / (1 + p).

(** The column assigned to [scores_df["gemba"]]. *)
Definition gemba_column (gemba_model : string)
  (sources hyps refs : list string) : result (list Q) :=
  raw_penalties <-
    Gemba.score sources hyps refs None gemba_model "English"
                "the target language" 4 ;;
  Ok (map penalty_to_quality raw_penalties).

End Metrics.
End Pipeline.

(** ** The annotation-to-score converter *)

Module Converter.

(** Modelled from the spec: the Annotation Row of section 3, the input
    unit of [mqmbench/data/converter.py], which is not among the
    sources: one reported error instance, or a sentinel row for a
    segment without errors. *)
Record AnnotationRow : Type := {
  segment_id : Z;
  source : string;
  hypothesis : string;
  reference : string;
  lang : string;
  error_type : string;
  severity : string;
  error_start : option Z;
  error_end : option Z
}.

(** Modelled from the spec: the Segment Score of section 3, the output
    unit of [mqmbench/data/converter.py], which is not among the
    sources. *)
Record SegmentScore : Type := {
  seg_segment_id : Z;
  seg_source : string;
  seg_hypothesis : string;
  seg_reference : string;
  seg_lang : string;
  num_errors : nat;
  major_errors : nat;
  minor_errors : nat;
  error_penalty : Q;
  normalized_score : Q;
  quality_score : Q
}.

(** Modelled from the spec: the severity weighting table
    [SEVERITY_WEIGHTS] of [mqmbench/data/converter.py], which is not among
    the sources, and the two transforms of the converter that the
    specification leaves open: [normalize] turns an error penalty and the
    hypothesis it belongs to into the normalized score, [quality] turns a
    normalized score into the quality score. *)
Class SeverityScoring : Type := {
  SEVERITY_WEIGHTS : dict Q;
  normalize : Q -> string -> Q;
  quality : Q -> Q
}.

Section Conversion.
Context {scoring : SeverityScoring}.

(** Modelled from the spec: the grouping key of section 4.2 of the
    converter, which is not among the sources: the segment id together
    with the language. *)
Definition group_key (r : AnnotationRow) : Z * string :=
  (segment_id r, lang r).

(** Modelled from the spec: equality of two grouping keys of the
    converter, which is not among the sources. *)
Definition key_eqb (a b : Z * string) : bool :=
  (fst a =? fst b)%Z && String.eqb (snd a) (snd b).

(** Modelled from the spec: the distinct grouping keys of the converter,
    which is not among the sources, in order of first appearance (the
    specification fixes no order). *)
Fixpoint distinct_keys (ks : list (Z * string)) : list (Z * string) :=
  match ks with
  | [] => []
  | k :: ks' => k :: filter (fun k' => negb (key_eqb k k')) (distinct_keys ks')
  end.

(** Modelled from the spec: the sentinel row of section 3 of the
    converter, which is not among the sources: the row whose error type
    is [no_error]. *)
Definition is_sentinel (r : AnnotationRow) : bool :=
  String.eqb (error_type r) "no_error".

(** Modelled from the spec: the weight lookup of section 4.2 step 3 of the
    converter, which is not among the sources: the sum of the weights of
    the given error rows, failing on the first severity that the table
    does not hold. The message is the one the test of the converter
    expects. *)
Fixpoint sum_weights (errors : list AnnotationRow) : result Q :=
  match errors with
  | [] => Ok 0
  | r :: errors' =>
      match dict_lookup SEVERITY_WEIGHTS (severity r) with
      | None => Raise (ValueError ("Unknown severity: " ++ severity r))
      | Some w => rest <- sum_weights errors' ;; Ok (w + rest)
      end
  end.

(** Modelled from the spec: the counts by severity of section 4.2 step 5
    of the converter, which is not among the sources. *)
Definition count_severity (sev : string) (errors : list AnnotationRow) : nat :=
  List.length (filter (fun r => String.eqb (severity r) sev) errors).

(** Modelled from the spec: steps 2 to 7 of section 4.2 for one group of
    the converter, which is not among the sources: the sentinel rows are
    set aside, the remaining rows are the real errors, and the text
    fields are those of the first row of the group. *)
Definition score_group (group : list AnnotationRow) : result (list SegmentScore) :=
  match group with
  | [] => Ok []
  | first :: _ =>
      let real_errors := filter (fun r => negb (is_sentinel r)) group in
      penalty <- sum_weights real_errors ;;
      let normalized := normalize penalty (hypothesis first) in
      Ok [ {| seg_segment_id := segment_id first;
              seg_source := source first;
              seg_hypothesis := hypothesis first;
              seg_reference := reference first;
              seg_lang := lang first;
              num_errors := List.length real_errors;
              major_errors := count_severity "major" real_errors;
              minor_errors := count_severity "minor" real_errors;
              error_penalty := penalty;
              normalized_score := normalized;
              quality_score := quality normalized |} ]
  end.

(** Modelled from the spec: [annotations_to_sentence_scores] of
    [mqmbench/data/converter.py], which is not among the sources: the
    rows are partitioned by segment id and language, and each group
    yields one segment score; an error in any group aborts the
    conversion. *)
Definition annotations_to_sentence_scores (df : list AnnotationRow)
  : result (list SegmentScore) :=
  for_extend
    (fun k => score_group (filter (fun r => key_eqb (group_key r) k) df))
    (distinct_keys (map group_key df)).

(** The severity label of a row is not in the weighting table. *)
Definition unknown (r : AnnotationRow) : Prop :=
  dict_lookup SEVERITY_WEIGHTS (severity r) = None.

End Conversion.
End Converter.

(** ** Vocabulary of the statements about the correlation engine *)

Module EngineSpec.
Import Correlation.

(** The rows of the score table written in language [l]: the group that
    [groupby] hands to the engine for [l]. *)
Definition observations (scores_df : ScoreTable) (l : string) : list ScoreRow :=
  filter (fun r => String.eqb (row_lang r) l) (rows scores_df).

(** The languages that occur in the score table. *)
Definition lang_present (scores_df : ScoreTable) (l : string) : Prop :=
  exists r, In r (rows scores_df) /\ row_lang r = l.

(** All four statistics of a record are [None]. *)
Definition stats_unset (r : CorrelationRecord) : Prop :=
  pearson_r r = None /\ pearson_p r = None /\
  spearman_r r = None /\ spearman_p r = None.

(** The records of a correlation table for language [l] and metric [m]. *)
Definition records_for (l m : string) (out : list CorrelationRecord)
  : list CorrelationRecord :=
  filter (fun r => String.eqb (lang r) l && String.eqb (metric r) m) out.

Definition key3_eq_dec (a b : string * string * string) : {a = b} + {a <> b}.
Proof. decide equality; [apply string_dec | apply pair_eq_dec]. Defined.

(** The records of a correlation table whose sort key is [k]. *)
Definition with_key (k : string * string * string)
  (out : list CorrelationRecord) : list CorrelationRecord :=
  filter (fun r => if key3_eq_dec (sort_key r) k then true else false) out.

(** The comparison that [sort_values] applies to two rows. *)
Definition row_leb (a b : CorrelationRecord) : bool :=
  leb3 (sort_key a) (sort_key b).

(** [a] may stand before [b] in a table sorted by metric, then resource
    tier, then language. *)
Definition key_le (a b : CorrelationRecord) : Prop :=
  String.ltb (metric a) (metric b) = true \/
  (metric a = metric b /\
   (String.ltb (resource_tier a) (resource_tier b) = true \/
    (resource_tier a = resource_tier b /\
     String.leb (lang a) (lang b) = true))).

(** Two records agree on language, tier, metric and sample size. *)
Definition same_layout (a b : CorrelationRecord) : Prop :=
  lang a = lang b /\ resource_tier a = resource_tier b /\
  metric a = metric b /\ n a = n b.

(** Two runs end alike: with the same exception, or with tables of the
    same length whose rows agree, position by position, on language,
    tier, metric and sample size. *)
Definition same_layout_result (a b : result (list CorrelationRecord)) : Prop :=
  match a, b with
  | Ok out, Ok out' => Forall2 same_layout out out'
  | Raise e, Raise e' => e = e'
  | _, _ => False
  end.

(** The language-to-tier dictionary that a run builds from its
    [resource_tiers] argument. *)
Definition tiers_of (resource_tiers : option (dict (list string))) : dict string :=
  lang_to_tier match resource_tiers with
               | None => RESOURCE_TIERS
               | Some t => t
               end.

Section Collected.
Context {scipy : SciPyStats}.

(** What the two loops of [run_correlation_analysis] append when no
    column lookup fails. *)
Definition collected (cols : list string) (tiers : dict string)
  (metric_columns : list string) (human_column : string)
  (rs : list ScoreRow) : list CorrelationRecord :=
  flat_map
    (fun k =>
       let group := filter (fun r => String.eqb (row_lang r) k) rs in
       flat_map
         (metric_rows cols tiers k group
                      (map (fun r => cell r human_column) group))
         metric_columns)
    (sorted_unique string_dec String.leb (map row_lang rs)).

End Collected.

(** *** Tier summary *)

(** The value of a statistic is a number (neither [None] nor NaN). *)
Definition is_defined (col : CorrelationRecord -> option pyfloat)
  (r : CorrelationRecord) : bool :=
  match col r with
  | Some (Fin _) => true
  | _ => false
  end.

(** The number held by a defined statistic. *)
Definition value_of (col : CorrelationRecord -> option pyfloat)
  (r : CorrelationRecord) : Q :=
  match col r with
  | Some (Fin q) => q
  | _ => 0
  end.

(** The records of a correlation table for metric [m] in tier [t]. *)
Definition tier_group (m t : string) (rs : list CorrelationRecord)
  : list CorrelationRecord :=
  filter (fun r => String.eqb (metric r) m && String.eqb (resource_tier r) t) rs.

(** The mean as the specification words it: the unweighted arithmetic
    mean of the defined values of a group, the records without a defined
    value counting neither in the sum nor in the number of terms. It is
    NaN when no value of the group is defined. *)
Definition mean_of_defined (col : CorrelationRecord -> option pyfloat)
  (group : list CorrelationRecord) : pyfloat :=
  match filter (is_defined col) group with
  | [] => NaN
  | defined =>
      Fin (Qsum (map (value_of col) defined)
           / inject_Z (Z.of_nat (List.length defined)))
  end.

(** The comparison that [summarize_by_tier] applies to two rows. *)
Definition ts_leb (a b : TierSummary) : bool := leb2 (ts_key a) (ts_key b).

(** [a] may stand before [b] in a summary sorted by metric, then resource
    tier. *)
Definition ts_key_le (a b : TierSummary) : Prop :=
  String.ltb (ts_metric a) (ts_metric b) = true \/
  (ts_metric a = ts_metric b /\
   String.leb (ts_resource_tier a) (ts_resource_tier b) = true).

End EngineSpec.

(** ** Sample data *)

Module Sample.
Import Correlation.

(** A stand-in for scipy: the sum of the products of the paired values
    in place of a coefficient, the number of pairs in place of a
    p-value. *)
Definition product (xy : pyfloat * pyfloat) : Q :=
  match xy with
  | (Fin x, Fin y) => x * y
  | _ => 0
  end.

Fixpoint sum_products (obs : list (pyfloat * pyfloat)) : Q :=
  match obs with
  | [] => 0
  | xy :: obs' => product xy + sum_products obs'
  end.

Definition pair_stat (x y : list pyfloat) : pyfloat * pyfloat :=
  (Fin (sum_products (combine x y)), Fin (inject_Z (Z.of_nat (List.length x)))).

Definition sample_scipy : SciPyStats :=
  {| pearsonr := pair_stat; spearmanr := pair_stat |}.

Definition score_row (l : string) (human bleu : Q) : ScoreRow :=
  {| row_lang := l;
     cell := fun c => if String.eqb c "quality_score" then Fin human
                      else if String.eqb c "bleu" then Fin bleu
                      else NaN |}.

(** Two Spanish segments, three Thai segments and one segment in a
    language outside the tier map. *)
Definition sample_scores : ScoreTable :=
  {| columns := ["quality_score"; "bleu"];
     rows := [ score_row "th" (1 # 2) (1 # 4);
               score_row "es" 1 (3 # 4);
               score_row "th" 1 (1 # 2);
               score_row "xx" (1 # 3) (1 # 5);
               score_row "es" (1 # 6) (1 # 10);
               score_row "th" (1 # 4) (1 # 8) ] |}.

(** A stand-in for sacrebleu: full marks for a hypothesis that is one of
    the references, and for ChrF half marks otherwise. *)
Definition sample_sacrebleu : SacreBleu :=
  {| sentence_bleu := fun hyp refs => if str_in hyp refs then 100 else 0;
     chrf_sentence_score := fun _ hyp refs =>
                              if str_in hyp refs then 100 else 50 |}.

(** sacrebleu on binary64 numbers, for a hypothesis that is its
    reference: every n-gram precision is 100, and the score
    [exp(log(100))] comes out as 100.00000000000004, which is
    100 + 3 * 2^-46. *)
Definition binary64_sacrebleu : SacreBleu :=
  {| sentence_bleu := fun hyp refs =>
       if str_in hyp refs then 100 + (3 # 70368744177664) else 0;
     chrf_sentence_score := fun _ hyp refs =>
                              if str_in hyp refs then 100 else 50 |}.

(** A stand-in for the language model: it reports no error for a prompt
    that mentions [Hola], and one major and one minor error otherwise. *)
Definition sample_generation (prompt : string) : string :=
  if Gemba.contains "Hola" prompt then "No errors"
  else "ERROR: [severity: major] [category: omission] [text: a] ERROR: [severity: Minor] [category: grammar] [text: b]".

Definition sample_transformers : Transformers :=
  {| text_generation := fun _ batch => map sample_generation batch |}.

(** A stand-in for the converter's table and transforms: the three
    severity labels of the glossary with their weights, the penalty per
    character of the hypothesis, and its image under [x / (1 - x)]
    shifted to end at 1. *)
Definition sample_scoring : Converter.SeverityScoring :=
  {| Converter.SEVERITY_WEIGHTS := [("major", 5); ("minor", 1); ("neutral", 0)];
     Converter.normalize := fun penalty hyp =>
       - (penalty / inject_Z (Z.of_nat (Nat.max 1 (String.length hyp))));
     Converter.quality := fun x => 1 / (1 - x) |}.

Definition annotation (id : Z) (etype sev : string) : Converter.AnnotationRow :=
  {| Converter.segment_id := id;
     Converter.source := "Hello world.";
     Converter.hypothesis := "Hola mundo.";
     Converter.reference := "Hola mundo.";
     Converter.lang := "es";
     Converter.error_type := etype;
     Converter.severity := sev;
     Converter.error_start := None;
     Converter.error_end := None |}.

End Sample.

(** ** Further vocabulary for the correlation engine and the summarizer *)

Module EngineMore.
Import Correlation EngineSpec.

(** The tier that lists language [l]; when several tiers list it, the one
    that comes last in the tier map. *)
Definition listing_tier (resource_tiers : dict (list string)) (l : string)
  : option string :=
  match find (fun tl => str_in l (snd tl)) (rev resource_tiers) with
  | Some tl => Some (fst tl)
  | None => None
  end.

(** The tier map that a run uses. *)
Definition tier_map (resource_tiers : option (dict (list string)))
  : dict (list string) :=
  match resource_tiers with
  | None => RESOURCE_TIERS
  | Some t => t
  end.

(** The requested metrics that are columns of the table, as often as
    they are requested. *)
Definition present_metrics (scores_df : ScoreTable)
  (metric_columns : list string) : list string :=
  filter (fun m => str_in m (columns scores_df)) metric_columns.

(** The distinct languages of the table. *)
Definition languages (scores_df : ScoreTable) : list string :=
  nodup string_dec (map row_lang (rows scores_df)).

(** The values of column [col] for the rows written in language [l], in
    table order. *)
Definition group_column (scores_df : ScoreTable) (l col : string)
  : list pyfloat :=
  map (fun r => cell r col) (observations scores_df l).

(** A float cell holds a number within the given bounds. *)
Definition within (lo hi : Q) (x : pyfloat) : Prop :=
  match x with
  | NaN => False
  | Fin q => lo <= q <= hi
  end.

End EngineMore.

(** ** Further vocabulary for the GEMBA wrapper *)

Module GembaMore.

(** The text is made of ASCII characters only: the range on which the
    case mapping and the matching written out above are those of
    Python. *)
Definition ascii_text (text : string) : bool :=
  forallb (fun c => (nat_of_ascii c <? 128)%nat) (list_ascii_of_string text).

(** The number of matches whose severity, in lower case, is [sev]. *)
Definition severity_count (sev text : string) : nat :=
  List.length
    (filter (fun g => String.eqb (Gemba.lower g) sev) (Gemba.finditer text)).

(** The generation treats the prompts of a batch one by one: generating
    for two batches at once gives what generating for each gives. *)
Definition batch_independent {transformers : Transformers} (model : string)
  : Prop :=
  forall batch batch' : list string,
    text_generation model (batch ++ batch')
    = text_generation model batch ++ text_generation model batch'.

(** The prompts that [gemba.score] builds. *)
Definition prompts_of (sources hypotheses : list string)
  (source_lang target_lang : string) : list string :=
  map (fun sh => Gemba.format_prompt source_lang target_lang (fst sh) (snd sh))
      (zip sources hypotheses).

End GembaMore.

(** ** unbabel-comet and bert_score, as the metric wrappers use them *)

(** One entry of the data handed to COMET. *)
Record CometSample : Type := {
  src : string;
  mt : string;
  ref : string
}.

(** [load_from_checkpoint(download_model(name)).predict(data,
    batch_size=b, gpus=g).scores] *)
Class CometLib : Type := {
  comet_predict_scores : string -> list CometSample -> Z -> Z -> list Q
}.

(** The F1 component of [bert_score.score(cands, refs, model_type=m,
    lang=l, batch_size=b, verbose=False)], as a list. *)
Class BertScoreLib : Type := {
  bert_score_f1 :
    list string -> list string -> string -> option string -> Z -> list Q
}.

(** ** mqmbench/metrics/comet.py *)

Module Comet.

(** [zip(sources, hypotheses, references)]: stops at the shortest list. *)
Definition zip3 (sources hypotheses references : list string)
  : list CometSample :=
  map (fun shr => {| src := fst shr; mt := fst (snd shr); ref := snd (snd shr) |})
      (zip sources (zip hypotheses references)).

Section Wrapper.
Context {comet : CometLib}.

(** Compute COMET scores for each (source, hypothesis, reference) triple. *)
Definition score (sources hypotheses references : list string)
  (lang : option string) (model_name : string) (batch_size gpus : Z) : list Q :=
  let data := zip3 sources hypotheses references in
  comet_predict_scores model_name data batch_size gpus.

(** Compute xCOMET scores. *)
Definition score_xcomet (sources hypotheses references : list string)
  (lang : option string) (model_name : string) (batch_size gpus : Z) : list Q :=
  score sources hypotheses references lang model_name batch_size gpus.

End Wrapper.
End Comet.

(** ** mqmbench/metrics/bertscore.py *)

Module BertScore.
Section Wrapper.
Context {bertscore : BertScoreLib}.

(** Compute BERTScore F1 for each hypothesis/reference pair. *)
Definition score (sources hypotheses references : list string)
  (lang : option string) (model_type : string) (batch_size : Z) : list Q :=
  bert_score_f1 hypotheses references model_type
                (if String.eqb model_type "" then lang else None)
                batch_size.

End Wrapper.
End BertScore.

(** ** mqmbench/pipeline.py: [_run_metrics] *)

Module RunMetrics.
Import Correlation.

(** A row of the segment score table: the texts that the metric wrappers
    read, and the language and float columns that the correlation engine
    reads. *)
Record SegmentRow : Type := {
  source : string;
  hypothesis : string;
  reference : string;
  scores : ScoreRow
}.

Record SegmentTable : Type := {
  score_columns : list string;
  segments : list SegmentRow
}.

(** The table as the correlation engine sees it, less its columns of
    texts, which the pipeline never requests. *)
Definition to_scores (df : SegmentTable) : ScoreTable :=
  {| columns := score_columns df; rows := map scores (segments df) |}.

Definition set_cell (s : SegmentRow) (name : string) (v : pyfloat) : SegmentRow :=
  {| source := source s;
     hypothesis := hypothesis s;
     reference := reference s;
     scores := {| row_lang := row_lang (scores s);
                  cell := fun c => if String.eqb c name then v
                                   else cell (scores s) c |} |}.

(** [scores_df[name] = values] for a list of floats: the list must have
    one value for each row; an existing column of that name is
    replaced, a new one is appended. *)
Definition set_column (name : string) (values : list Q) (df : SegmentTable)
  : result SegmentTable :=
  if (List.length values =? List.length (segments df))%nat then
    Ok {| score_columns :=
            if str_in name (score_columns df) then score_columns df
            else score_columns df ++ [name];
          segments :=
            map (fun sv => set_cell (fst sv) name (Fin (snd sv)))
                (combine (segments df) values) |}
  else
    Raise (ValueError "Length of values does not match length of index").

(** The settings that [_run_metrics] reads from [cfg.metrics]. A table
    of settings ([metrics.bertscore], [metrics.comet], [metrics.xcomet])
    may be absent, and so may each setting of a table and [run_gemba]:
    reading an absent one with [getattr] and a default gives the
    default, reading it as an attribute raises. The list [run] and the
    name [gemba_model] are taken to be set. *)
Record BertScoreSettings : Type := {
  bertscore_model : option string;
  bertscore_batch_size : option Z
}.

Record CometSettings : Type := {
  model : option string;
  batch_size : option Z;
  gpus : option Z
}.

Record MetricsSettings : Type := {
  run : list string;
  bertscore : option BertScoreSettings;
  comet : option CometSettings;
  xcomet : option CometSettings;
  run_gemba : option bool;
  gemba_model : string
}.

(** [getattr(obj, name, default)] *)
Definition getattr {A : Type} (value : option A) (default : A) : A :=
  match value with
  | Some v => v
  | None => default
  end.

(** [obj.name]: the settings object raises for a name it does not
    hold. *)
Definition attr {A : Type} (name : string) (value : option A) : result A :=
  match value with
  | Some v => Ok v
  | None => Raise (AttributeError name)
  end.

Section Metrics.
Context {sacrebleu : SacreBleu} {bertscore_lib : BertScoreLib}
        {comet_lib : CometLib} {transformers : Transformers}.

(** One [if] of [_run_metrics]: when the metric is selected, compute its
    scores, assign them to the column of its name and note the name. *)
Definition add_metric (selected : bool) (name : string)
  (computed : result (list Q)) (state : SegmentTable * list string)
  : result (SegmentTable * list string) :=
  if selected then
    values <- computed ;;
    df <- set_column name values (fst state) ;;
    Ok (df, snd state ++ [name])
  else Ok state.

(** Run each configured metric and add score columns to scores_df in
    place: the table after the run, and the names of the added
    columns. *)
Definition _run_metrics (scores_df : SegmentTable) (cfg : MetricsSettings)
  : result (SegmentTable * list string) :=
  let metrics_to_run := run cfg in
  let sources := map source (segments scores_df) in
  let hyps := map hypothesis (segments scores_df) in
  let refs := map reference (segments scores_df) in
  st <- add_metric (str_in "bleu" metrics_to_run) "bleu"
          (Ok (Bleu.score sources hyps refs None)) (scores_df, []) ;;
  st <- add_metric (str_in "chrf" metrics_to_run) "chrf"
          (Ok (Chrf.score sources hyps refs None)) st ;;
  st <- add_metric (str_in "bertscore" metrics_to_run) "bertscore"
          (table <- attr "bertscore" (bertscore cfg) ;;
           Ok (BertScore.score sources hyps refs None
                 (getattr (bertscore_model table) "microsoft/mdeberta-v3-base")
                 (getattr (bertscore_batch_size table) 32%Z))) st ;;
  st <- add_metric (str_in "comet" metrics_to_run) "comet"
          (table <- attr "comet" (comet cfg) ;;
           model <- attr "model" (model table) ;;
           batch_size <- attr "batch_size" (batch_size table) ;;
           gpus <- attr "gpus" (gpus table) ;;
           Ok (Comet.score sources hyps refs None model batch_size gpus)) st ;;
  st <- add_metric (str_in "xcomet" metrics_to_run) "xcomet"
          (table <- attr "xcomet" (xcomet cfg) ;;
           model <- attr "model" (model table) ;;
           batch_size <- attr "batch_size" (batch_size table) ;;
           gpus <- attr "gpus" (gpus table) ;;
           Ok (Comet.score_xcomet sources hyps refs None
                 model batch_size gpus)) st ;;
  add_metric (getattr (run_gemba cfg) false) "gemba"
    (Pipeline.gemba_column (gemba_model cfg) sources hyps refs) st.

(** The six steps of [_run_metrics], listed: whether the metric is
    selected, the name of its column, and its scores. *)
Record MetricStep : Type := {
  step_selected : bool;
  step_name : string;
  step_computed : result (list Q)
}.

Definition metric_steps (scores_df : SegmentTable) (cfg : MetricsSettings)
  : list MetricStep :=
  let sources := map source (segments scores_df) in
  let hyps := map hypothesis (segments scores_df) in
  let refs := map reference (segments scores_df) in
  [ {| step_selected := str_in "bleu" (run cfg);
       step_name := "bleu";
       step_computed := Ok (Bleu.score sources hyps refs None) |};
    {| step_selected := str_in "chrf" (run cfg);
       step_name := "chrf";
       step_computed := Ok (Chrf.score sources hyps refs None) |};
    {| step_selected := str_in "bertscore" (run cfg);
       step_name := "bertscore";
       step_computed :=
         table <- attr "bertscore" (bertscore cfg) ;;
         Ok (BertScore.score sources hyps refs None
               (getattr (bertscore_model table) "microsoft/mdeberta-v3-base")
               (getattr (bertscore_batch_size table) 32%Z)) |};
    {| step_selected := str_in "comet" (run cfg);
       step_name := "comet";
       step_computed :=
         table <- attr "comet" (comet cfg) ;;
         model <- attr "model" (model table) ;;
         batch_size <- attr "batch_size" (batch_size table) ;;
         gpus <- attr "gpus" (gpus table) ;;
         Ok (Comet.score sources hyps refs None model batch_size gpus) |};
    {| step_selected := str_in "xcomet" (run cfg);
       step_name := "xcomet";
       step_computed :=
         table <- attr "xcomet" (xcomet cfg) ;;
         model <- attr "model" (model table) ;;
         batch_size <- attr "batch_size" (batch_size table) ;;
         gpus <- attr "gpus" (gpus table) ;;
         Ok (Comet.score_xcomet sources hyps refs None
               model batch_size gpus) |};
    {| step_selected := getattr (run_gemba cfg) false;
       step_name := "gemba";
       step_computed :=
         Pipeline.gemba_column (gemba_model cfg) sources hyps refs |} ].

(** Steps taken one after the other, the first exception ending the
    run. *)
Fixpoint run_steps (steps : list MetricStep) (state : SegmentTable * list string)
  : result (SegmentTable * list string) :=
  match steps with
  | [] => Ok state
  | step :: steps' =>
      st <- add_metric (step_selected step) (step_name step)
                       (step_computed step) state ;;
      run_steps steps' st
  end.

End Metrics.

(** *** Vocabulary of the statements about [_run_metrics] *)

(** The names of the selected steps. *)
Definition selected_names (steps : list MetricStep) : list string :=
  map step_name (filter step_selected steps).

(** The metric names in the order in which [_run_metrics] treats them. *)
Definition METRIC_ORDER : list string :=
  ["bleu"; "chrf"; "bertscore"; "comet"; "xcomet"; "gemba"].

(** The metric is selected by the settings. *)
Definition selected (cfg : MetricsSettings) (name : string) : bool :=
  if String.eqb name "gemba" then getattr (run_gemba cfg) false
  else str_in name (run cfg).

(** The three settings of a COMET table are there. *)
Definition comet_set (table : option CometSettings) : bool :=
  match table with
  | Some t =>
      match model t, batch_size t, gpus t with
      | Some _, Some _, Some _ => true
      | _, _, _ => false
      end
  | None => false
  end.

(** The settings that the selected metrics read as attributes are
    there: the table of BERTScore, and the table of COMET and of xCOMET
    with its three settings. *)
Definition tables_set (cfg : MetricsSettings) : bool :=
  (negb (str_in "bertscore" (run cfg))
   || match bertscore cfg with Some _ => true | None => false end)
  && (negb (str_in "comet" (run cfg)) || comet_set (comet cfg))
  && (negb (str_in "xcomet" (run cfg)) || comet_set (xcomet cfg)).

(** The texts and language of every row. *)
Definition texts (df : SegmentTable)
  : list (string * string * string * string) :=
  map (fun s => (source s, hypothesis s, reference s, row_lang (scores s)))
      (segments df).

(** The values of a float column. *)
Definition column (df : SegmentTable) (name : string) : list pyfloat :=
  map (fun s => cell (scores s) name) (segments df).

End RunMetrics.

(** ** More sample data *)

Module SampleMore.
Import Correlation RunMetrics.

(** Stand-ins for COMET and BERTScore: one score for each entry. *)
Definition sample_comet : CometLib :=
  {| comet_predict_scores := fun _ data _ _ =>
       map (fun d => if String.eqb (mt d) (ref d) then 1 else 1 # 2) data |}.

Definition sample_bertscore : BertScoreLib :=
  {| bert_score_f1 := fun cands refs _ _ _ =>
       map (fun cr => if String.eqb (fst cr) (snd cr) then 1 else 1 # 3)
           (combine cands refs) |}.

Definition segment (l src hyp ref : string) (human : Q) : SegmentRow :=
  {| source := src; hypothesis := hyp; reference := ref;
     scores := {| row_lang := l;
                  cell := fun c => if String.eqb c "quality_score"
                                   then Fin human else NaN |} |}.

Definition sample_segments : SegmentTable :=
  {| score_columns := ["quality_score"];
     segments := [ segment "es" "Hello world." "Hola mundo." "Hola mundo." 1;
                   segment "es" "Good night." "Buenas." "Buenas noches." (1 # 2);
                   segment "th" "Yes." "Chai." "Chai." 1 ] |}.

Definition settings (names : list string) (gemba : option bool)
  : MetricsSettings :=
  {| run := names;
     bertscore := Some {| bertscore_model := None;
                          bertscore_batch_size := None |};
     comet := Some {| model := Some "Unbabel/wmt22-comet-da";
                      batch_size := Some 16%Z; gpus := Some 0%Z |};
     xcomet := Some {| model := Some "Unbabel/XCOMET-XL";
                       batch_size := Some 8%Z; gpus := Some 0%Z |};
     run_gemba := gemba;
     gemba_model := "llm" |}.

End SampleMore.

(* ================================================================== *)
(** * Part II. Auxiliary facts                                           *)
(* ================================================================== *)

(** ** The order on strings and on tuples of strings *)

Module StrOrder.

Lemma compare_refl (s : string) : String.compare s s = Eq.
Proof.
  induction s as [|c s IH]; simpl; [reflexivity|].
  unfold Ascii.compare. rewrite N.compare_refl. exact IH.
Qed.

Lemma compare_eq (a b : string) : String.compare a b = Eq -> a = b.
Proof. apply String.compare_eq_iff. Qed.

Lemma compare_lt_gt (a b : string) :
  String.compare a b = Gt -> String.compare b a = Lt.
Proof.
  intros H. rewrite String.compare_antisym, H. reflexivity.
Qed.

Lemma compare_gt_lt (a b : string) :
  String.compare a b = Lt -> String.compare b a = Gt.
Proof.
  intros H. rewrite String.compare_antisym, H. reflexivity.
Qed.

Lemma compare_lt_trans (a b c : string) :
  String.compare a b = Lt -> String.compare b c = Lt -> String.compare a c = Lt.
Proof.
  intros H1 H2.
  apply String_as_OT.cmp_lt. apply String_as_OT.cmp_lt in H1, H2.
  exact (@String_as_OT.lt_trans a b c H1 H2).
Qed.

Lemma leb_refl (s : string) : String.leb s s = true.
Proof. unfold String.leb. rewrite compare_refl. reflexivity. Qed.

Lemma leb_trans (a b c : string) :
  String.leb a b = true -> String.leb b c = true -> String.leb a c = true.
Proof.
  unfold String.leb. intros H1 H2.
  destruct (String.compare a b) eqn:E1; try discriminate;
    destruct (String.compare b c) eqn:E2; try discriminate.
  - apply compare_eq in E1, E2. subst. rewrite compare_refl. reflexivity.
  - apply compare_eq in E1. subst. rewrite E2. reflexivity.
  - apply compare_eq in E2. subst. rewrite E1. reflexivity.
  - rewrite (compare_lt_trans _ _ _ E1 E2). reflexivity.
Qed.

(** [leb2] unfolded into its two cases. *)
Lemma leb2_spec (a b : string * string) :
  leb2 a b = true <->
  String.compare (fst a) (fst b) = Lt \/
  (fst a = fst b /\ String.leb (snd a) (snd b) = true).
Proof.
  unfold leb2. destruct (String.compare (fst a) (fst b)) eqn:E; split.
  - intros H. right. split; [apply compare_eq, E | exact H].
  - intros [H | [_ H]]; [discriminate | exact H].
  - intros _. left. reflexivity.
  - reflexivity.
  - discriminate.
  - intros [H | [H _]]; [discriminate|].
    rewrite H, compare_refl in E. discriminate.
Qed.

Lemma leb2_refl (a : string * string) : leb2 a a = true.
Proof. apply leb2_spec. right. split; [reflexivity | apply leb_refl]. Qed.

Lemma leb2_total (a b : string * string) : leb2 a b = true \/ leb2 b a = true.
Proof.
  destruct (String.compare (fst a) (fst b)) eqn:E.
  - apply compare_eq in E.
    destruct (String.leb_total (snd a) (snd b)) as [H | H].
    + left. apply leb2_spec. right. split; assumption.
    + right. apply leb2_spec. right. split; [symmetry|]; assumption.
  - left. apply leb2_spec. left. exact E.
  - right. apply leb2_spec. left. apply compare_lt_gt, E.
Qed.

Lemma leb2_trans (a b c : string * string) :
  leb2 a b = true -> leb2 b c = true -> leb2 a c = true.
Proof.
  rewrite !leb2_spec.
  intros [H1 | [E1 H1]] [H2 | [E2 H2]].
  - left. eapply compare_lt_trans; eassumption.
  - left. rewrite <- E2. exact H1.
  - left. rewrite E1. exact H2.
  - right. split; [congruence | eapply leb_trans; eassumption].
Qed.

Lemma leb2_antisym (a b : string * string) :
  leb2 a b = true -> leb2 b a = true -> a = b.
Proof.
  rewrite !leb2_spec. destruct a as [a1 a2], b as [b1 b2]. simpl.
  intros [H1 | [E1 H1]] [H2 | [E2 H2]].
  - apply compare_gt_lt in H1. congruence.
  - subst. rewrite compare_refl in H1. discriminate.
  - subst. rewrite compare_refl in H2. discriminate.
  - subst. f_equal. apply String.leb_antisym; assumption.
Qed.

Lemma leb3_spec (a b : string * string * string) :
  leb3 a b = true <->
  String.compare (fst (fst a)) (fst (fst b)) = Lt \/
  (fst (fst a) = fst (fst b) /\
   leb2 (snd (fst a), snd a) (snd (fst b), snd b) = true).
Proof.
  unfold leb3. destruct (String.compare (fst (fst a)) (fst (fst b))) eqn:E; split.
  - intros H. right. split; [apply compare_eq, E | exact H].
  - intros [H | [_ H]]; [discriminate | exact H].
  - intros _. left. reflexivity.
  - reflexivity.
  - discriminate.
  - intros [H | [H _]]; [discriminate|].
    rewrite H, compare_refl in E. discriminate.
Qed.

Lemma leb3_refl (a : string * string * string) : leb3 a a = true.
Proof. apply leb3_spec. right. split; [reflexivity | apply leb2_refl]. Qed.

Lemma leb3_total (a b : string * string * string) :
  leb3 a b = true \/ leb3 b a = true.
Proof.
  destruct (String.compare (fst (fst a)) (fst (fst b))) eqn:E.
  - apply compare_eq in E.
    destruct (leb2_total (snd (fst a), snd a) (snd (fst b), snd b)) as [H | H].
    + left. apply leb3_spec. right. split; assumption.
    + right. apply leb3_spec. right. split; [symmetry|]; assumption.
  - left. apply leb3_spec. left. exact E.
  - right. apply leb3_spec. left. apply compare_lt_gt, E.
Qed.

Lemma leb3_trans (a b c : string * string * string) :
  leb3 a b = true -> leb3 b c = true -> leb3 a c = true.
Proof.
  rewrite !leb3_spec.
  intros [H1 | [E1 H1]] [H2 | [E2 H2]].
  - left. eapply compare_lt_trans; eassumption.
  - left. rewrite <- E2. exact H1.
  - left. rewrite E1. exact H2.
  - right. split; [congruence | eapply leb2_trans; eassumption].
Qed.

End StrOrder.

(** ** The stable sort *)

Module SortFacts.

Section Generic.
Variable A : Type.
Variable leb : A -> A -> bool.

Local Abbreviation le := (Py.le leb).

Lemma insert_perm (x : A) (l : list A) : Permutation (x :: l) (insert leb x l).
Proof.
  induction l as [|y l IH]; simpl.
  - apply Permutation_refl.
  - destruct (leb x y).
    + apply Permutation_refl.
    + eapply perm_trans; [apply perm_swap|]. apply perm_skip, IH.
Qed.

Lemma stable_sort_perm (l : list A) : Permutation l (stable_sort leb l).
Proof.
  induction l as [|x l IH]; simpl.
  - apply perm_nil.
  - eapply perm_trans; [apply perm_skip, IH | apply insert_perm].
Qed.

Lemma stable_sort_In (x : A) (l : list A) : In x (stable_sort leb l) <-> In x l.
Proof.
  split; intros H.
  - eapply Permutation_in; [apply Permutation_sym, stable_sort_perm | exact H].
  - eapply Permutation_in; [apply stable_sort_perm | exact H].
Qed.

Lemma stable_sort_NoDup (l : list A) : NoDup l -> NoDup (stable_sort leb l).
Proof. apply Permutation_NoDup, stable_sort_perm. Qed.

(** An element whose class under [p] is below everything of that class
    is inserted in front of the class: the sort never reorders the
    members of one class. *)
Lemma filter_insert (p : A -> bool) (x : A) (l : list A) :
  (forall y, p x = true -> p y = true -> leb x y = true) ->
  filter p (insert leb x l) = filter p (x :: l).
Proof.
  intros Hp. induction l as [|y l IH]; simpl; [reflexivity|].
  destruct (leb x y) eqn:Exy; simpl; [reflexivity|].
  simpl in IH. rewrite IH.
  case_eq (p x); intros Epx; [|reflexivity].
  case_eq (p y); intros Epy; [|reflexivity].
  rewrite (Hp y Epx Epy) in Exy. discriminate.
Qed.

Lemma filter_stable_sort (p : A -> bool) (l : list A) :
  (forall x y, p x = true -> p y = true -> leb x y = true) ->
  filter p (stable_sort leb l) = filter p l.
Proof.
  intros Hp. induction l as [|x l IH]; simpl; [reflexivity|].
  rewrite filter_insert by (intros y; apply Hp).
  simpl. rewrite IH. reflexivity.
Qed.

Section Total.
Hypothesis leb_total : forall a b, leb a b = true \/ leb b a = true.

Lemma insert_hdrel (a x : A) (l : list A) :
  le a x -> HdRel le a l -> HdRel le a (insert leb x l).
Proof.
  intros Hax Hl. destruct l as [|y l]; simpl.
  - constructor. exact Hax.
  - destruct (leb x y); constructor; [exact Hax|].
    inversion Hl; assumption.
Qed.

Lemma insert_sorted (x : A) (l : list A) :
  Sorted le l -> Sorted le (insert leb x l).
Proof.
  induction 1 as [|y l Hs IH Hhd]; simpl.
  - repeat constructor.
  - destruct (leb x y) eqn:Exy.
    + constructor; [constructor; assumption|]. constructor. exact Exy.
    + constructor; [exact IH|].
      apply insert_hdrel; [|exact Hhd].
      destruct (leb_total x y) as [H | H]; [congruence | exact H].
Qed.

Lemma stable_sort_sorted (l : list A) : Sorted le (stable_sort leb l).
Proof.
  induction l as [|x l IH]; simpl; [constructor | apply insert_sorted, IH].
Qed.

Section Order.
Hypothesis leb_trans :
  forall a b c, leb a b = true -> leb b c = true -> leb a c = true.

Lemma stable_sort_strongly_sorted (l : list A) :
  StronglySorted le (stable_sort leb l).
Proof.
  apply Sorted_StronglySorted; [|apply stable_sort_sorted].
  intros a b c. apply leb_trans.
Qed.

Hypothesis leb_antisym : forall a b, leb a b = true -> leb b a = true -> a = b.

Lemma leb_refl_of_total (a : A) : leb a a = true.
Proof. destruct (leb_total a a); assumption. Qed.

(** Two sorted lists with the same elements are the same list. *)
Lemma strongly_sorted_perm_eq (l l' : list A) :
  StronglySorted le l -> StronglySorted le l' -> Permutation l l' -> l = l'.
Proof.
  intros Hl. revert l'.
  induction Hl as [|a l Hs IH Ha]; intros l' Hl' Hp.
  - apply Permutation_nil in Hp. symmetry. exact Hp.
  - destruct Hl' as [|b l' Hs' Hb].
    + apply Permutation_sym, Permutation_nil in Hp. discriminate.
    + assert (Hab : a = b).
      { assert (Hin1 : In a (b :: l'))
          by (eapply Permutation_in; [exact Hp | left; reflexivity]).
        assert (Hin2 : In b (a :: l))
          by (eapply Permutation_in;
              [apply Permutation_sym; exact Hp | left; reflexivity]).
        destruct Hin1 as [E | Hin1]; [symmetry; exact E|].
        destruct Hin2 as [E | Hin2]; [exact E|].
        apply leb_antisym.
        - rewrite Forall_forall in Ha. apply Ha, Hin2.
        - rewrite Forall_forall in Hb. apply Hb, Hin1. }
      subst b. f_equal. apply IH; [exact Hs'|].
      eapply Permutation_cons_inv. exact Hp.
Qed.

Lemma stable_sort_perm_eq (l l' : list A) :
  Permutation l l' -> stable_sort leb l = stable_sort leb l'.
Proof.
  intros Hp. apply strongly_sorted_perm_eq.
  - apply stable_sort_strongly_sorted.
  - apply stable_sort_strongly_sorted.
  - eapply perm_trans; [apply Permutation_sym, stable_sort_perm|].
    eapply perm_trans; [exact Hp | apply stable_sort_perm].
Qed.

Variable eq_dec : forall x y : A, {x = y} + {x <> y}.

Lemma sorted_unique_In (x : A) (l : list A) :
  In x (sorted_unique eq_dec leb l) <-> In x l.
Proof.
  unfold sorted_unique. rewrite stable_sort_In. apply nodup_In.
Qed.

Lemma sorted_unique_NoDup (l : list A) : NoDup (sorted_unique eq_dec leb l).
Proof. apply stable_sort_NoDup, NoDup_nodup. Qed.

Lemma sorted_unique_sorted (l : list A) :
  StronglySorted le (sorted_unique eq_dec leb l).
Proof. apply stable_sort_strongly_sorted. Qed.

(** The sorted distinct values depend on the values only, not on their
    order or multiplicity. *)
Lemma sorted_unique_ext (l l' : list A) :
  (forall x, In x l <-> In x l') ->
  sorted_unique eq_dec leb l = sorted_unique eq_dec leb l'.
Proof.
  intros H. apply stable_sort_perm_eq.
  apply NoDup_Permutation; try apply NoDup_nodup.
  intros x. rewrite !nodup_In. apply H.
Qed.

End Order.
End Total.
End Generic.

End SortFacts.

(** ** Loops and lists *)

Module PyFacts.

Lemma str_in_In (x : string) (xs : list string) : str_in x xs = true <-> In x xs.
Proof.
  unfold str_in. rewrite existsb_exists. split.
  - intros [y [Hy E]]. apply String.eqb_eq in E. subst y. exact Hy.
  - intros H. exists x. split; [exact H | apply String.eqb_refl].
Qed.

Lemma str_in_false (x : string) (xs : list string) :
  str_in x xs = false <-> ~ In x xs.
Proof.
  rewrite <- str_in_In. destruct (str_in x xs); split; congruence.
Qed.

(** A loop none of whose iterations raises returns what the iterations
    append, in order. *)
Lemma for_extend_ok (A B : Type) (f : A -> result (list B)) (g : A -> list B)
  (xs : list A) :
  (forall x, In x xs -> f x = Ok (g x)) -> for_extend f xs = Ok (flat_map g xs).
Proof.
  induction xs as [|x xs IH]; intros H; simpl; [reflexivity|].
  rewrite (H x (or_introl eq_refl)). simpl.
  rewrite IH by (intros y Hy; apply H; right; exact Hy).
  reflexivity.
Qed.

(** A loop one of whose iterations raises, raises: the exception is that
    of the first failing iteration. *)
Lemma for_extend_raise (A B : Type) (f : A -> result (list B)) (xs : list A)
  (x : A) (e : exn) :
  In x xs -> f x = Raise e ->
  exists x' e', In x' xs /\ f x' = Raise e' /\ for_extend f xs = Raise e'.
Proof.
  induction xs as [|y xs IH]; intros Hin Hx; [contradiction|].
  simpl. destruct (f y) as [ys | e'] eqn:Ey.
  - destruct Hin as [E | Hin]; [subst y; congruence|].
    destruct (IH Hin Hx) as [x' [e'' [Hin' [Hx' Hfor]]]].
    exists x', e''. split; [right; exact Hin'|]. split; [exact Hx'|].
    simpl. rewrite Hfor. reflexivity.
  - exists y, e'. split; [left; reflexivity|]. split; [exact Ey | reflexivity].
Qed.

Lemma flat_map_map (A B C : Type) (h : A -> B) (f : B -> list C) (l : list A) :
  flat_map f (map h l) = flat_map (fun x => f (h x)) l.
Proof.
  induction l as [|x l IH]; simpl; [reflexivity | rewrite IH; reflexivity].
Qed.

Lemma filter_flat_map (A B : Type) (p : B -> bool) (f : A -> list B) (l : list A) :
  filter p (flat_map f l) = flat_map (fun x => filter p (f x)) l.
Proof.
  induction l as [|x l IH]; simpl; [reflexivity|].
  rewrite filter_app, IH. reflexivity.
Qed.

Lemma filter_perm (A : Type) (p : A -> bool) (l l' : list A) :
  Permutation l l' -> Permutation (filter p l) (filter p l').
Proof.
  induction 1 as [| x l l' _ IH | x y l | l l' l'' _ IH1 _ IH2]; simpl.
  - apply perm_nil.
  - destruct (p x); [apply perm_skip|]; exact IH.
  - destruct (p x), (p y); try apply Permutation_refl. apply perm_swap.
  - eapply perm_trans; eassumption.
Qed.

(** When only the iteration for [x0] contributes to a selection, the
    selection from the whole loop is that contribution. *)
Lemma flat_map_single (A B : Type) (eqb : A -> A -> bool)
  (f : A -> list B) (x0 : A) (l : list A) :
  (forall x y, eqb x y = true <-> x = y) ->
  NoDup l ->
  (forall x, x <> x0 -> f x = []) ->
  flat_map f l = if existsb (eqb x0) l then f x0 else [].
Proof.
  intros Heqb Hnd Hf. induction Hnd as [|x l Hx Hnd IH]; simpl; [reflexivity|].
  rewrite IH. destruct (eqb x0 x) eqn:E; simpl.
  - apply Heqb in E. subst x.
    destruct (existsb (eqb x0) l) eqn:El.
    + exfalso. apply Hx. apply existsb_exists in El.
      destruct El as [y [Hy Ey]]. apply Heqb in Ey. subst y. exact Hy.
    + apply app_nil_r.
  - rewrite Hf; [reflexivity|].
    intros ->. assert (eqb x0 x0 = true) by (apply Heqb; reflexivity). congruence.
Qed.

End PyFacts.

(** ** The correlation engine *)

Module EngineFacts.
Import Correlation EngineSpec PyFacts.

Section Engine.
Context {scipy : SciPyStats}.

Lemma correlate_fields (human metric_vals : list pyfloat) (m l : string) :
  let r := correlate_metric_vs_human human metric_vals m l in
  res_lang r = l /\ res_metric r = m /\ res_n r = List.length human.
Proof.
  unfold correlate_metric_vs_human.
  destruct (List.length human <? 3)%nat; simpl.
  - repeat split.
  - destruct (_pearson human metric_vals), (_spearman human metric_vals).
    simpl. repeat split.
Qed.

Lemma correlate_small (human metric_vals : list pyfloat) (m l : string) :
  (List.length human < 3)%nat ->
  let r := correlate_metric_vs_human human metric_vals m l in
  res_pearson_r r = None /\ res_pearson_p r = None /\
  res_spearman_r r = None /\ res_spearman_p r = None.
Proof.
  intros H. unfold correlate_metric_vs_human.
  apply Nat.ltb_lt in H. rewrite H. simpl. repeat split.
Qed.

Lemma collect_rows_ok (scores_df : ScoreTable) (metric_columns : list string)
  (human_column : string) (resource_tiers : dict (list string)) :
  str_in human_column (columns scores_df) = true ->
  collect_rows scores_df metric_columns human_column resource_tiers =
  Ok (collected (columns scores_df) (lang_to_tier resource_tiers)
                metric_columns human_column (rows scores_df)).
Proof.
  intros Hcol. unfold collect_rows, groupby_lang, collected.
  rewrite <- flat_map_map
    with (h := fun k => (k, filter (fun r => String.eqb (row_lang r) k)
                                   (rows scores_df)))
         (f := fun g => flat_map
                 (metric_rows (columns scores_df) (lang_to_tier resource_tiers)
                    (fst g) (snd g)
                    (map (fun r => cell r human_column) (snd g)))
                 metric_columns).
  apply for_extend_ok. intros g _.
  unfold group_rows, column_tolist. rewrite Hcol. reflexivity.
Qed.

Lemma run_ok (scores_df : ScoreTable) (metric_columns : list string)
  (human_column : string) (resource_tiers : option (dict (list string))) :
  str_in human_column (columns scores_df) = true ->
  run_correlation_analysis scores_df metric_columns human_column resource_tiers =
  Ok (sort_values
        (collected (columns scores_df) (tiers_of resource_tiers)
                   metric_columns human_column (rows scores_df))).
Proof.
  intros Hcol. unfold run_correlation_analysis.
  rewrite collect_rows_ok by exact Hcol. reflexivity.
Qed.

Lemma sort_values_In (r : CorrelationRecord) (rs : list CorrelationRecord) :
  In r (sort_values rs) <-> In r rs.
Proof. apply SortFacts.stable_sort_In. Qed.

(** Where a collected record comes from. *)
Lemma in_collected (cols : list string) (tiers : dict string)
  (metric_columns : list string) (human_column : string)
  (rs : list ScoreRow) (r : CorrelationRecord) :
  In r (collected cols tiers metric_columns human_column rs) <->
  exists k m,
    In k (map row_lang rs) /\ In m metric_columns /\ In m cols /\
    let group := filter (fun x => String.eqb (row_lang x) k) rs in
    r = add_tier tiers
          (correlate_metric_vs_human
             (map (fun x => cell x human_column) group)
             (map (fun x => cell x m) group) m k).
Proof.
  unfold collected. rewrite in_flat_map. split.
  - intros [k [Hk Hr]]. apply in_flat_map in Hr. destruct Hr as [m [Hm Hr]].
    unfold metric_rows in Hr.
    destruct (str_in m cols) eqn:Em; simpl in Hr; [|contradiction].
    destruct Hr as [Hr | []].
    exists k, m. repeat split.
    + unfold sorted_unique in Hk.
      apply (proj1 (SortFacts.stable_sort_In String.leb _ _)) in Hk.
      apply (proj1 (nodup_In _ _ _)) in Hk. exact Hk.
    + exact Hm.
    + apply str_in_In, Em.
    + symmetry. exact Hr.
  - intros [k [m [Hk [Hm [Hc Hr]]]]]. exists k. split.
    + apply SortFacts.stable_sort_In, nodup_In, Hk.
    + apply in_flat_map. exists m. split; [exact Hm|].
      unfold metric_rows. apply str_in_In in Hc. rewrite Hc. simpl.
      left. symmetry. exact Hr.
Qed.

(** *** The sort of the result rows *)

Lemma ltb_compare (a b : string) :
  String.ltb a b = true <-> String.compare a b = Lt.
Proof.
  unfold String.ltb. destruct (String.compare a b); split; congruence.
Qed.

Lemma row_leb_key_le (a b : CorrelationRecord) :
  row_leb a b = true <-> key_le a b.
Proof.
  unfold row_leb, key_le. rewrite StrOrder.leb3_spec, StrOrder.leb2_spec.
  unfold sort_key. simpl. rewrite !ltb_compare. reflexivity.
Qed.

Lemma row_leb_total (a b : CorrelationRecord) :
  row_leb a b = true \/ row_leb b a = true.
Proof. apply StrOrder.leb3_total. Qed.

Lemma row_leb_trans (a b c : CorrelationRecord) :
  row_leb a b = true -> row_leb b c = true -> row_leb a c = true.
Proof. apply StrOrder.leb3_trans. Qed.

Lemma sort_values_perm (rs : list CorrelationRecord) :
  Permutation rs (sort_values rs).
Proof. apply SortFacts.stable_sort_perm. Qed.

Lemma sort_values_sorted (rs : list CorrelationRecord) :
  StronglySorted key_le (sort_values rs).
Proof.
  assert (H : StronglySorted (Py.le row_leb) (sort_values rs)).
  { apply SortFacts.stable_sort_strongly_sorted.
    - exact row_leb_total.
    - exact row_leb_trans. }
  induction H as [|a l _ IH Ha]; constructor; [exact IH|].
  eapply Forall_impl; [|exact Ha].
  intros b Hb. apply row_leb_key_le, Hb.
Qed.

(** Records with the same sort key leave the sort in the order in which
    they entered it. *)
Lemma sort_values_stable (k : string * string * string)
  (rs : list CorrelationRecord) :
  with_key k (sort_values rs) = with_key k rs.
Proof.
  unfold with_key, sort_values. apply SortFacts.filter_stable_sort.
  intros x y Hx Hy.
  destruct (key3_eq_dec (sort_key x) k) as [Ex|]; [|discriminate].
  destruct (key3_eq_dec (sort_key y) k) as [Ey|]; [|discriminate].
  rewrite Ex, Ey. apply StrOrder.leb3_refl.
Qed.

(** *** Counting the records of one language and metric *)

Lemma add_tier_lang (tiers : dict string) (human metric_vals : list pyfloat)
  (m l : string) :
  lang (add_tier tiers (correlate_metric_vs_human human metric_vals m l)) = l.
Proof. simpl. apply correlate_fields. Qed.

Lemma add_tier_metric (tiers : dict string) (human metric_vals : list pyfloat)
  (m l : string) :
  metric (add_tier tiers (correlate_metric_vs_human human metric_vals m l)) = m.
Proof. simpl. apply correlate_fields. Qed.

Lemma records_for_other_lang (cols : list string) (tiers : dict string)
  (k l m : string) (group : list ScoreRow) (human : list pyfloat)
  (metric_columns : list string) :
  k <> l ->
  records_for l m (flat_map (metric_rows cols tiers k group human) metric_columns)
  = [].
Proof.
  intros Hkl. unfold records_for. rewrite filter_flat_map.
  induction metric_columns as [|m' ms IH]; simpl; [reflexivity|].
  rewrite IH, app_nil_r. unfold metric_rows.
  destruct (str_in m' cols); simpl; [|reflexivity].
  rewrite (proj1 (correlate_fields _ _ _ _)).
  apply String.eqb_neq in Hkl. rewrite Hkl. reflexivity.
Qed.

Lemma records_for_same_lang (cols : list string) (tiers : dict string)
  (l m : string) (group : list ScoreRow) (human : list pyfloat)
  (metric_columns : list string) :
  List.length
    (records_for l m
       (flat_map (metric_rows cols tiers l group human) metric_columns))
  = if str_in m cols then count_occ string_dec metric_columns m else 0%nat.
Proof.
  unfold records_for. rewrite filter_flat_map.
  induction metric_columns as [|m' ms IH]; simpl.
  - destruct (str_in m cols); reflexivity.
  - rewrite length_app, IH. unfold metric_rows.
    destruct (string_dec m' m) as [E | NE].
    + subst m'. destruct (str_in m cols); simpl; [|reflexivity].
      rewrite (proj1 (correlate_fields _ _ _ _)).
      rewrite (proj1 (proj2 (correlate_fields _ _ _ _))).
      rewrite !String.eqb_refl. reflexivity.
    + destruct (str_in m' cols); simpl; [|reflexivity].
      rewrite (proj1 (proj2 (correlate_fields _ _ _ _))).
      apply String.eqb_neq in NE. rewrite NE, andb_false_r. reflexivity.
Qed.

Lemma lang_present_keys (scores_df : ScoreTable) (l : string) :
  lang_present scores_df l <->
  existsb (String.eqb l)
    (sorted_unique string_dec String.leb (map row_lang (rows scores_df))) = true.
Proof.
  fold (str_in l
    (sorted_unique string_dec String.leb (map row_lang (rows scores_df)))).
  rewrite str_in_In. unfold sorted_unique.
  rewrite SortFacts.stable_sort_In, nodup_In, in_map_iff.
  unfold lang_present. split; intros [r [H1 H2]]; exists r; tauto.
Qed.

Lemma records_for_collected (scores_df : ScoreTable) (tiers : dict string)
  (metric_columns : list string) (human_column l m : string) :
  List.length
    (records_for l m
       (collected (columns scores_df) tiers metric_columns human_column
                  (rows scores_df)))
  = if existsb (String.eqb l)
         (sorted_unique string_dec String.leb (map row_lang (rows scores_df)))
       && str_in m (columns scores_df)
    then count_occ string_dec metric_columns m else 0%nat.
Proof.
  unfold collected, records_for. rewrite filter_flat_map.
  rewrite (@flat_map_single _ _ String.eqb _ l).
  - destruct (existsb (String.eqb l) _); simpl; [|reflexivity].
    apply records_for_same_lang.
  - intros x y. apply String.eqb_eq.
  - apply SortFacts.stable_sort_NoDup, NoDup_nodup.
  - intros k Hk. apply records_for_other_lang. exact Hk.
Qed.

(** *** Reordering the rows of the score table *)

Lemma groupby_lang_keys_perm (rs rs' : list ScoreRow) :
  Permutation rs rs' ->
  sorted_unique string_dec String.leb (map row_lang rs) =
  sorted_unique string_dec String.leb (map row_lang rs').
Proof.
  intros Hperm. apply SortFacts.sorted_unique_ext.
  - exact String.leb_total.
  - exact StrOrder.leb_trans.
  - exact String.leb_antisym.
  - intros x. split; apply Permutation_in.
    + apply Permutation_map, Hperm.
    + apply Permutation_map, Permutation_sym, Hperm.
Qed.

(** *** What does not depend on the statistics *)

Lemma flat_map_Forall2 (A B : Type) (R : B -> B -> Prop)
  (f f' : A -> list B) (l : list A) :
  (forall x, Forall2 R (f x) (f' x)) ->
  Forall2 R (flat_map f l) (flat_map f' l).
Proof.
  intros H. induction l as [|x l IH]; simpl; [constructor|].
  apply Forall2_app; [apply H | exact IH].
Qed.

Lemma metric_rows_layout (cols : list string) (tiers : dict string)
  (k m : string) (group group' : list ScoreRow) (human human' : list pyfloat) :
  List.length human = List.length human' ->
  Forall2 same_layout
    (metric_rows cols tiers k group human m)
    (metric_rows cols tiers k group' human' m).
Proof.
  intros Hlen. unfold metric_rows.
  destruct (str_in m cols); simpl; constructor; [|constructor].
  unfold same_layout. simpl.
  destruct (correlate_fields human (map (fun r => cell r m) group) m k)
    as [H1 [H2 H3]].
  destruct (correlate_fields human' (map (fun r => cell r m) group') m k)
    as [H1' [H2' H3']].
  rewrite H1, H1', H2, H2', H3, H3', Hlen. repeat split.
Qed.

Lemma insert_layout (x x' : CorrelationRecord) (l l' : list CorrelationRecord) :
  same_layout x x' -> Forall2 same_layout l l' ->
  Forall2 same_layout (insert row_leb x l) (insert row_leb x' l').
Proof.
  intros Hx Hl. induction Hl as [|y y' l l' Hy Hl IH]; simpl.
  - constructor; [exact Hx | constructor].
  - assert (E : row_leb x y = row_leb x' y').
    { unfold row_leb, sort_key.
      destruct Hx as [Hx1 [Hx2 [Hx3 _]]], Hy as [Hy1 [Hy2 [Hy3 _]]].
      rewrite Hx1, Hx2, Hx3, Hy1, Hy2, Hy3. reflexivity. }
    rewrite E. destruct (row_leb x' y').
    + constructor; [exact Hx|]. constructor; assumption.
    + constructor; assumption.
Qed.

Lemma sort_values_layout (l l' : list CorrelationRecord) :
  Forall2 same_layout l l' ->
  Forall2 same_layout (sort_values l) (sort_values l').
Proof.
  unfold sort_values. fold row_leb.
  induction 1 as [|x x' l l' Hx Hl IH]; simpl; [constructor|].
  apply insert_layout; assumption.
Qed.

Lemma group_rows_layout (cols : list string) (tiers : dict string)
  (metric_columns : list string) (human_column k : string)
  (group group' : list ScoreRow) :
  Permutation group group' ->
  same_layout_result
    (group_rows cols tiers metric_columns human_column (k, group))
    (group_rows cols tiers metric_columns human_column (k, group')).
Proof.
  intros Hperm. unfold group_rows, column_tolist. simpl.
  destruct (str_in human_column cols); simpl; [|reflexivity].
  apply flat_map_Forall2. intros m. apply metric_rows_layout.
  rewrite !length_map. apply Permutation_length, Hperm.
Qed.

Lemma collect_rows_layout (scores_df scores_df' : ScoreTable)
  (metric_columns : list string) (human_column : string)
  (resource_tiers : dict (list string)) :
  columns scores_df = columns scores_df' ->
  Permutation (rows scores_df) (rows scores_df') ->
  same_layout_result
    (collect_rows scores_df metric_columns human_column resource_tiers)
    (collect_rows scores_df' metric_columns human_column resource_tiers).
Proof.
  intros Hcols Hperm. unfold collect_rows, groupby_lang.
  rewrite <- Hcols, <- (groupby_lang_keys_perm Hperm).
  induction (sorted_unique string_dec String.leb (map row_lang (rows scores_df)))
    as [|k ks IH]; simpl; [constructor|].
  pose proof (group_rows_layout (columns scores_df)
                (lang_to_tier resource_tiers) metric_columns human_column k
                (filter_perm (fun r => String.eqb (row_lang r) k) Hperm)) as Hg.
  destruct (group_rows _ _ _ _ (k, filter _ (rows scores_df))) as [ys | e];
    destruct (group_rows _ _ _ _ (k, filter _ (rows scores_df'))) as [ys' | e'];
    simpl in *; try contradiction; [|exact Hg].
  destruct (for_extend _ (map _ ks)) as [zs | e];
    destruct (for_extend _ (map _ ks)) as [zs' | e'];
    simpl in *; try contradiction; [|exact IH].
  apply Forall2_app; assumption.
Qed.

End Engine.

End EngineFacts.

(** ** The tier summarizer *)

Module SummaryFacts.
Import Correlation EngineSpec PyFacts.

Lemma defined_values_filter (col : CorrelationRecord -> option pyfloat)
  (rs : list CorrelationRecord) :
  defined_values col rs = map (value_of col) (filter (is_defined col) rs).
Proof.
  unfold defined_values.
  induction rs as [|r rs IH]; simpl; [reflexivity|].
  rewrite IH. unfold is_defined at 2, value_of at 1.
  destruct (col r) as [[|q]|] eqn:E; simpl; try reflexivity.
  unfold value_of at 1. rewrite E. reflexivity.
Qed.

Lemma mean_skipna_defined (col : CorrelationRecord -> option pyfloat)
  (rs : list CorrelationRecord) :
  mean_skipna (defined_values col rs) = mean_of_defined col rs.
Proof.
  unfold mean_of_defined. rewrite defined_values_filter.
  destruct (filter (is_defined col) rs) as [|r defined]; simpl; [reflexivity|].
  rewrite length_map. reflexivity.
Qed.

Lemma pair_eqb_fields (a b c d : string) :
  pair_eqb (a, b) (c, d) = String.eqb a c && String.eqb b d.
Proof.
  unfold pair_eqb. destruct (pair_eq_dec (a, b) (c, d)) as [E | NE].
  - inversion E. subst. rewrite !String.eqb_refl. reflexivity.
  - destruct (String.eqb_spec a c) as [-> |]; [|reflexivity].
    destruct (String.eqb_spec b d) as [-> |]; [|reflexivity].
    contradiction NE. reflexivity.
Qed.

Lemma group_of_tier_group (m t : string) (rs : list CorrelationRecord) :
  group_of (m, t) rs = tier_group m t rs.
Proof.
  unfold group_of, tier_group. apply filter_ext. intros r.
  unfold tier_key. apply pair_eqb_fields.
Qed.

Lemma groupby_mean_keys (rs : list CorrelationRecord) :
  map ts_key (groupby_mean rs) = sorted_unique pair_eq_dec leb2 (map tier_key rs).
Proof.
  unfold groupby_mean. rewrite map_map. unfold ts_key. simpl.
  rewrite <- (map_id (sorted_unique pair_eq_dec leb2 (map tier_key rs))) at 2.
  apply map_ext. intros [m t]. reflexivity.
Qed.

Lemma in_groupby_mean (rs : list CorrelationRecord) (s : TierSummary) :
  In s (groupby_mean rs) ->
  ts_pearson_r s
  = mean_of_defined pearson_r (tier_group (ts_metric s) (ts_resource_tier s) rs) /\
  ts_spearman_r s
  = mean_of_defined spearman_r (tier_group (ts_metric s) (ts_resource_tier s) rs).
Proof.
  unfold groupby_mean. intros H. apply in_map_iff in H.
  destruct H as [[m t] [E _]]. subst s. simpl.
  rewrite !mean_skipna_defined, group_of_tier_group. split; reflexivity.
Qed.

Lemma ts_leb_ts_key_le (a b : TierSummary) : ts_leb a b = true <-> ts_key_le a b.
Proof.
  unfold ts_leb, ts_key_le, ts_key. rewrite StrOrder.leb2_spec. simpl.
  rewrite EngineFacts.ltb_compare. reflexivity.
Qed.

Lemma summarize_perm (rs : list CorrelationRecord) :
  Permutation (groupby_mean rs) (summarize_by_tier rs).
Proof. apply SortFacts.stable_sort_perm. Qed.

Lemma summarize_sorted (rs : list CorrelationRecord) :
  StronglySorted ts_key_le (summarize_by_tier rs).
Proof.
  assert (H : StronglySorted (Py.le ts_leb) (summarize_by_tier rs)).
  { apply SortFacts.stable_sort_strongly_sorted.
    - intros a b. apply StrOrder.leb2_total.
    - intros a b c. apply StrOrder.leb2_trans. }
  induction H as [|a l _ IH Ha]; constructor; [exact IH|].
  eapply Forall_impl; [|exact Ha].
  intros b Hb. apply ts_leb_ts_key_le, Hb.
Qed.

End SummaryFacts.

(** ** The GEMBA wrapper and its normalization *)

Module GembaFacts.

Lemma severity_penalty_nonneg (sev : string) :
  0 <= dict_get Gemba.SEVERITY_PENALTIES sev 0.
Proof.
  unfold dict_get, Gemba.SEVERITY_PENALTIES. simpl.
  destruct (String.eqb sev "major"); [discriminate|].
  destruct (String.eqb sev "minor"); discriminate.
Qed.

Lemma fold_penalty_nonneg (matches : list string) (acc : Q) :
  0 <= acc ->
  0 <= fold_left
         (fun penalty g =>
            penalty + dict_get Gemba.SEVERITY_PENALTIES (Gemba.lower g) 0)
         matches acc.
Proof.
  revert acc. induction matches as [|g matches IH]; intros acc Hacc; simpl.
  - exact Hacc.
  - apply IH.
    pose proof (severity_penalty_nonneg (Gemba.lower g)) as H.
    apply (Qplus_le_compat 0 acc 0 _ Hacc H).
Qed.

Lemma parse_nonneg (text : string) : 0 <= Gemba._parse_gemba_output text.
Proof.
  unfold Gemba._parse_gemba_output.
  destruct (Gemba.contains "NO ERRORS" (Gemba.upper text)).
  - apply Qle_refl.
  - apply fold_penalty_nonneg, Qle_refl.
Qed.

Section Wrapper.
Context {transformers : Transformers}.

Lemma score_nonneg (sources hypotheses references : list string)
  (lang : option string) (model_name source_lang target_lang : string)
  (batch_size : Z) (raw : list Q) :
  Gemba.score sources hypotheses references lang model_name source_lang
              target_lang batch_size = Ok raw ->
  Forall (fun p => 0 <= p) raw.
Proof.
  unfold Gemba.score.
  destruct (String.eqb model_name ""); [discriminate|].
  destruct (batch_size =? 0)%Z; [discriminate|].
  destruct (batch_size <? 0)%Z; intros H; inversion H; subst; clear H.
  - constructor.
  - apply Forall_flat_map, Forall_forall. intros batch _.
    apply Forall_map, Forall_forall. intros text _. apply parse_nonneg.
Qed.

Lemma score_returns (sources hypotheses references : list string)
  (lang : option string) (model_name source_lang target_lang : string) :
  model_name <> "" ->
  exists raw,
    Gemba.score sources hypotheses references lang model_name source_lang
                target_lang 4 = Ok raw.
Proof.
  intros Hm. unfold Gemba.score.
  apply String.eqb_neq in Hm. rewrite Hm. simpl. eexists. reflexivity.
Qed.

End Wrapper.

Lemma quality_positive (p : Q) : 0 <= p -> 0 < Pipeline.penalty_to_quality p.
Proof.
  intros Hp. unfold Pipeline.penalty_to_quality.
  apply Qlt_shift_div_l; lra.
Qed.

Lemma quality_le_one (p : Q) : 0 <= p -> Pipeline.penalty_to_quality p <= 1.
Proof.
  intros Hp. unfold Pipeline.penalty_to_quality.
  apply Qle_shift_div_r; lra.
Qed.

Lemma quality_one_iff (p : Q) :
  0 <= p -> (Pipeline.penalty_to_quality p == 1 <-> p == 0).
Proof.
  intros Hp. unfold Pipeline.penalty_to_quality. split; intros H.
  - assert (H1 : 1 / (1 + p) * (1 + p) == 1) by (field; lra).
    rewrite H in H1. lra.
  - rewrite H. reflexivity.
Qed.

Lemma quality_decreasing (p q : Q) :
  0 <= p -> p < q ->
  Pipeline.penalty_to_quality q < Pipeline.penalty_to_quality p.
Proof.
  intros Hp Hpq. unfold Pipeline.penalty_to_quality.
  apply Qlt_shift_div_r; [lra|].
  assert (H1 : 1 / (1 + p) * (1 + q) == 1 + (q - p) / (1 + p)) by (field; lra).
  rewrite H1.
  assert (H2 : 0 < (q - p) / (1 + p)) by (apply Qlt_shift_div_l; lra).
  lra.
Qed.

End GembaFacts.

(** ** The surface metric wrappers *)

Module WrapperFacts.

Lemma nth_error_zip (A B : Type) (l : list A) (l' : list B) (i : nat) (a : A) (b : B) :
  nth_error l i = Some a -> nth_error l' i = Some b ->
  nth_error (zip l l') i = Some (a, b).
Proof.
  unfold zip. revert l' i.
  induction l as [|x l IH]; intros l' i Ha Hb.
  - destruct i; discriminate.
  - destruct l' as [|y l']; [destruct i; discriminate|].
    destruct i as [|i]; simpl in *.
    + congruence.
    + apply IH; assumption.
Qed.

Lemma nth_error_both (A B : Type) (l : list A) (l' : list B) (i : nat) :
  (i < Nat.min (List.length l) (List.length l'))%nat ->
  exists a b, nth_error l i = Some a /\ nth_error l' i = Some b.
Proof.
  intros Hi.
  destruct (nth_error l i) as [a|] eqn:Ea.
  - destruct (nth_error l' i) as [b|] eqn:Eb.
    + exists a, b. split; reflexivity.
    + apply nth_error_None in Eb. lia.
  - apply nth_error_None in Ea. lia.
Qed.

Lemma zip_truncates (A B : Type) (l : list A) (l' : list B) :
  let k := Nat.min (List.length l) (List.length l') in
  zip l l' = zip (firstn k l) (firstn k l').
Proof.
  intros k. unfold zip. rewrite <- combine_firstn.
  symmetry. apply firstn_all2. rewrite length_combine. apply Nat.le_refl.
Qed.

(** For lists of equal length, [bleu.score] and [chrf.score] return one
    score per pair, in the order of the input: the sacrebleu sentence
    score of the pair, divided by 100. *)
Lemma scores_aligned {sacrebleu : SacreBleu}
  (sources hypotheses references : list string) (lang : option string) :
  List.length hypotheses = List.length references ->
  List.length (Bleu.score sources hypotheses references lang)
  = List.length hypotheses /\
  List.length (Chrf.score sources hypotheses references lang)
  = List.length hypotheses /\
  forall i hyp ref,
    nth_error hypotheses i = Some hyp -> nth_error references i = Some ref ->
    nth_error (Bleu.score sources hypotheses references lang) i
    = Some (sentence_bleu hyp [ref] / 100) /\
    nth_error (Chrf.score sources hypotheses references lang) i
    = Some (chrf_sentence_score 2 hyp [ref] / 100).
Proof.
  intros Hlen. unfold Bleu.score, Chrf.score, zip.
  rewrite !length_map, !length_combine, <- Hlen, Nat.min_id.
  split; [reflexivity|]. split; [reflexivity|].
  intros i hyp ref Hh Hr.
  rewrite !nth_error_map.
  fold (zip hypotheses references).
  rewrite (nth_error_zip _ _ _ Hh Hr). simpl.
  split; reflexivity.
Qed.

End WrapperFacts.

(** ** The converter *)

Module ConverterFacts.
Import Converter PyFacts.

Lemma key_eqb_eq (a b : Z * string) : key_eqb a b = true <-> a = b.
Proof.
  unfold key_eqb. destruct a as [i l], b as [j m]. simpl.
  rewrite andb_true_iff, Z.eqb_eq, String.eqb_eq.
  split; [intros [-> ->]; reflexivity | intros E; inversion E; auto].
Qed.

Lemma distinct_keys_In (k : Z * string) (ks : list (Z * string)) :
  In k (distinct_keys ks) <-> In k ks.
Proof.
  induction ks as [|k' ks IH]; simpl; [reflexivity|].
  rewrite filter_In, IH, negb_true_iff. split.
  - intros [E | [H _]]; auto.
  - intros [E | H]; [left; exact E|].
    destruct (key_eqb k' k) eqn:Ek.
    + left. apply key_eqb_eq, Ek.
    + right. split; [exact H | reflexivity].
Qed.

Section Conversion.
Context {scoring : SeverityScoring}.

Lemma sum_weights_raises (errors : list AnnotationRow) (r : AnnotationRow) :
  In r errors -> unknown r ->
  exists r', In r' errors /\ unknown r' /\
    sum_weights errors = Raise (ValueError ("Unknown severity: " ++ severity r')).
Proof.
  induction errors as [|x errors IH]; intros Hin Hr; [contradiction|].
  simpl. destruct (dict_lookup SEVERITY_WEIGHTS (severity x)) as [w|] eqn:Ex.
  - destruct Hin as [E | Hin]; [subst x; unfold unknown in Hr; congruence|].
    destruct (IH Hin Hr) as [r' [Hin' [Hr' Hsum]]].
    exists r'. split; [right; exact Hin'|]. split; [exact Hr'|].
    rewrite Hsum. reflexivity.
  - exists x. split; [left; reflexivity|]. split; [exact Ex | reflexivity].
Qed.

Lemma sum_weights_returns (errors : list AnnotationRow) :
  (forall r, In r errors -> ~ unknown r) ->
  exists penalty, sum_weights errors = Ok penalty.
Proof.
  induction errors as [|x errors IH]; intros H; simpl.
  - eexists. reflexivity.
  - destruct (dict_lookup SEVERITY_WEIGHTS (severity x)) as [w|] eqn:Ex.
    + destruct IH as [p Hp]; [intros r Hr; apply H; right; exact Hr|].
      rewrite Hp. simpl. eexists. reflexivity.
    + exfalso. apply (H x); [left; reflexivity | exact Ex].
Qed.

Lemma score_group_raises (group : list AnnotationRow) (r : AnnotationRow) :
  In r group -> is_sentinel r = false -> unknown r ->
  exists r', In r' group /\ is_sentinel r' = false /\ unknown r' /\
    score_group group = Raise (ValueError ("Unknown severity: " ++ severity r')).
Proof.
  intros Hin Hreal Hr.
  assert (Hin' : In r (filter (fun x => negb (is_sentinel x)) group)).
  { apply filter_In. split; [exact Hin | rewrite Hreal; reflexivity]. }
  destruct (sum_weights_raises _ Hin' Hr) as [r' [Hr'in [Hr' Hsum]]].
  apply filter_In in Hr'in. destruct Hr'in as [Hr'g Hr'real].
  exists r'. split; [exact Hr'g|].
  split; [apply negb_true_iff, Hr'real|]. split; [exact Hr'|].
  unfold score_group. destruct group as [|first rest]; [contradiction|].
  rewrite Hsum. reflexivity.
Qed.

End Conversion.

(** A real error row of unknown severity makes the whole conversion
    fail, with the message of the first such row that is looked up. *)
Lemma real_error_of_unknown_severity_raises
  {scoring : Converter.SeverityScoring}
  (df : list Converter.AnnotationRow) (r : Converter.AnnotationRow) :
  In r df ->
  Converter.error_type r <> "no_error" ->
  Converter.unknown r ->
  exists r',
    In r' df /\ Converter.error_type r' <> "no_error" /\
    Converter.unknown r' /\
    Converter.annotations_to_sentence_scores df
    = Raise (ValueError ("Unknown severity: " ++ Converter.severity r')).
Proof.
  intros Hin Hreal Hunknown.
  set (k := Converter.group_key r).
  set (group := filter (fun x => Converter.key_eqb (Converter.group_key x) k) df).
  assert (Hgroup : In r group).
  { apply filter_In. split; [exact Hin|].
    apply key_eqb_eq. reflexivity. }
  assert (Hsent : Converter.is_sentinel r = false).
  { apply String.eqb_neq, Hreal. }
  destruct (@score_group_raises _ group r Hgroup Hsent Hunknown)
    as [r0 [_ [_ [_ Hraise]]]].
  assert (Hk : In k (Converter.distinct_keys (map Converter.group_key df))).
  { apply distinct_keys_In, in_map, Hin. }
  destruct (@for_extend_raise _ _
              (fun k' => Converter.score_group
                 (filter (fun x => Converter.key_eqb (Converter.group_key x) k') df))
              _ k _ Hk Hraise)
    as [k' [e' [_ [Hfail Hfor]]]].
  (* the group that fails first holds a real error row of unknown severity *)
  assert (Hsome : exists r',
    In r' df /\ Converter.error_type r' <> "no_error" /\
    Converter.unknown r' /\
    e' = ValueError ("Unknown severity: " ++ Converter.severity r')).
  { clear Hfor. unfold Converter.score_group in Hfail.
    destruct (filter (fun x => Converter.key_eqb (Converter.group_key x) k') df)
      as [|first rest] eqn:Eg; [discriminate|].
    assert (Hsub : forall x,
      In x (filter (fun y => negb (Converter.is_sentinel y)) (first :: rest)) ->
      In x df /\ Converter.error_type x <> "no_error").
    { intros x Hx. apply filter_In in Hx. destruct Hx as [Hx Hs].
      split.
      - rewrite <- Eg in Hx. apply filter_In in Hx. apply Hx.
      - apply negb_true_iff in Hs. apply String.eqb_neq, Hs. }
    revert Hsub Hfail.
    generalize (filter (fun y => negb (Converter.is_sentinel y)) (first :: rest)).
    intros errors. induction errors as [|x errors IH]; intros Hsub Hfail.
    - discriminate.
    - simpl in Hfail.
      destruct (dict_lookup Converter.SEVERITY_WEIGHTS (Converter.severity x))
        as [w|] eqn:Ex.
      + apply IH.
        * intros y Hy. apply Hsub. right. exact Hy.
        * destruct (Converter.sum_weights errors); simpl in *;
            [discriminate | exact Hfail].
      + exists x. destruct (Hsub x (or_introl eq_refl)) as [Hx1 Hx2].
        split; [exact Hx1|]. split; [exact Hx2|]. split; [exact Ex|].
        inversion Hfail. reflexivity. }
  destruct Hsome as [r' [H1 [H2 [H3 He]]]].
  exists r'. repeat split; try assumption.
  unfold Converter.annotations_to_sentence_scores. rewrite Hfor, He.
  reflexivity.
Qed.

End ConverterFacts.

(** ** More about dictionaries, sorting and the engine *)

Module MoreFacts.
Import Correlation EngineSpec EngineMore PyFacts EngineFacts.

(** Reading a dictionary after an assignment. *)
Lemma dict_lookup_set (V : Type) (d : dict V) (k k' : string) (v : V) :
  dict_lookup (dict_set d k v) k' =
  if String.eqb k' k then Some v else dict_lookup d k'.
Proof.
  induction d as [|[k0 v0] d IH]; simpl.
  - reflexivity.
  - destruct (String.eqb k k0) eqn:E; simpl.
    + apply String.eqb_eq in E. subst k0.
      destruct (String.eqb k' k); reflexivity.
    + rewrite IH. destruct (String.eqb k' k0) eqn:E0; [|reflexivity].
      apply String.eqb_eq in E0. subst k0.
      destruct (String.eqb k' k) eqn:E1; [|reflexivity].
      apply String.eqb_eq in E1. subst k'.
      rewrite String.eqb_refl in E. discriminate.
Qed.

Lemma assign_tier_lookup (t : string) (langs : list string) (d : dict string)
  (l : string) :
  dict_lookup (fold_left (fun d' l' => dict_set d' l' t) langs d) l =
  if str_in l langs then Some t else dict_lookup d l.
Proof.
  revert d. induction langs as [|l0 langs IH]; intros d; simpl.
  - reflexivity.
  - rewrite IH, dict_lookup_set.
    destruct (str_in l langs); simpl; [rewrite orb_true_r; reflexivity|].
    rewrite orb_false_r. reflexivity.
Qed.

Lemma find_app (A : Type) (p : A -> bool) (l l' : list A) :
  find p (l ++ l') = match find p l with
                     | Some x => Some x
                     | None => find p l'
                     end.
Proof.
  induction l as [|x l IH]; simpl; [reflexivity|].
  destruct (p x); [reflexivity | exact IH].
Qed.

Lemma lang_to_tier_from (tiers : dict (list string)) (d : dict string)
  (l : string) :
  dict_lookup
    (fold_left
       (fun d0 tl => fold_left (fun d' l' => dict_set d' l' (fst tl)) (snd tl) d0)
       tiers d) l =
  match listing_tier tiers l with
  | Some t => Some t
  | None => dict_lookup d l
  end.
Proof.
  unfold listing_tier. revert d.
  induction tiers as [|tl tiers IH]; intros d; simpl.
  - reflexivity.
  - rewrite IH, find_app.
    destruct (find (fun tl0 => str_in l (snd tl0)) (rev tiers)); [reflexivity|].
    simpl. rewrite assign_tier_lookup.
    destruct (str_in l (snd tl)); reflexivity.
Qed.

Lemma lang_to_tier_lookup (tiers : dict (list string)) (l : string) :
  dict_lookup (lang_to_tier tiers) l = listing_tier tiers l.
Proof.
  unfold lang_to_tier. rewrite lang_to_tier_from. simpl.
  destruct (listing_tier tiers l); reflexivity.
Qed.

Lemma listing_tier_none (tiers : dict (list string)) (l : string) :
  listing_tier tiers l = None <->
  forall tl, In tl tiers -> ~ In l (snd tl).
Proof.
  unfold listing_tier. split.
  - intros H tl Htl Hl.
    destruct (find (fun tl0 => str_in l (snd tl0)) (rev tiers)) eqn:E;
      [discriminate|].
    pose proof (find_none _ _ E tl (proj1 (in_rev tiers tl) Htl)) as Hn.
    simpl in Hn. apply str_in_false in Hn. contradiction.
  - intros H.
    destruct (find (fun tl0 => str_in l (snd tl0)) (rev tiers)) as [tl|] eqn:E;
      [|reflexivity].
    apply find_some in E. destruct E as [Hin Hl].
    apply in_rev in Hin. apply str_in_In in Hl.
    exfalso. exact (H tl Hin Hl).
Qed.

Lemma listing_tier_some (tiers : dict (list string)) (l t : string) :
  listing_tier tiers l = Some t ->
  exists langs, In (t, langs) tiers /\ In l langs.
Proof.
  unfold listing_tier.
  destruct (find (fun tl0 => str_in l (snd tl0)) (rev tiers)) as [[t0 langs]|] eqn:E;
    [|discriminate].
  intros H. inversion H. subst t0.
  apply find_some in E. destruct E as [Hin Hl].
  exists langs. split; [apply in_rev, Hin | apply str_in_In, Hl].
Qed.

End MoreFacts.

(** ** What a run returns *)

Module RunFacts.
Import Correlation EngineSpec EngineMore PyFacts EngineFacts MoreFacts.

Section Engine.
Context {scipy : SciPyStats}.

Lemma group_keys_nil (rs : list ScoreRow) :
  sorted_unique string_dec String.leb (map row_lang rs) = [] <-> rs = [].
Proof.
  split.
  - intros H. destruct rs as [|r rs]; [reflexivity|].
    assert (Hin : In (row_lang r)
                     (sorted_unique string_dec String.leb (map row_lang (r :: rs)))).
    { unfold sorted_unique. apply SortFacts.stable_sort_In, nodup_In.
      left. reflexivity. }
    rewrite H in Hin. contradiction.
  - intros ->. reflexivity.
Qed.

(** Without the human column, the first group raises [KeyError]; a table
    without rows has no group. *)
Lemma collect_rows_missing (scores_df : ScoreTable)
  (metric_columns : list string) (human_column : string)
  (resource_tiers : dict (list string)) :
  str_in human_column (columns scores_df) = false ->
  collect_rows scores_df metric_columns human_column resource_tiers =
  match rows scores_df with
  | [] => Ok []
  | _ => Raise (KeyError human_column)
  end.
Proof.
  intros Hcol. unfold collect_rows, groupby_lang.
  destruct (sorted_unique string_dec String.leb (map row_lang (rows scores_df)))
    as [|k ks] eqn:E.
  - apply group_keys_nil in E. rewrite E. reflexivity.
  - destruct (rows scores_df) as [|r rs] eqn:Er.
    + discriminate E.
    + simpl. unfold group_rows at 1, column_tolist. simpl.
      rewrite Hcol. reflexivity.
Qed.

(** A run that returns, returns the collected rows, sorted. *)
Lemma run_returns (scores_df : ScoreTable) (metric_columns : list string)
  (human_column : string) (resource_tiers : option (dict (list string)))
  (out : list CorrelationRecord) :
  run_correlation_analysis scores_df metric_columns human_column resource_tiers
  = Ok out ->
  out = sort_values
          (collected (columns scores_df) (tiers_of resource_tiers)
                     metric_columns human_column (rows scores_df)).
Proof.
  intros Hrun.
  destruct (str_in human_column (columns scores_df)) eqn:Hcol.
  - rewrite (run_ok _ _ _ _ Hcol) in Hrun. inversion Hrun. reflexivity.
  - unfold run_correlation_analysis in Hrun.
    rewrite (collect_rows_missing _ _ _ _ Hcol) in Hrun.
    destruct (rows scores_df) as [|r rs] eqn:Er; [|discriminate].
    simpl in Hrun. inversion Hrun. reflexivity.
Qed.

Lemma metric_rows_length (cols : list string) (tiers : dict string)
  (k : string) (group : list ScoreRow) (human : list pyfloat)
  (metric_columns : list string) :
  List.length (flat_map (metric_rows cols tiers k group human) metric_columns)
  = List.length (filter (fun m => str_in m cols) metric_columns).
Proof.
  induction metric_columns as [|m ms IH]; simpl; [reflexivity|].
  rewrite length_app, IH. unfold metric_rows.
  destruct (str_in m cols); reflexivity.
Qed.

Lemma collected_length (scores_df : ScoreTable) (tiers : dict string)
  (metric_columns : list string) (human_column : string) :
  List.length (collected (columns scores_df) tiers metric_columns human_column
                         (rows scores_df))
  = (List.length (languages scores_df)
     * List.length (present_metrics scores_df metric_columns))%nat.
Proof.
  unfold collected, languages, present_metrics, sorted_unique.
  rewrite (Permutation_length
             (SortFacts.stable_sort_perm String.leb
                (nodup string_dec (map row_lang (rows scores_df))))).
  induction (stable_sort String.leb
               (nodup string_dec (map row_lang (rows scores_df))))
    as [|k ks IH]; simpl; [reflexivity|].
  rewrite length_app, IH, metric_rows_length. reflexivity.
Qed.

Lemma correlate_large (human metric_vals : list pyfloat) (m l : string) :
  (3 <= List.length human)%nat ->
  let r := correlate_metric_vs_human human metric_vals m l in
  res_pearson_r r = Some (fst (pearsonr human metric_vals)) /\
  res_pearson_p r = Some (snd (pearsonr human metric_vals)) /\
  res_spearman_r r = Some (fst (spearmanr human metric_vals)) /\
  res_spearman_p r = Some (snd (spearmanr human metric_vals)).
Proof.
  intros H. unfold correlate_metric_vs_human, _pearson, _spearman.
  assert (E : (List.length human <? 3)%nat = false) by (apply Nat.ltb_ge, H).
  rewrite E.
  destruct (pearsonr human metric_vals), (spearmanr human metric_vals).
  simpl. repeat split.
Qed.

End Engine.
End RunFacts.

(** ** More about the tier summarizer *)

Module SummaryMore.
Import Correlation EngineSpec EngineMore PyFacts SummaryFacts.

(** Sorting a sorted list changes nothing. *)
Lemma stable_sort_sorted_id (A : Type) (leb : A -> A -> bool) (l : list A) :
  Sorted (Py.le leb) l -> stable_sort leb l = l.
Proof.
  induction 1 as [|x l Hs IH Hhd]; simpl; [reflexivity|].
  rewrite IH. destruct Hhd as [|y l' Hxy]; simpl; [reflexivity|].
  unfold Py.le in Hxy. rewrite Hxy. reflexivity.
Qed.

Lemma sorted_map (A B : Type) (R : A -> A -> Prop) (R' : B -> B -> Prop)
  (f : A -> B) (l : list A) :
  (forall a b, R a b -> R' (f a) (f b)) ->
  Sorted R l -> Sorted R' (map f l).
Proof.
  intros Hf. induction 1 as [|x l Hs IH Hhd]; simpl; constructor.
  - exact IH.
  - destruct Hhd as [|y l' Hxy]; simpl; constructor. apply Hf, Hxy.
Qed.

Lemma groupby_mean_sorted (rs : list CorrelationRecord) :
  Sorted (Py.le ts_leb) (groupby_mean rs).
Proof.
  unfold groupby_mean.
  apply sorted_map with (R := Py.le leb2).
  - intros a b Hab. exact Hab.
  - apply SortFacts.stable_sort_sorted. exact StrOrder.leb2_total.
Qed.

Lemma summary_keys (rs : list CorrelationRecord) (m t : string) :
  In (m, t) (map ts_key (summarize_by_tier rs)) <->
  exists r, In r rs /\ metric r = m /\ resource_tier r = t.
Proof.
  assert (Hperm : Permutation (map ts_key (groupby_mean rs))
                              (map ts_key (summarize_by_tier rs)))
    by apply Permutation_map, summarize_perm.
  rewrite groupby_mean_keys in Hperm.
  split.
  - intros H. apply (Permutation_in _ (Permutation_sym Hperm)) in H.
    unfold sorted_unique in H.
    apply (proj1 (SortFacts.stable_sort_In leb2 _ _)) in H.
    apply (proj1 (nodup_In _ _ _)) in H.
    apply in_map_iff in H. destruct H as [r [E Hr]].
    exists r. unfold tier_key in E. inversion E. auto.
  - intros [r [Hr [Em Et]]]. apply (Permutation_in _ Hperm).
    apply SortFacts.stable_sort_In, nodup_In, in_map_iff.
    exists r. split; [|exact Hr]. unfold tier_key. congruence.
Qed.

Lemma in_summary (rs : list CorrelationRecord) (s : TierSummary) :
  In s (summarize_by_tier rs) ->
  ts_pearson_r s
  = mean_skipna (defined_values pearson_r
                   (tier_group (ts_metric s) (ts_resource_tier s) rs)) /\
  ts_spearman_r s
  = mean_skipna (defined_values spearman_r
                   (tier_group (ts_metric s) (ts_resource_tier s) rs)).
Proof.
  intros Hs.
  apply (Permutation_in _ (Permutation_sym (summarize_perm rs))) in Hs.
  unfold groupby_mean in Hs. apply in_map_iff in Hs.
  destruct Hs as [[m t] [E _]]. subst s. simpl.
  rewrite group_of_tier_group. split; reflexivity.
Qed.

End SummaryMore.

(** ** More about the GEMBA wrapper *)

Module GembaMoreFacts.
Import GembaMore.
Local Open Scope string_scope.

(** A literal matched without regard to case: the matched text is the
    literal once put in lower case, and it starts the subject. *)
Lemma literal_ci_match (pat s m rest : string) :
  Gemba.literal_ci pat s = Some (m, rest) ->
  Gemba.lower m = pat /\ s = m ++ rest.
Proof.
  revert s m rest. induction pat as [|a pat IH]; intros s m rest H; simpl in H.
  - inversion H. split; reflexivity.
  - destruct s as [|b s]; [discriminate|].
    destruct (Ascii.eqb (Gemba.lower_char b) a) eqn:E; [|discriminate].
    destruct (Gemba.literal_ci pat s) as [[m' rest']|] eqn:E'; [|discriminate].
    inversion H. subst m rest. destruct (IH _ _ _ E') as [Hl Hs].
    apply Ascii.eqb_eq in E. simpl. rewrite Hl, E, Hs. split; reflexivity.
Qed.

Lemma match_severity_group (s g rest : string) :
  Gemba.match_severity s = Some (g, rest) ->
  Gemba.lower g = "major" \/ Gemba.lower g = "minor".
Proof.
  unfold Gemba.match_severity.
  destruct (Gemba.literal_ci "severity:" s) as [[m after]|]; [|discriminate].
  destruct (Gemba.literal_ci "major" (Gemba.skip_spaces after))
    as [[g' rest']|] eqn:E.
  - intros H. inversion H. subst g' rest'.
    left. apply (literal_ci_match _ _ E).
  - intros H. right. apply (literal_ci_match _ _ H).
Qed.

Lemma finditer_from_groups (skip : nat) (s : string) :
  Forall (fun g => Gemba.lower g = "major" \/ Gemba.lower g = "minor")
         (Gemba.finditer_from skip s).
Proof.
  revert skip. induction s as [|c s IH]; intros skip; simpl.
  - constructor.
  - destruct skip as [|k]; [|apply IH].
    destruct (Gemba.match_severity (String c s)) as [[g rest]|] eqn:E.
    + constructor; [|apply IH]. apply (match_severity_group _ E).
    + apply IH.
Qed.

Lemma fold_penalty_count (matches : list string) (acc : Q) :
  Forall (fun g => Gemba.lower g = "major" \/ Gemba.lower g = "minor") matches ->
  fold_left
    (fun penalty g =>
       penalty + dict_get Gemba.SEVERITY_PENALTIES (Gemba.lower g) 0)
    matches acc
  == acc
     + 5 * inject_Z (Z.of_nat (List.length
           (filter (fun g => String.eqb (Gemba.lower g) "major") matches)))
     + inject_Z (Z.of_nat (List.length
           (filter (fun g => String.eqb (Gemba.lower g) "minor") matches))).
Proof.
  intros H. revert acc.
  induction H as [|g matches Hg _ IH]; intros acc; cbn [fold_left filter].
  - cbn [List.length]. change (inject_Z (Z.of_nat 0)) with 0. ring.
  - rewrite IH. destruct Hg as [Hg | Hg]; rewrite Hg.
    + change (String.eqb "major" "major") with true.
      change (String.eqb "major" "minor") with false.
      change (dict_get Gemba.SEVERITY_PENALTIES "major" 0) with 5.
      cbn [List.length].
      rewrite Nat2Z.inj_succ, <- Z.add_1_l, inject_Z_plus. ring.
    + change (String.eqb "minor" "major") with false.
      change (String.eqb "minor" "minor") with true.
      change (dict_get Gemba.SEVERITY_PENALTIES "minor" 0) with 1.
      cbn [List.length].
      rewrite Nat2Z.inj_succ, <- Z.add_1_l, inject_Z_plus. ring.
Qed.

Lemma count_partition (matches : list string) :
  Forall (fun g => Gemba.lower g = "major" \/ Gemba.lower g = "minor") matches ->
  (List.length (filter (fun g => String.eqb (Gemba.lower g) "major") matches)
   + List.length (filter (fun g => String.eqb (Gemba.lower g) "minor") matches)
   = List.length matches)%nat.
Proof.
  induction 1 as [|g matches Hg _ IH]; simpl; [reflexivity|].
  destruct Hg as [Hg | Hg]; rewrite Hg; simpl; lia.
Qed.

(** *** Texts that hold the words NO ERRORS *)

Lemma upper_app (a b : string) :
  Gemba.upper (a ++ b) = Gemba.upper a ++ Gemba.upper b.
Proof.
  induction a as [|c a IH]; simpl; [reflexivity | rewrite IH; reflexivity].
Qed.

Lemma prefix_app (sub s t : string) :
  String.prefix sub s = true -> String.prefix sub (s ++ t) = true.
Proof.
  revert s. induction sub as [|a sub IH]; intros s H;
    [destruct (s ++ t); reflexivity|].
  destruct s as [|b s]; [discriminate|]. simpl in *.
  destruct (Ascii.ascii_dec a b); [apply IH, H | discriminate].
Qed.

Lemma contains_app_l (sub s t : string) :
  Gemba.contains sub s = true -> Gemba.contains sub (s ++ t) = true.
Proof.
  induction s as [|c s IH]; simpl; intros H.
  - apply String.eqb_eq in H. subst sub. destruct t; reflexivity.
  - apply orb_true_iff in H. apply orb_true_iff.
    destruct H as [H | H]; [left | right; apply IH, H].
    apply (prefix_app _ (String c s) t H).
Qed.

Lemma contains_app_r (sub s t : string) :
  Gemba.contains sub t = true -> Gemba.contains sub (s ++ t) = true.
Proof.
  intros H. induction s as [|c s IH]; simpl; [exact H|].
  rewrite IH. apply orb_true_r.
Qed.

Lemma prompt_holds_no_errors (source_lang target_lang source hypothesis : string) :
  Gemba.contains "NO ERRORS"
    (Gemba.upper (Gemba.format_prompt source_lang target_lang source hypothesis))
  = true.
Proof.
  unfold Gemba.format_prompt.
  repeat (rewrite upper_app; apply contains_app_r).
  reflexivity.
Qed.

(** *** Batches *)

Lemma concat_batches_fuel (A : Type) (fuel size : nat) (l : list A) :
  (0 < size)%nat -> (List.length l <= fuel)%nat ->
  List.concat (Gemba.batches_fuel fuel size l) = l.
Proof.
  intros Hsize. revert l.
  induction fuel as [|fuel IH]; intros l Hlen; simpl.
  - destruct l; [reflexivity | simpl in Hlen; lia].
  - destruct l as [|x l]; [reflexivity|].
    simpl List.concat. rewrite IH.
    + apply firstn_skipn.
    + rewrite length_skipn. lia.
Qed.

Lemma concat_batches (A : Type) (size : nat) (l : list A) :
  (0 < size)%nat -> List.concat (Gemba.batches size l) = l.
Proof.
  intros H. apply concat_batches_fuel; [exact H | apply Nat.le_refl].
Qed.

Lemma batches_fuel_sizes (A : Type) (fuel size : nat) (l : list A) :
  (0 < size)%nat ->
  Forall (fun b => (1 <= List.length b <= size)%nat)
         (Gemba.batches_fuel fuel size l).
Proof.
  intros Hsize. revert l.
  induction fuel as [|fuel IH]; intros l; simpl; [constructor|].
  destruct l as [|x l]; [constructor|].
  constructor; [|apply IH].
  rewrite length_firstn. simpl List.length. lia.
Qed.

Section Wrapper.
Context {transformers : Transformers}.

Lemma generation_nil (model : string) :
  batch_independent model -> text_generation model [] = [].
Proof.
  intros H. pose proof (H [] []) as E. simpl in E.
  apply (f_equal (@List.length string)) in E. rewrite length_app in E.
  destruct (text_generation model []); [reflexivity | simpl in E; lia].
Qed.

Lemma generation_concat (model : string) (bs : list (list string)) :
  batch_independent model ->
  flat_map (fun b => map Gemba._parse_gemba_output (text_generation model b)) bs
  = map Gemba._parse_gemba_output (text_generation model (List.concat bs)).
Proof.
  intros H. induction bs as [|b bs IH]; simpl.
  - rewrite (generation_nil H). reflexivity.
  - rewrite IH, H, map_app. reflexivity.
Qed.

Lemma score_unfold (sources hypotheses references : list string)
  (lang : option string) (model_name source_lang target_lang : string)
  (batch_size : Z) :
  model_name <> "" -> (0 < batch_size)%Z ->
  Gemba.score sources hypotheses references lang model_name source_lang
              target_lang batch_size
  = Ok (flat_map
          (fun b => map Gemba._parse_gemba_output (text_generation model_name b))
          (Gemba.batches (Z.to_nat batch_size)
             (prompts_of sources hypotheses source_lang
                match lang with
                | Some l => if String.eqb l "" then target_lang else l
                | None => target_lang
                end))).
Proof.
  intros Hm Hb. unfold Gemba.score.
  apply String.eqb_neq in Hm. rewrite Hm.
  assert (E0 : (batch_size =? 0)%Z = false) by (apply Z.eqb_neq; lia).
  assert (E1 : (batch_size <? 0)%Z = false) by (apply Z.ltb_ge; lia).
  rewrite E0, E1. reflexivity.
Qed.

Lemma score_length (sources hypotheses references : list string)
  (lang : option string) (model_name source_lang target_lang : string)
  (batch_size : Z) :
  model_name <> "" ->
  (forall batch, List.length (text_generation model_name batch)
                 = List.length batch) ->
  (0 < batch_size)%Z ->
  exists raw_penalties,
    Gemba.score sources hypotheses references lang model_name source_lang
                target_lang batch_size = Ok raw_penalties /\
    List.length raw_penalties
    = Nat.min (List.length sources) (List.length hypotheses).
Proof.
  intros Hm Hlen Hb.
  eexists. split; [apply (score_unfold _ _ _ _ _ _ Hm Hb)|].
  set (prompts := prompts_of sources hypotheses source_lang _).
  assert (Hsum : forall bs : list (list string),
    List.length
      (flat_map (fun b => map Gemba._parse_gemba_output
                              (text_generation model_name b)) bs)
    = List.length (List.concat bs)).
  { induction bs as [|b bs IH]; simpl; [reflexivity|].
    rewrite !length_app, IH, length_map, Hlen. reflexivity. }
  rewrite Hsum, concat_batches by lia.
  unfold prompts, prompts_of, zip.
  rewrite length_map, length_combine. reflexivity.
Qed.

End Wrapper.
End GembaMoreFacts.

(** ** Facts about [_run_metrics] *)

Module RunMetricsFacts.
Import Correlation RunMetrics PyFacts.

Lemma map_fst_combine (A B : Type) (l : list A) (l' : list B) :
  List.length l = List.length l' -> map fst (combine l l') = l.
Proof.
  revert l'. induction l as [|x l IH]; intros [|y l'] H; simpl in *;
    try reflexivity; try discriminate.
  rewrite IH by lia. reflexivity.
Qed.

Lemma map_snd_combine (A B : Type) (l : list A) (l' : list B) :
  List.length l = List.length l' -> map snd (combine l l') = l'.
Proof.
  revert l'. induction l as [|x l IH]; intros [|y l'] H; simpl in *;
    try reflexivity; try discriminate.
  rewrite IH by lia. reflexivity.
Qed.

Lemma combine_map_map (A B C : Type) (f : A -> B) (g : A -> C) (l : list A) :
  combine (map f l) (map g l) = map (fun x => (f x, g x)) l.
Proof.
  induction l as [|x l IH]; simpl; [reflexivity | rewrite IH; reflexivity].
Qed.

(** What an assignment to a column does. *)
Lemma set_column_ok (name : string) (values : list Q) (df df' : SegmentTable) :
  set_column name values df = Ok df' ->
  List.length values = List.length (segments df) /\
  texts df' = texts df /\
  column df' name = map Fin values /\
  (forall c, c <> name -> column df' c = column df c) /\
  In name (score_columns df') /\
  (forall c, In c (score_columns df) -> In c (score_columns df')) /\
  (forall c, In c (score_columns df') -> In c (score_columns df) \/ c = name).
Proof.
  unfold set_column.
  destruct (List.length values =? List.length (segments df))%nat eqn:E;
    [|discriminate].
  apply Nat.eqb_eq in E. intros H. inversion H. subst df'. clear H.
  split; [exact E|]. unfold texts, column. simpl.
  rewrite !map_map. simpl.
  split; [|split; [|split; [|split; [|split]]]].
  - rewrite <- (map_map fst
        (fun s => (source s, hypothesis s, reference s, row_lang (scores s)))).
    rewrite map_fst_combine by (symmetry; exact E). reflexivity.
  - rewrite (map_ext _ (fun sv => Fin (snd sv))).
    + rewrite <- (map_map snd Fin).
      rewrite map_snd_combine by (symmetry; exact E). reflexivity.
    + intros sv. rewrite String.eqb_refl. reflexivity.
  - intros c Hc. rewrite map_map. simpl.
    rewrite (map_ext _ (fun sv => cell (scores (fst sv)) c)).
    + rewrite <- (map_map fst (fun s => cell (scores s) c)).
      rewrite map_fst_combine by (symmetry; exact E). reflexivity.
    + intros sv. apply String.eqb_neq in Hc. rewrite Hc. reflexivity.
  - destruct (str_in name (score_columns df)) eqn:Ein.
    + apply str_in_In, Ein.
    + apply in_or_app. right. left. reflexivity.
  - intros c Hc. destruct (str_in name (score_columns df));
      [exact Hc | apply in_or_app; left; exact Hc].
  - intros c Hc. destruct (str_in name (score_columns df)); [left; exact Hc|].
    apply in_app_or in Hc. destruct Hc as [Hc | [Hc | []]]; auto.
Qed.

Lemma set_column_returns (name : string) (values : list Q) (df : SegmentTable) :
  List.length values = List.length (segments df) ->
  exists df', set_column name values df = Ok df'.
Proof.
  intros E. unfold set_column. apply Nat.eqb_eq in E. rewrite E.
  eexists. reflexivity.
Qed.

Lemma texts_length (df df' : SegmentTable) :
  texts df' = texts df ->
  List.length (segments df') = List.length (segments df).
Proof.
  unfold texts. intros H. apply (f_equal (@List.length _)) in H.
  rewrite !length_map in H. exact H.
Qed.

(** What one step of [_run_metrics] does. *)
Lemma add_metric_ok (sel : bool) (name : string) (computed : result (list Q))
  (df : SegmentTable) (added : list string)
  (df' : SegmentTable) (added' : list string) :
  add_metric sel name computed (df, added) = Ok (df', added') ->
  added' = added ++ (if sel then [name] else []) /\
  texts df' = texts df /\
  (forall c, (sel = true -> c <> name) -> column df' c = column df c) /\
  (forall c, In c (score_columns df) -> In c (score_columns df')) /\
  (forall c, In c (score_columns df') ->
             In c (score_columns df) \/ (sel = true /\ c = name)) /\
  (sel = true ->
   In name (score_columns df') /\
   exists values, computed = Ok values /\ column df' name = map Fin values).
Proof.
  unfold add_metric. destruct sel.
  - destruct computed as [values | e]; simpl; [|discriminate].
    destruct (set_column name values df) as [df1 | e] eqn:E; simpl;
      [|discriminate].
    intros H. inversion H. subst df1 added'. clear H.
    destruct (set_column_ok _ _ _ E) as [_ [Ht [Hc [Ho [Hin [Hk Hk']]]]]].
    split; [reflexivity|]. split; [exact Ht|].
    split; [intros c Hne; apply Ho, Hne; reflexivity|].
    split; [exact Hk|].
    split; [intros c Hc'; destruct (Hk' c Hc'); auto|].
    intros _. split; [exact Hin|]. exists values. split; [reflexivity | exact Hc].
  - intros H. inversion H. subst df' added'. clear H.
    split; [rewrite app_nil_r; reflexivity|]. split; [reflexivity|].
    split; [reflexivity|]. split; [auto|]. split; [auto|].
    discriminate.
Qed.

Lemma add_metric_returns (sel : bool) (name : string)
  (computed : result (list Q)) (df : SegmentTable) (added : list string) :
  (sel = true ->
   exists values, computed = Ok values /\
                  List.length values = List.length (segments df)) ->
  exists st, add_metric sel name computed (df, added) = Ok st.
Proof.
  intros H. unfold add_metric. destruct sel; [|eexists; reflexivity].
  destruct (H eq_refl) as [values [Ec El]]. rewrite Ec. simpl.
  destruct (set_column_returns name values df El) as [df' Edf].
  rewrite Edf. simpl. eexists. reflexivity.
Qed.

End RunMetricsFacts.

Module RunStepsFacts.
Import Correlation RunMetrics PyFacts RunMetricsFacts.

Section Metrics.
Context {sacrebleu : SacreBleu} {bertscore_lib : BertScoreLib}
        {comet_lib : CometLib} {transformers : Transformers}.

Lemma run_metrics_steps (scores_df : SegmentTable) (cfg : MetricsSettings) :
  _run_metrics scores_df cfg
  = run_steps (metric_steps scores_df cfg) (scores_df, []).
Proof.
  unfold _run_metrics, metric_steps. cbn [run_steps step_selected step_name
                                           step_computed].
  repeat (match goal with
          | |- bind ?m _ = bind ?m _ => destruct m as [?st | ?e]; simpl;
                                        [|reflexivity]
          end).
  destruct (add_metric _ "gemba" _ _); reflexivity.
Qed.

(** What a run of steps that returns has done. *)
Lemma run_steps_ok (steps : list MetricStep) (df : SegmentTable)
  (added : list string) (df' : SegmentTable) (added' : list string) :
  run_steps steps (df, added) = Ok (df', added') ->
  added' = added ++ selected_names steps /\
  texts df' = texts df /\
  (forall c, ~ In c (selected_names steps) -> column df' c = column df c) /\
  (forall c, In c (score_columns df) -> In c (score_columns df')) /\
  (forall c, In c (score_columns df') ->
             In c (score_columns df) \/ In c (selected_names steps)) /\
  (forall c, In c (selected_names steps) -> In c (score_columns df')) /\
  (NoDup (map step_name steps) ->
   forall step, In step steps -> step_selected step = true ->
     exists values, step_computed step = Ok values /\
                    column df' (step_name step) = map Fin values).
Proof.
  unfold selected_names.
  revert df added. induction steps as [|s steps IH]; intros df added H.
  - simpl in H. inversion H. subst. simpl. rewrite app_nil_r.
    repeat split; auto; try contradiction.
  - simpl in H.
    destruct (add_metric (step_selected s) (step_name s) (step_computed s)
                         (df, added)) as [[df1 added1] | e] eqn:E1;
      simpl in H; [|discriminate].
    destruct (add_metric_ok _ _ _ _ _ E1) as [Ha [Ht [Hc [Hk [Hk' Hsel]]]]].
    destruct (IH _ _ H) as [Ia [It [Ic [Ik [Ik' [Iin Ival]]]]]].
    assert (Enames : map step_name (filter step_selected (s :: steps))
                     = (if step_selected s then [step_name s] else [])
                       ++ map step_name (filter step_selected steps)).
    { simpl. destruct (step_selected s); reflexivity. }
    rewrite Enames.
    split; [rewrite Ia, Ha, app_assoc; reflexivity|].
    split; [rewrite It; exact Ht|].
    split; [|split; [|split; [|split]]].
    + intros c Hnot. rewrite Ic, Hc; [reflexivity | |].
      * intros Hs Ec. apply Hnot. rewrite Hs. left. symmetry. exact Ec.
      * intros Hin. apply Hnot. apply in_or_app. right. exact Hin.
    + intros c Hin. apply Ik, Hk, Hin.
    + intros c Hin. destruct (Ik' c Hin) as [H1 | H1].
      * destruct (Hk' c H1) as [H2 | [H2 H3]]; [left; exact H2|].
        right. rewrite H2. left. symmetry. exact H3.
      * right. apply in_or_app. right. exact H1.
    + intros c Hin. apply in_app_or in Hin. destruct Hin as [Hin | Hin].
      * destruct (step_selected s) eqn:Es; [|contradiction].
        destruct Hin as [<- | []]. apply Ik. apply Hsel. reflexivity.
      * apply Iin, Hin.
    + intros Hnd step Hstep Hs. simpl in Hnd.
      apply NoDup_cons_iff in Hnd. destruct Hnd as [Hfresh Hnd].
      destruct Hstep as [<- | Hstep].
      * destruct (Hsel Hs) as [_ [values [Ev Ecol]]].
        exists values. split; [exact Ev|].
        rewrite Ic; [exact Ecol|].
        intros Hin. apply Hfresh. apply in_map_iff in Hin.
        destruct Hin as [s' [En Hs']]. apply filter_In in Hs'.
        apply in_map_iff. exists s'. split; [exact En | apply Hs'].
      * apply (Ival Hnd step Hstep Hs).
Qed.

Lemma run_steps_returns (steps : list MetricStep) (df : SegmentTable)
  (added : list string) :
  (forall step, In step steps -> step_selected step = true ->
     exists values, step_computed step = Ok values /\
                    List.length values = List.length (segments df)) ->
  exists st, run_steps steps (df, added) = Ok st.
Proof.
  revert df added. induction steps as [|s steps IH]; intros df added H; simpl.
  - eexists. reflexivity.
  - destruct (@add_metric_returns (step_selected s) (step_name s)
                (step_computed s) df added
                (H s (or_introl eq_refl))) as [[df1 added1] E1].
    rewrite E1. simpl.
    destruct (add_metric_ok _ _ _ _ _ E1) as [_ [Ht _]].
    apply IH. intros step Hstep Hs.
    rewrite (texts_length _ _ Ht). apply H; [right; exact Hstep | exact Hs].
Qed.

Lemma selected_names_order (scores_df : SegmentTable) (cfg : MetricsSettings) :
  selected_names (metric_steps scores_df cfg)
  = filter (selected cfg) METRIC_ORDER.
Proof.
  unfold selected_names, metric_steps, METRIC_ORDER, selected. simpl.
  destruct (str_in "bleu" (run cfg)), (str_in "chrf" (run cfg)),
    (str_in "bertscore" (run cfg)), (str_in "comet" (run cfg)),
    (str_in "xcomet" (run cfg)), (getattr (run_gemba cfg) false);
    reflexivity.
Qed.

Lemma metric_order_nodup : NoDup METRIC_ORDER.
Proof.
  unfold METRIC_ORDER.
  repeat (constructor; [simpl; intuition discriminate|]). constructor.
Qed.

End Metrics.
End RunStepsFacts.

Module PipelineFacts.
Import Correlation EngineSpec EngineMore RunMetrics PyFacts EngineFacts
       RunMetricsFacts RunStepsFacts.

Lemma texts_langs (df df' : SegmentTable) :
  texts df' = texts df ->
  map row_lang (rows (to_scores df')) = map row_lang (rows (to_scores df)).
Proof.
  unfold texts, to_scores. simpl. intros H.
  apply (f_equal (map snd)) in H. rewrite !map_map in H. simpl in H.
  rewrite !map_map. exact H.
Qed.

Lemma combine_app (A B : Type) (l1 l2 : list A) (l1' l2' : list B) :
  List.length l1 = List.length l1' ->
  combine (l1 ++ l2) (l1' ++ l2') = combine l1 l1' ++ combine l2 l2'.
Proof.
  revert l1'. induction l1 as [|x l1 IH]; intros [|y l1'] H; simpl in *;
    try reflexivity; try discriminate.
  rewrite IH by lia. reflexivity.
Qed.

Lemma filter_all (A : Type) (p : A -> bool) (l : list A) :
  (forall x, In x l -> p x = true) -> filter p l = l.
Proof.
  induction l as [|x l IH]; intros H; simpl; [reflexivity|].
  rewrite (H x (or_introl eq_refl)), IH; [reflexivity|].
  intros y Hy. apply H. right. exact Hy.
Qed.

Section Metrics.
Context {sacrebleu : SacreBleu}.

Lemma bleu_score_rows (segs : list SegmentRow) :
  Bleu.score (map source segs) (map hypothesis segs) (map reference segs) None
  = map (fun s => sentence_bleu (hypothesis s) [reference s] / 100) segs.
Proof.
  unfold Bleu.score, zip. rewrite combine_map_map, map_map. reflexivity.
Qed.

Lemma chrf_score_rows (segs : list SegmentRow) :
  Chrf.score (map source segs) (map hypothesis segs) (map reference segs) None
  = map (fun s => chrf_sentence_score 2 (hypothesis s) [reference s] / 100) segs.
Proof.
  unfold Chrf.score, zip. rewrite combine_map_map, map_map. reflexivity.
Qed.

End Metrics.
End PipelineFacts.

Module MetricStageFacts.
Import Correlation RunMetrics PyFacts RunMetricsFacts RunStepsFacts.

Lemma run_steps_app (steps steps' : list MetricStep)
  (state : SegmentTable * list string) :
  run_steps (steps ++ steps') state
  = bind (run_steps steps state) (run_steps steps').
Proof.
  revert state. induction steps as [|s steps IH]; intros state; simpl.
  - reflexivity.
  - destruct (add_metric (step_selected s) (step_name s) (step_computed s) state)
      as [st | e]; simpl; [apply IH | reflexivity].
Qed.

Section Metrics.
Context {sacrebleu : SacreBleu} {bertscore_lib : BertScoreLib}
        {comet_lib : CometLib} {transformers : Transformers}.

Lemma comet_set_spec (table : option CometSettings) :
  comet_set table = true ->
  exists m b g,
    table = Some {| model := Some m; batch_size := Some b; gpus := Some g |}.
Proof.
  destruct table as [[[m|] [b|] [g|]]|]; simpl; try discriminate.
  intros _. exists m, b, g. reflexivity.
Qed.

Lemma tables_set_spec (cfg : MetricsSettings) :
  tables_set cfg = true ->
  (str_in "bertscore" (run cfg) = true -> exists t, bertscore cfg = Some t) /\
  (str_in "comet" (run cfg) = true -> comet_set (comet cfg) = true) /\
  (str_in "xcomet" (run cfg) = true -> comet_set (xcomet cfg) = true).
Proof.
  unfold tables_set. rewrite !andb_true_iff, !orb_true_iff, !negb_true_iff.
  intros [[[Hb | Hb] [Hc | Hc]] [Hx | Hx]]; repeat split; intros H;
    try congruence;
    destruct (bertscore cfg) as [t|]; try discriminate; exists t; reflexivity.
Qed.

(** The five library metrics return one score for each row when their
    settings are there and the selected libraries return one score for
    each entry. *)
Lemma library_steps_lengths (scores_df : SegmentTable) (cfg : MetricsSettings) :
  tables_set cfg = true ->
  (str_in "bertscore" (run cfg) = true ->
   forall cands refs m l b,
     List.length cands = List.length refs ->
     List.length (bert_score_f1 cands refs m l b) = List.length cands) ->
  (str_in "comet" (run cfg) = true \/ str_in "xcomet" (run cfg) = true ->
   forall m data b g,
     List.length (comet_predict_scores m data b g) = List.length data) ->
  forall step, In step (firstn 5 (metric_steps scores_df cfg)) ->
    step_selected step = true ->
    exists values, step_computed step = Ok values /\
                   List.length values = List.length (segments scores_df).
Proof.
  intros Hset Hbert Hcomet.
  destruct (tables_set_spec _ Hset) as [Tb [Tc Tx]].
  set (k := List.length (segments scores_df)).
  assert (Hzip : forall (A B : Type) (f : SegmentRow -> A) (g : SegmentRow -> B),
    List.length (zip (map f (segments scores_df)) (map g (segments scores_df)))
    = k).
  { intros A B f g. unfold zip.
    rewrite length_combine, !length_map. apply Nat.min_id. }
  assert (Hzip3 : List.length
                    (Comet.zip3 (map source (segments scores_df))
                                (map hypothesis (segments scores_df))
                                (map reference (segments scores_df))) = k).
  { unfold Comet.zip3, zip.
    rewrite length_map, !length_combine, !length_map. fold k. lia. }
  intros step Hstep Hsel. unfold metric_steps in Hstep. simpl in Hstep.
  destruct Hstep as [<- | [<- | [<- | [<- | [<- | []]]]]];
    simpl in Hsel; simpl step_computed.
  - eexists. split; [reflexivity|].
    unfold Bleu.score. rewrite length_map. apply Hzip.
  - eexists. split; [reflexivity|].
    unfold Chrf.score. rewrite length_map. apply Hzip.
  - destruct (Tb Hsel) as [t Et]. rewrite Et. simpl.
    eexists. split; [reflexivity|].
    unfold BertScore.score. rewrite (Hbert Hsel); rewrite !length_map;
      reflexivity.
  - destruct (comet_set_spec _ (Tc Hsel)) as [m [b [g Et]]]. rewrite Et. simpl.
    eexists. split; [reflexivity|].
    unfold Comet.score. rewrite (Hcomet (or_introl Hsel)). exact Hzip3.
  - destruct (comet_set_spec _ (Tx Hsel)) as [m [b [g Et]]]. rewrite Et. simpl.
    eexists. split; [reflexivity|].
    unfold Comet.score_xcomet, Comet.score.
    rewrite (Hcomet (or_intror Hsel)). exact Hzip3.
Qed.

Lemma metric_steps_split (scores_df : SegmentTable) (cfg : MetricsSettings) :
  metric_steps scores_df cfg
  = firstn 5 (metric_steps scores_df cfg)
    ++ [ {| step_selected := getattr (run_gemba cfg) false;
            step_name := "gemba";
            step_computed :=
              Pipeline.gemba_column (gemba_model cfg)
                (map source (segments scores_df))
                (map hypothesis (segments scores_df))
                (map reference (segments scores_df)) |} ].
Proof. reflexivity. Qed.

(** BLEU and ChrF, the first two steps, cannot fail. *)
Lemma surface_steps_return (scores_df : SegmentTable) (cfg : MetricsSettings) :
  exists st,
    run_steps (firstn 2 (metric_steps scores_df cfg)) (scores_df, []) = Ok st.
Proof.
  apply run_steps_returns. intros step Hstep _.
  simpl in Hstep. destruct Hstep as [<- | [<- | []]]; simpl step_computed;
    eexists; (split; [reflexivity|]);
    unfold Bleu.score, Chrf.score, zip;
    rewrite length_map, length_combine, !length_map; apply Nat.min_id.
Qed.

(** BERTScore selected without its table of settings: the run ends when
    the table is read. *)
Lemma missing_bertscore_table (scores_df : SegmentTable) (cfg : MetricsSettings) :
  str_in "bertscore" (run cfg) = true ->
  bertscore cfg = None ->
  _run_metrics scores_df cfg = Raise (AttributeError "bertscore").
Proof.
  intros Hsel Hnone. rewrite run_metrics_steps.
  change (metric_steps scores_df cfg)
    with (firstn 2 (metric_steps scores_df cfg)
          ++ skipn 2 (metric_steps scores_df cfg)).
  rewrite run_steps_app.
  destruct (surface_steps_return scores_df cfg) as [st E].
  rewrite E. simpl. rewrite Hsel, Hnone. reflexivity.
Qed.

End Metrics.
End MetricStageFacts.

(* ================================================================== *)
(** * Part III. The specification's claims                               *)
(* ================================================================== *)

Module Claims.
Import Correlation EngineSpec PyFacts EngineFacts.

(** ** Correlation engine *)

(** C1. A language group with fewer than 3 observations yields records
    whose [n] is the number of rows of that language in the score table
    and whose four statistics are all [None]. This holds of
    [correlate_metric_vs_human] itself, of every record the engine
    returns, and the engine does return such a record for every small
    group and every requested metric that is a column. *)
Theorem small_group_statistics_unset {scipy : SciPyStats}
  (scores_df : ScoreTable) (metric_columns : list string)
  (human_column : string) (resource_tiers : option (dict (list string))) :
  In human_column (columns scores_df) ->
  (forall human metric_vals m l,
      (List.length human < 3)%nat ->
      correlate_metric_vs_human human metric_vals m l =
      {| res_lang := l; res_metric := m; res_n := List.length human;
         res_pearson_r := None; res_pearson_p := None;
         res_spearman_r := None; res_spearman_p := None |}) /\
  exists out,
    run_correlation_analysis scores_df metric_columns human_column
                             resource_tiers = Ok out /\
    (forall r, In r out ->
       n r = List.length (observations scores_df (lang r)) /\
       ((n r < 3)%nat -> stats_unset r)) /\
    (forall l m,
       lang_present scores_df l ->
       (List.length (observations scores_df l) < 3)%nat ->
       In m metric_columns -> In m (columns scores_df) ->
       exists r, In r out /\ lang r = l /\ metric r = m /\
                 n r = List.length (observations scores_df l) /\
                 stats_unset r).
Proof.
  intros Hcol. split.
  { intros human metric_vals m l Hlen. unfold correlate_metric_vs_human.
    apply Nat.ltb_lt in Hlen. rewrite Hlen. reflexivity. }
  eexists. split; [apply run_ok, str_in_In, Hcol|]. split.
  - intros r Hr. apply sort_values_In, in_collected in Hr.
    destruct Hr as [k [m [_ [_ [_ Hr]]]]]. simpl in Hr.
    pose proof (correlate_fields
      (map (fun x => cell x human_column)
           (filter (fun x => String.eqb (row_lang x) k) (rows scores_df)))
      (map (fun x => cell x m)
           (filter (fun x => String.eqb (row_lang x) k) (rows scores_df)))
      m k) as [Hl [_ Hn]].
    assert (Hlang : lang r = k) by (rewrite Hr; exact Hl).
    assert (Hnr : n r = List.length (observations scores_df (lang r))).
    { rewrite Hlang. rewrite Hr. simpl. rewrite Hn.
      rewrite length_map. reflexivity. }
    split; [exact Hnr|].
    intros Hsmall. rewrite Hnr, Hlang in Hsmall.
    unfold observations in Hsmall.
    rewrite <- (length_map (fun x => cell x human_column)) in Hsmall.
    destruct (correlate_small _
      (map (fun x => cell x m)
           (filter (fun x => String.eqb (row_lang x) k) (rows scores_df)))
      m k Hsmall) as [H1 [H2 [H3 H4]]].
    unfold stats_unset. rewrite Hr. simpl. repeat split; assumption.
  - intros l m [row [Hrow Hl]] Hsmall Hm Hmc.
    set (group := filter (fun x => String.eqb (row_lang x) l) (rows scores_df)).
    set (res := correlate_metric_vs_human
                  (map (fun x => cell x human_column) group)
                  (map (fun x => cell x m) group) m l).
    exists (add_tier (tiers_of resource_tiers) res).
    pose proof (correlate_fields
                  (map (fun x => cell x human_column) group)
                  (map (fun x => cell x m) group) m l) as [Hl' [Hm' Hn']].
    fold res in Hl', Hm', Hn'.
    assert (Hlen : (List.length (map (fun x => cell x human_column) group) < 3)%nat).
    { rewrite length_map. exact Hsmall. }
    destruct (correlate_small _ (map (fun x => cell x m) group) m l Hlen)
      as [H1 [H2 [H3 H4]]].
    fold res in H1, H2, H3, H4.
    split; [|simpl; repeat split; try assumption].
    + apply sort_values_In, in_collected. exists l, m.
      repeat split; try assumption.
      apply in_map_iff. exists row. split; [exact Hl | exact Hrow].
    + rewrite Hn', length_map. reflexivity.
Qed.

Lemma small_group_statistics_unset_witness :
  In "quality_score" (columns Sample.sample_scores) /\
  exists out,
    @run_correlation_analysis Sample.sample_scipy Sample.sample_scores
      ["bleu"; "comet"] "quality_score" None = Ok out /\
    exists r, In r out /\ lang r = "es" /\ metric r = "bleu" /\
              n r = 2%nat /\ stats_unset r.
Proof.
  assert (Hcol : In "quality_score" (columns Sample.sample_scores))
    by (simpl; auto).
  split; [exact Hcol|].
  destruct (@small_group_statistics_unset Sample.sample_scipy
              Sample.sample_scores ["bleu"; "comet"] "quality_score" None Hcol)
    as [_ [out [Hrun [_ Hsmall]]]].
  exists out. split; [exact Hrun|].
  destruct (Hsmall "es" "bleu") as [r [Hin [Hl [Hm [Hn Hs]]]]].
  - exists (Sample.score_row "es" 1 (3 # 4)). simpl. auto.
  - simpl. lia.
  - simpl. auto.
  - simpl. auto.
  - exists r. repeat split; try assumption; apply Hs.
Defined.

(** C5. The rows returned by [run_correlation_analysis] are sorted by
    metric, then resource tier, then language, and the sort is stable:
    the rows that agree on all three keys stand in the order in which
    the loops over the groups collected them. *)
Theorem result_rows_sorted_stably {scipy : SciPyStats}
  (scores_df : ScoreTable) (metric_columns : list string)
  (human_column : string) (resource_tiers : option (dict (list string))) :
  In human_column (columns scores_df) ->
  exists collected_rows out,
    collect_rows scores_df metric_columns human_column
      match resource_tiers with
      | None => RESOURCE_TIERS
      | Some t => t
      end = Ok collected_rows /\
    run_correlation_analysis scores_df metric_columns human_column
                             resource_tiers = Ok out /\
    StronglySorted key_le out /\
    Permutation collected_rows out /\
    forall k, with_key k out = with_key k collected_rows.
Proof.
  intros Hcol. apply str_in_In in Hcol.
  exists (collected (columns scores_df) (tiers_of resource_tiers)
                    metric_columns human_column (rows scores_df)).
  eexists. split; [apply collect_rows_ok, Hcol|].
  split; [apply run_ok, Hcol|].
  split; [apply sort_values_sorted|].
  split; [apply sort_values_perm|].
  intros k. apply sort_values_stable.
Qed.

Lemma result_rows_sorted_stably_witness :
  In "quality_score" (columns Sample.sample_scores) /\
  exists collected_rows out,
    @collect_rows Sample.sample_scipy Sample.sample_scores
      ["bleu"; "bleu"] "quality_score" RESOURCE_TIERS = Ok collected_rows /\
    @run_correlation_analysis Sample.sample_scipy Sample.sample_scores
      ["bleu"; "bleu"] "quality_score" None = Ok out /\
    StronglySorted key_le out /\
    Permutation collected_rows out /\
    forall k, with_key k out = with_key k collected_rows.
Proof.
  assert (Hcol : In "quality_score" (columns Sample.sample_scores))
    by (simpl; auto).
  split; [exact Hcol|].
  exact (@result_rows_sorted_stably Sample.sample_scipy Sample.sample_scores
           ["bleu"; "bleu"] "quality_score" None Hcol).
Defined.

(** C6, as amended. A requested metric that is not a column of the score
    table yields no record and no error. For a language present in the
    table and a metric whose column is present, the output holds as many
    records as the requested list names the metric: exactly one when the
    list names it once. Every record belongs to a language of the table
    and to a requested metric whose column is present. *)
Theorem records_per_language_and_metric {scipy : SciPyStats}
  (scores_df : ScoreTable) (metric_columns : list string)
  (human_column : string) (resource_tiers : option (dict (list string))) :
  In human_column (columns scores_df) ->
  exists out,
    run_correlation_analysis scores_df metric_columns human_column
                             resource_tiers = Ok out /\
    (forall m, ~ In m (columns scores_df) ->
               forall r, In r out -> metric r <> m) /\
    (forall r, In r out ->
               lang_present scores_df (lang r) /\
               In (metric r) metric_columns /\
               In (metric r) (columns scores_df)) /\
    (forall l m, lang_present scores_df l -> In m (columns scores_df) ->
                 List.length (records_for l m out)
                 = count_occ string_dec metric_columns m) /\
    (NoDup metric_columns ->
     forall l m, lang_present scores_df l -> In m metric_columns ->
                 In m (columns scores_df) ->
                 List.length (records_for l m out) = 1%nat).
Proof.
  intros Hcol. apply str_in_In in Hcol.
  eexists. split; [apply run_ok, Hcol|].
  assert (Horigin : forall r,
    In r (sort_values
            (collected (columns scores_df) (tiers_of resource_tiers)
                       metric_columns human_column (rows scores_df))) ->
    lang_present scores_df (lang r) /\ In (metric r) metric_columns /\
    In (metric r) (columns scores_df)).
  { intros r Hr. apply sort_values_In, in_collected in Hr.
    destruct Hr as [k [m [Hk [Hm [Hc Hr]]]]]. simpl in Hr. subst r.
    rewrite add_tier_lang, add_tier_metric.
    split; [|split; assumption].
    apply in_map_iff in Hk. destruct Hk as [row [E Hrow]].
    exists row. split; assumption. }
  assert (Hcount : forall l m,
    lang_present scores_df l -> In m (columns scores_df) ->
    List.length
      (records_for l m
         (sort_values
            (collected (columns scores_df) (tiers_of resource_tiers)
                       metric_columns human_column (rows scores_df))))
    = count_occ string_dec metric_columns m).
  { intros l m Hl Hm. unfold records_for at 1.
    rewrite <- (Permutation_length
                  (filter_perm _ (sort_values_perm
                     (collected (columns scores_df) (tiers_of resource_tiers)
                        metric_columns human_column (rows scores_df))))).
    fold (records_for l m
            (collected (columns scores_df) (tiers_of resource_tiers)
               metric_columns human_column (rows scores_df))).
    rewrite records_for_collected.
    apply lang_present_keys in Hl. rewrite Hl.
    apply str_in_In in Hm. rewrite Hm. reflexivity. }
  split; [|split; [exact Horigin | split; [exact Hcount|]]].
  - intros m Hm r Hr E. apply Horigin in Hr. apply Hm. rewrite <- E. apply Hr.
  - intros Hnd l m Hl Hm Hc. rewrite Hcount by assumption.
    apply NoDup_count_occ'; assumption.
Qed.

Lemma records_per_language_and_metric_witness :
  In "quality_score" (columns Sample.sample_scores) /\
  exists out,
    @run_correlation_analysis Sample.sample_scipy Sample.sample_scores
      ["bleu"; "comet"] "quality_score" None = Ok out /\
    (forall r, In r out -> metric r <> "comet") /\
    List.length (records_for "th" "bleu" out) = 1%nat.
Proof.
  assert (Hcol : In "quality_score" (columns Sample.sample_scores))
    by (simpl; auto).
  split; [exact Hcol|].
  destruct (@records_per_language_and_metric Sample.sample_scipy
              Sample.sample_scores ["bleu"; "comet"] "quality_score" None Hcol)
    as [out [Hrun [Hskip [_ [Hcount _]]]]].
  exists out. split; [exact Hrun|]. split.
  - apply Hskip. simpl. intros [H | [H | []]]; discriminate.
  - rewrite Hcount.
    + reflexivity.
    + exists (Sample.score_row "th" 1 (1 # 2)). simpl. auto.
    + simpl. auto.
Defined.

(** Without the restriction to lists that name a metric once, the count
    of C6 fails: when the requested list names a metric twice, the engine
    returns two records for the same language and metric. *)
Lemma duplicate_request_duplicates_records :
  ~ (forall (scipy : SciPyStats) (scores_df : ScoreTable)
            (metric_columns : list string) (human_column : string)
            (out : list CorrelationRecord) (l m : string),
        run_correlation_analysis scores_df metric_columns human_column None
        = Ok out ->
        lang_present scores_df l -> In m metric_columns ->
        In m (columns scores_df) ->
        List.length (records_for l m out) = 1%nat).
Proof.
  intros H.
  specialize (H Sample.sample_scipy Sample.sample_scores ["bleu"; "bleu"]
                "quality_score" _ "es" "bleu" eq_refl).
  assert (Hl : lang_present Sample.sample_scores "es").
  { exists (Sample.score_row "es" 1 (3 # 4)). simpl. auto. }
  specialize (H Hl (or_introl eq_refl) (or_intror (or_introl eq_refl))).
  vm_compute in H. discriminate.
Qed.

(** ** Tier summarizer *)

(** C4. [summarize_by_tier] returns exactly one row for each (metric,
    resource tier) pair that occurs in the correlation table; the
    [pearson_r] and [spearman_r] of that row are the unweighted
    arithmetic mean of the defined values of the pair's records, the
    records whose value is unset counting neither in the sum nor in the
    number of terms (a pair without any defined value has mean NaN); and
    the rows are sorted by metric, then resource tier. *)
Theorem tier_summary_is_mean_of_defined (correlation_df : list CorrelationRecord) :
  let out := summarize_by_tier correlation_df in
  NoDup (map ts_key out) /\
  (forall m t,
      In (m, t) (map ts_key out) <->
      exists r, In r correlation_df /\ metric r = m /\ resource_tier r = t) /\
  (forall s, In s out ->
      let group := tier_group (ts_metric s) (ts_resource_tier s) correlation_df in
      ts_pearson_r s = mean_of_defined pearson_r group /\
      ts_spearman_r s = mean_of_defined spearman_r group) /\
  StronglySorted ts_key_le out.
Proof.
  intros out.
  assert (Hkeys : Permutation
            (sorted_unique pair_eq_dec leb2 (map tier_key correlation_df))
            (map ts_key out)).
  { rewrite <- SummaryFacts.groupby_mean_keys.
    apply Permutation_map, SummaryFacts.summarize_perm. }
  split; [|split; [|split]].
  - eapply Permutation_NoDup; [exact Hkeys|].
    apply SortFacts.stable_sort_NoDup, NoDup_nodup.
  - intros m t. split.
    + intros H.
      apply (Permutation_in _ (Permutation_sym Hkeys)) in H.
      unfold sorted_unique in H.
      apply (proj1 (SortFacts.stable_sort_In leb2 _ _)) in H.
      apply (proj1 (nodup_In _ _ _)) in H.
      apply in_map_iff in H. destruct H as [r [E Hr]].
      exists r. unfold tier_key in E. inversion E. auto.
    + intros [r [Hr [Em Et]]].
      apply (Permutation_in _ Hkeys).
      apply SortFacts.stable_sort_In, nodup_In, in_map_iff.
      exists r. split; [|exact Hr]. unfold tier_key. congruence.
  - intros s Hs.
    apply SummaryFacts.in_groupby_mean.
    eapply Permutation_in;
      [apply Permutation_sym, SummaryFacts.summarize_perm | exact Hs].
  - apply SummaryFacts.summarize_sorted.
Qed.

(** An unset value is left out of the mean, not counted as zero: the
    mean of one half and an unset value is one half. *)
Example unset_value_left_out_of_mean :
  let record (l : string) (r : option pyfloat) :=
    {| lang := l; resource_tier := "high"; metric := "bleu"; n := 3;
       pearson_r := r; pearson_p := r; spearman_r := r; spearman_p := r |} in
  map ts_pearson_r
      (summarize_by_tier [record "es" (Some (Fin (1 # 2))); record "pt" None])
  = [Fin (1 # 2)].
Proof. reflexivity. Qed.

(** ** Metric wrappers *)

(** C8. GEMBA penalties are non-negative, and the column joined as
    [gemba] holds, for each penalty [p], the value [1 / (1 + p)]: it lies
    in (0, 1], is 1 exactly when [p] is 0, and is strictly smaller for a
    strictly larger penalty. *)
Theorem gemba_column_self_normalized {transformers : Transformers}
  (gemba_model : string) (sources hyps refs : list string) :
  gemba_model <> "" ->
  exists raw_penalties,
    Gemba.score sources hyps refs None gemba_model "English"
                "the target language" 4 = Ok raw_penalties /\
    Forall (fun p => 0 <= p) raw_penalties /\
    Pipeline.gemba_column gemba_model sources hyps refs
    = Ok (map (fun p => 1 / (1 + p)) raw_penalties) /\
    Forall (fun v => 0 < v /\ v <= 1) (map (fun p => 1 / (1 + p)) raw_penalties) /\
    (forall p, In p raw_penalties -> (1 / (1 + p) == 1 <-> p == 0)) /\
    (forall p q, 0 <= p -> p < q -> 1 / (1 + q) < 1 / (1 + p)).
Proof.
  intros Hmodel.
  destruct (GembaFacts.score_returns sources hyps refs None
              "English" "the target language" Hmodel) as [raw Hraw].
  pose proof (GembaFacts.score_nonneg _ _ _ _ _ _ _ _ Hraw) as Hnonneg.
  exists raw. split; [exact Hraw|]. split; [exact Hnonneg|].
  split; [|split; [|split]].
  - unfold Pipeline.gemba_column. rewrite Hraw. reflexivity.
  - apply Forall_map. eapply Forall_impl; [|exact Hnonneg].
    intros p Hp. split.
    + apply GembaFacts.quality_positive, Hp.
    + apply GembaFacts.quality_le_one, Hp.
  - intros p Hin. apply GembaFacts.quality_one_iff.
    rewrite Forall_forall in Hnonneg. apply Hnonneg, Hin.
  - intros p q. apply GembaFacts.quality_decreasing.
Qed.

Lemma gemba_column_self_normalized_witness :
  "llm" <> "" /\
  exists raw_penalties,
    @Gemba.score Sample.sample_transformers
      ["Hello world."; "Good night."] ["Hola mundo."; "Buenas."]
      ["Hola mundo."; "Buenas noches."] None "llm" "English"
      "the target language" 4 = Ok raw_penalties /\
    raw_penalties = [0; 0 + 5 + 1] /\
    @Pipeline.gemba_column Sample.sample_transformers "llm"
      ["Hello world."; "Good night."] ["Hola mundo."; "Buenas."]
      ["Hola mundo."; "Buenas noches."]
    = Ok (map (fun p => 1 / (1 + p)) raw_penalties).
Proof.
  assert (Hmodel : "llm" <> "") by discriminate.
  split; [exact Hmodel|].
  destruct (@gemba_column_self_normalized Sample.sample_transformers "llm"
              ["Hello world."; "Good night."] ["Hola mundo."; "Buenas."]
              ["Hola mundo."; "Buenas noches."] Hmodel)
    as [raw [Hraw [_ [Hcol _]]]].
  exists raw. split; [exact Hraw|]. split; [|exact Hcol].
  vm_compute in Hraw. inversion Hraw. reflexivity.
Defined.

(** C9. [bleu.score] hands on the sacrebleu score divided by 100 as it
    is, with no bound applied: wherever sacrebleu's score of a pair is
    above 100, as its binary64 score of a hypothesis that equals its
    reference is (100.00000000000004), the score returned for the pair is
    above 1, outside the range [0, 1] that the claim and the docstring of
    [bleu.score] state. *)
Theorem exact_match_scores_above_one {sacrebleu : SacreBleu}
  (sources : list string) (hyp ref : string) (lang : option string) :
  100 < sentence_bleu hyp [ref] ->
  Bleu.score sources [hyp] [ref] lang = [sentence_bleu hyp [ref] / 100] /\
  Forall (fun v => 1 < v) (Bleu.score sources [hyp] [ref] lang).
Proof.
  intros Hscore. split; [reflexivity|].
  unfold Bleu.score, zip. simpl.
  constructor; [|constructor].
  apply Qlt_shift_div_l; [reflexivity|].
  rewrite Qmult_1_l. exact Hscore.
Qed.

Lemma exact_match_scores_above_one_witness :
  100 < @sentence_bleu Sample.binary64_sacrebleu "Hola mundo." ["Hola mundo."] /\
  @Bleu.score Sample.binary64_sacrebleu ["Hello world."] ["Hola mundo."]
    ["Hola mundo."] None
  = [(100 + (3 # 70368744177664)) / 100] /\
  Forall (fun v => 1 < v)
    (@Bleu.score Sample.binary64_sacrebleu ["Hello world."] ["Hola mundo."]
       ["Hola mundo."] None).
Proof.
  assert (Hscore :
    100 < @sentence_bleu Sample.binary64_sacrebleu "Hola mundo." ["Hola mundo."])
    by reflexivity.
  split; [exact Hscore|].
  exact (@exact_match_scores_above_one Sample.binary64_sacrebleu
           ["Hello world."] "Hola mundo." "Hola mundo." None Hscore).
Defined.

(** C10. With hypothesis and reference lists of different lengths,
    [bleu.score] and [chrf.score] still return a list (they have no
    error outcome): it has as many scores as the shorter of the two
    lists, those of the pairs up to that length, and the entries beyond
    it are dropped. *)
Theorem surface_scores_truncate {sacrebleu : SacreBleu}
  (sources hypotheses references : list string) (lang : option string) :
  let k := Nat.min (List.length hypotheses) (List.length references) in
  List.length (Bleu.score sources hypotheses references lang) = k /\
  List.length (Chrf.score sources hypotheses references lang) = k /\
  Bleu.score sources hypotheses references lang
  = Bleu.score sources (firstn k hypotheses) (firstn k references) lang /\
  Chrf.score sources hypotheses references lang
  = Chrf.score sources (firstn k hypotheses) (firstn k references) lang /\
  forall i, (i < k)%nat ->
    exists hyp ref,
      nth_error hypotheses i = Some hyp /\ nth_error references i = Some ref /\
      nth_error (Bleu.score sources hypotheses references lang) i
      = Some (sentence_bleu hyp [ref] / 100) /\
      nth_error (Chrf.score sources hypotheses references lang) i
      = Some (chrf_sentence_score 2 hyp [ref] / 100).
Proof.
  intros k. unfold Bleu.score, Chrf.score.
  rewrite !length_map.
  assert (Hlen : List.length (zip hypotheses references) = k)
    by apply length_combine.
  assert (Hzip : zip hypotheses references
                 = zip (firstn k hypotheses) (firstn k references))
    by apply WrapperFacts.zip_truncates.
  split; [exact Hlen|]. split; [exact Hlen|].
  split; [rewrite <- Hzip; reflexivity|].
  split; [rewrite <- Hzip; reflexivity|].
  intros i Hi.
  destruct (WrapperFacts.nth_error_both hypotheses references Hi)
    as [hyp [ref [Hh Hr]]].
  exists hyp, ref. split; [exact Hh|]. split; [exact Hr|].
  rewrite !nth_error_map, (WrapperFacts.nth_error_zip _ _ _ Hh Hr).
  split; reflexivity.
Qed.

(** Three hypotheses against two references: two scores. *)
Example surface_scores_truncate_example :
  @Bleu.score Sample.sample_sacrebleu [] ["a"; "b"; "c"] ["a"; "x"] None
  = [100 / 100; 0 / 100].
Proof. reflexivity. Qed.

(** ** Converter *)



End Claims.

(* ================================================================== *)
(** * Part IV. Further properties of the code                            *)
(* ================================================================== *)

Module Extra.
Import Correlation EngineSpec EngineMore PyFacts EngineFacts MoreFacts RunFacts.

(** ** Correlation engine *)

(** X1. When the human column is not a column of the score table,
    [run_correlation_analysis] raises [KeyError] for that column as soon
    as the table has a row, whatever metrics are requested (even none);
    on a table without rows it returns the empty table. *)
Theorem missing_human_column_raises {scipy : SciPyStats}
  (scores_df : ScoreTable) (metric_columns : list string)
  (human_column : string) (resource_tiers : option (dict (list string))) :
  ~ In human_column (columns scores_df) ->
  run_correlation_analysis scores_df metric_columns human_column resource_tiers
  = match rows scores_df with
    | [] => Ok []
    | _ => Raise (KeyError human_column)
    end.
Proof.
  intros Hcol. apply str_in_false in Hcol.
  unfold run_correlation_analysis.
  rewrite (collect_rows_missing _ _ _ _ Hcol).
  destruct (rows scores_df); reflexivity.
Qed.

Lemma missing_human_column_raises_witness :
  ~ In "human" (columns Sample.sample_scores) /\
  @run_correlation_analysis Sample.sample_scipy Sample.sample_scores
    [] "human" None = Raise (KeyError "human").
Proof.
  assert (Hcol : ~ In "human" (columns Sample.sample_scores)).
  { simpl. intros [H | [H | []]]; discriminate. }
  split; [exact Hcol|].
  exact (@missing_human_column_raises Sample.sample_scipy Sample.sample_scores
           [] "human" None Hcol).
Defined.

(** X2. The resource tier of every returned record is the tier whose
    language list names the record's language, the last such tier of the
    tier map when several name it, and ["unknown"] when none does; so a
    tier other than ["unknown"] is always a tier of the map that lists
    the language. *)
Theorem resource_tier_of_record {scipy : SciPyStats}
  (scores_df : ScoreTable) (metric_columns : list string)
  (human_column : string) (resource_tiers : option (dict (list string)))
  (out : list CorrelationRecord) :
  run_correlation_analysis scores_df metric_columns human_column resource_tiers
  = Ok out ->
  forall r, In r out ->
    resource_tier r
    = match listing_tier (tier_map resource_tiers) (lang r) with
      | Some t => t
      | None => "unknown"
      end /\
    ((forall tl, In tl (tier_map resource_tiers) -> ~ In (lang r) (snd tl)) ->
     resource_tier r = "unknown") /\
    (resource_tier r <> "unknown" ->
     exists langs, In (resource_tier r, langs) (tier_map resource_tiers) /\
                   In (lang r) langs).
Proof.
  intros Hrun r Hr. apply run_returns in Hrun. subst out.
  apply sort_values_In, in_collected in Hr.
  destruct Hr as [k [m [_ [_ [_ Hr]]]]]. simpl in Hr.
  assert (Htier : resource_tier r
                  = match listing_tier (tier_map resource_tiers) (lang r) with
                    | Some t => t
                    | None => "unknown"
                    end).
  { rewrite Hr. simpl. unfold dict_get, tiers_of.
    rewrite lang_to_tier_lookup. reflexivity. }
  split; [exact Htier|]. split.
  - intros Hnone. apply listing_tier_none in Hnone.
    rewrite Htier, Hnone. reflexivity.
  - intros Hknown.
    destruct (listing_tier (tier_map resource_tiers) (lang r)) as [t|] eqn:E.
    + rewrite Htier. apply listing_tier_some, E.
    + contradiction.
Qed.

Lemma resource_tier_of_record_witness :
  exists out,
    @run_correlation_analysis Sample.sample_scipy Sample.sample_scores
      ["bleu"] "quality_score" (Some [("a", ["es"; "th"]); ("b", ["es"])])
    = Ok out /\
    map (fun r => (lang r, resource_tier r)) out
    = [("th", "a"); ("es", "b"); ("xx", "unknown")] /\
    forall r, In r out ->
      resource_tier r
      = match listing_tier [("a", ["es"; "th"]); ("b", ["es"])] (lang r) with
        | Some t => t
        | None => "unknown"
        end.
Proof.
  eexists. split; [reflexivity|]. split; [reflexivity|].
  intros r Hr.
  exact (proj1 (@resource_tier_of_record Sample.sample_scipy
                  Sample.sample_scores ["bleu"] "quality_score"
                  (Some [("a", ["es"; "th"]); ("b", ["es"])]) _ eq_refl r Hr)).
Defined.

(** X3. A run that returns, returns one row for each language of the
    table and each requested metric that is a column, a metric counting
    as often as the request names it: the number of rows is the product
    of the two counts. *)
Theorem result_size {scipy : SciPyStats}
  (scores_df : ScoreTable) (metric_columns : list string)
  (human_column : string) (resource_tiers : option (dict (list string)))
  (out : list CorrelationRecord) :
  run_correlation_analysis scores_df metric_columns human_column resource_tiers
  = Ok out ->
  List.length out
  = (List.length (languages scores_df)
     * List.length (present_metrics scores_df metric_columns))%nat.
Proof.
  intros Hrun. apply run_returns in Hrun. subst out.
  rewrite <- (Permutation_length (sort_values_perm _)).
  apply collected_length.
Qed.

Lemma result_size_witness :
  exists out,
    @run_correlation_analysis Sample.sample_scipy Sample.sample_scores
      ["bleu"; "comet"; "bleu"] "quality_score" None = Ok out /\
    List.length out = (3 * 2)%nat.
Proof.
  eexists. split; [reflexivity|].
  exact (@result_size Sample.sample_scipy Sample.sample_scores
           ["bleu"; "comet"; "bleu"] "quality_score" None _ eq_refl).
Defined.

(** X4. For a returned record whose group has at least 3 rows, the four
    statistics are what scipy returns for the human column and the
    metric column of the rows of the record's language, both taken in
    table order, so that the two vectors are aligned row by row; [n] is
    the length of both. *)
Theorem statistics_of_record {scipy : SciPyStats}
  (scores_df : ScoreTable) (metric_columns : list string)
  (human_column : string) (resource_tiers : option (dict (list string)))
  (out : list CorrelationRecord) :
  run_correlation_analysis scores_df metric_columns human_column resource_tiers
  = Ok out ->
  forall r, In r out ->
    let human := group_column scores_df (lang r) human_column in
    let metric_vals := group_column scores_df (lang r) (metric r) in
    n r = List.length human /\
    List.length metric_vals = List.length human /\
    ((3 <= n r)%nat ->
     pearson_r r = Some (fst (pearsonr human metric_vals)) /\
     pearson_p r = Some (snd (pearsonr human metric_vals)) /\
     spearman_r r = Some (fst (spearmanr human metric_vals)) /\
     spearman_p r = Some (snd (spearmanr human metric_vals))).
Proof.
  intros Hrun r Hr. apply run_returns in Hrun. subst out.
  apply sort_values_In, in_collected in Hr.
  destruct Hr as [k [m [_ [_ [_ Hr]]]]]. simpl in Hr.
  set (group := filter (fun x => String.eqb (row_lang x) k) (rows scores_df)) in Hr.
  set (H := map (fun x => cell x human_column) group) in Hr.
  set (M := map (fun x => cell x m) group) in Hr.
  destruct (correlate_fields H M m k) as [Hl [Hm Hn]].
  assert (Elang : lang r = k) by (rewrite Hr; exact Hl).
  assert (Emetric : metric r = m) by (rewrite Hr; exact Hm).
  assert (En : n r = List.length H) by (rewrite Hr; exact Hn).
  intros human metric_vals.
  assert (EH : human = H).
  { unfold human, group_column, observations. rewrite Elang. reflexivity. }
  assert (EM : metric_vals = M).
  { unfold metric_vals, group_column, observations.
    rewrite Elang, Emetric. reflexivity. }
  rewrite EH, EM.
  split; [exact En|].
  split; [unfold H, M; rewrite !length_map; reflexivity|].
  intros Hge. rewrite En in Hge.
  destruct (correlate_large H M m k Hge) as [H1 [H2 [H3 H4]]].
  rewrite Hr. simpl. repeat split; assumption.
Qed.

Lemma statistics_of_record_witness :
  exists out,
    @run_correlation_analysis Sample.sample_scipy Sample.sample_scores
      ["bleu"] "quality_score" None = Ok out /\
    map (fun r => (lang r, n r)) out = [("es", 2); ("th", 3); ("xx", 1)]%nat /\
    forall r, In r out ->
      (3 <= n r)%nat ->
      pearson_r r
      = Some (fst (Sample.pair_stat
                     (group_column Sample.sample_scores (lang r) "quality_score")
                     (group_column Sample.sample_scores (lang r) (metric r)))).
Proof.
  eexists. split; [reflexivity|]. split; [reflexivity|].
  intros r Hr Hge.
  destruct (@statistics_of_record Sample.sample_scipy Sample.sample_scores
              ["bleu"] "quality_score" None _ eq_refl r Hr)
    as [_ [_ Hlarge]].
  apply Hlarge, Hge.
Defined.

(** ** Tier summarizer *)

(** X5. The [sort_values] that ends [summarize_by_tier] never moves a
    row: the groups of [groupby] already come in increasing order of
    (metric, resource tier). *)
Theorem summary_sort_changes_nothing (correlation_df : list CorrelationRecord) :
  summarize_by_tier correlation_df = groupby_mean correlation_df.
Proof.
  unfold summarize_by_tier. fold ts_leb.
  apply SummaryMore.stable_sort_sorted_id, SummaryMore.groupby_mean_sorted.
Qed.

(** X8. As the pipeline composes them ([summarize_by_tier] applied to
    the result of [run_correlation_analysis]): every summary row belongs
    to a requested metric that is a column and to the tier of some
    language of the score table, and conversely every language of the
    table and every such metric are covered by a summary row for the
    language's tier. The summary never has more rows than the
    correlation table. *)
Theorem summary_of_run {scipy : SciPyStats}
  (scores_df : ScoreTable) (metric_columns : list string)
  (human_column : string) (resource_tiers : option (dict (list string)))
  (out : list CorrelationRecord) :
  run_correlation_analysis scores_df metric_columns human_column resource_tiers
  = Ok out ->
  let tier_of l := match listing_tier (tier_map resource_tiers) l with
                   | Some t => t
                   | None => "unknown"
                   end in
  (forall s, In s (summarize_by_tier out) ->
     In (ts_metric s) metric_columns /\ In (ts_metric s) (columns scores_df) /\
     exists l, lang_present scores_df l /\ ts_resource_tier s = tier_of l) /\
  (forall l m, lang_present scores_df l -> In m metric_columns ->
     In m (columns scores_df) ->
     exists s, In s (summarize_by_tier out) /\
               ts_metric s = m /\ ts_resource_tier s = tier_of l) /\
  (List.length (summarize_by_tier out) <= List.length out)%nat.
Proof.
  intros Hrun tier_of. apply run_returns in Hrun.
  assert (Hrec : forall r, In r out <->
    exists l m, lang_present scores_df l /\ In m metric_columns /\
                In m (columns scores_df) /\
                lang r = l /\ metric r = m /\ resource_tier r = tier_of l /\
                In r out).
  { intros r. split; [|intros [l [m H]]; apply H].
    intros Hr. pose proof Hr as Hr'. rewrite Hrun in Hr.
    apply sort_values_In, in_collected in Hr.
    destruct Hr as [k [m [Hk [Hm [Hc Hr]]]]]. simpl in Hr.
    exists k, m. split.
    { apply in_map_iff in Hk. destruct Hk as [row [E Hrow]].
      exists row. split; assumption. }
    split; [exact Hm|]. split; [exact Hc|].
    rewrite Hr. rewrite add_tier_lang, add_tier_metric.
    split; [reflexivity|]. split; [reflexivity|].
    split; [|rewrite <- Hr; exact Hr'].
    simpl. rewrite (proj1 (correlate_fields _ _ _ _)).
    unfold dict_get, tiers_of. rewrite lang_to_tier_lookup. reflexivity. }
  split; [|split].
  - intros s Hs.
    assert (Hkey : In (ts_metric s, ts_resource_tier s)
                      (map ts_key (summarize_by_tier out)))
      by (apply in_map_iff; exists s; split; [reflexivity | exact Hs]).
    apply SummaryMore.summary_keys in Hkey.
    destruct Hkey as [r [Hr [Em Et]]].
    apply Hrec in Hr.
    destruct Hr as [l [m [Hl [Hm [Hc [El [Emr [Etr _]]]]]]]].
    rewrite <- Em, <- Et, Emr. split; [exact Hm|]. split; [exact Hc|].
    exists l. split; [exact Hl | exact Etr].
  - intros l m Hl Hm Hc.
    assert (Hex : exists r, In r out /\ metric r = m /\ resource_tier r = tier_of l).
    { destruct Hl as [row [Hrow El]].
      set (group := filter (fun x => String.eqb (row_lang x) l) (rows scores_df)).
      exists (add_tier (tiers_of resource_tiers)
                (correlate_metric_vs_human
                   (map (fun x => cell x human_column) group)
                   (map (fun x => cell x m) group) m l)).
      split; [|split].
      - rewrite Hrun. apply sort_values_In, in_collected.
        exists l, m. repeat split; try assumption.
        apply in_map_iff. exists row. split; assumption.
      - apply add_tier_metric.
      - simpl. rewrite (proj1 (correlate_fields _ _ _ _)).
        unfold dict_get, tiers_of. rewrite lang_to_tier_lookup. reflexivity. }
    destruct Hex as [r [Hr [Em Et]]].
    assert (Hkey : In (m, tier_of l) (map ts_key (summarize_by_tier out))).
    { apply SummaryMore.summary_keys. exists r. repeat split; assumption. }
    apply in_map_iff in Hkey. destruct Hkey as [s [E Hs]].
    exists s. unfold ts_key in E. inversion E. auto.
  - rewrite <- (Permutation_length (SummaryFacts.summarize_perm out)).
    unfold groupby_mean. rewrite length_map. unfold sorted_unique.
    rewrite <- (Permutation_length (SortFacts.stable_sort_perm leb2 _)).
    rewrite <- (length_map tier_key out).
    apply NoDup_incl_length; [apply NoDup_nodup|].
    intros k Hk. apply nodup_In in Hk. exact Hk.
Qed.

Lemma summary_of_run_witness :
  exists out,
    @run_correlation_analysis Sample.sample_scipy Sample.sample_scores
      ["bleu"; "comet"] "quality_score" None = Ok out /\
    map ts_key (summarize_by_tier out)
    = [("bleu", "high"); ("bleu", "medium"); ("bleu", "unknown")] /\
    (List.length (summarize_by_tier out) <= List.length out)%nat.
Proof.
  eexists. split; [reflexivity|]. split; [reflexivity|].
  exact (proj2 (proj2 (@summary_of_run Sample.sample_scipy
                         Sample.sample_scores ["bleu"; "comet"]
                         "quality_score" None _ eq_refl))).
Defined.

(** ** GEMBA wrapper *)

(** X9. For a text of ASCII characters, the penalty that
    [_parse_gemba_output] computes is 0 when the text holds the words
    NO ERRORS in any letter case, and otherwise 5 for each match of
    severity major plus 1 for each match of severity minor, whatever
    their letter case. Every match is of one of the two severities, so
    the default weight of the lookup is never used. *)
Theorem penalty_is_weighted_count (text : string) :
  GembaMore.ascii_text text = true ->
  Gemba._parse_gemba_output text
  == (if Gemba.contains "NO ERRORS" (Gemba.upper text) then 0
      else 5 * inject_Z (Z.of_nat (GembaMore.severity_count "major" text))
           + inject_Z (Z.of_nat (GembaMore.severity_count "minor" text))) /\
  (GembaMore.severity_count "major" text
   + GembaMore.severity_count "minor" text
   = List.length (Gemba.finditer text))%nat.
Proof.
  intros _.
  pose proof (GembaMoreFacts.finditer_from_groups 0 text) as Hgroups.
  split.
  - unfold Gemba._parse_gemba_output.
    destruct (Gemba.contains "NO ERRORS" (Gemba.upper text)); [reflexivity|].
    unfold Gemba.finditer.
    rewrite (GembaMoreFacts.fold_penalty_count 0 Hgroups).
    unfold GembaMore.severity_count, Gemba.finditer. ring.
  - apply (GembaMoreFacts.count_partition Hgroups).
Qed.

Lemma penalty_is_weighted_count_witness :
  let text := "ERROR: [severity: MAJOR] [text: a] ERROR: [severity:minor] ERROR: [severity: Major]" in
  GembaMore.ascii_text text = true /\
  GembaMore.severity_count "major" text = 2%nat /\
  GembaMore.severity_count "minor" text = 1%nat /\
  Gemba._parse_gemba_output text == 5 * 2 + 1.
Proof.
  intros text.
  assert (Ha : GembaMore.ascii_text text = true) by reflexivity.
  split; [exact Ha|]. split; [reflexivity|]. split; [reflexivity|].
  destruct (penalty_is_weighted_count text Ha) as [Hp _].
  rewrite Hp. reflexivity.
Defined.

(** X10. A generated text that starts with the prompt of [gemba.score]
    has penalty 0, whatever errors follow: the prompt itself ends with
    the words NO ERRORS, which is what [_parse_gemba_output] looks for
    first. *)
Theorem echoed_prompt_has_penalty_zero
  (source_lang target_lang source hypothesis continuation : string) :
  Gemba._parse_gemba_output
    (Gemba.format_prompt source_lang target_lang source hypothesis
     ++ continuation)%string
  = 0.
Proof.
  unfold Gemba._parse_gemba_output.
  rewrite GembaMoreFacts.upper_app.
  rewrite (GembaMoreFacts.contains_app_l _ _ _
             (GembaMoreFacts.prompt_holds_no_errors
                source_lang target_lang source hypothesis)).
  reflexivity.
Qed.

(** X11. When the generation treats the prompts of a batch one by one,
    the batch size has no influence on what [gemba.score] returns: for
    every positive batch size the penalties are those of the generated
    texts of all prompts, in the order of the input pairs. *)
Theorem batch_size_is_irrelevant {transformers : Transformers}
  (sources hypotheses references : list string)
  (model_name source_lang target_lang : string) (batch_size : Z) :
  model_name <> "" ->
  GembaMore.batch_independent model_name ->
  (0 < batch_size)%Z ->
  Gemba.score sources hypotheses references None model_name source_lang
              target_lang batch_size
  = Ok (map Gemba._parse_gemba_output
          (text_generation model_name
             (GembaMore.prompts_of sources hypotheses source_lang target_lang))).
Proof.
  intros Hm Hind Hb.
  rewrite (GembaMoreFacts.score_unfold _ _ _ None _ _ Hm Hb).
  rewrite (GembaMoreFacts.generation_concat _ Hind).
  rewrite GembaMoreFacts.concat_batches by lia.
  reflexivity.
Qed.

Lemma batch_size_is_irrelevant_witness :
  ("llm" <> "" /\ @GembaMore.batch_independent Sample.sample_transformers "llm"
   /\ (0 < 1)%Z /\ (0 < 4)%Z) /\
  @Gemba.score Sample.sample_transformers
    ["Hello world."; "Good night."; "Yes."] ["Hola mundo."; "Buenas."; "Si."]
    [] None "llm" "English" "Spanish" 1
  = @Gemba.score Sample.sample_transformers
      ["Hello world."; "Good night."; "Yes."] ["Hola mundo."; "Buenas."; "Si."]
      [] None "llm" "English" "Spanish" 4.
Proof.
  assert (Hm : "llm" <> "") by discriminate.
  assert (Hind : @GembaMore.batch_independent Sample.sample_transformers "llm").
  { intros b b'. simpl. apply map_app. }
  split; [repeat split; try assumption; reflexivity|].
  rewrite (@batch_size_is_irrelevant Sample.sample_transformers _ _ [] "llm"
             "English" "Spanish" 1 Hm Hind eq_refl).
  rewrite (@batch_size_is_irrelevant Sample.sample_transformers _ _ [] "llm"
             "English" "Spanish" 4 Hm Hind eq_refl).
  reflexivity.
Defined.

(** X12. When the generation returns one text for each prompt of a
    batch, [gemba.score] returns one penalty for each (source,
    hypothesis) pair: as many as the shorter of the two lists holds, the
    entries beyond it being dropped without an error. The references
    play no part. *)
Theorem one_penalty_per_pair {transformers : Transformers}
  (sources hypotheses references : list string) (lang : option string)
  (model_name source_lang target_lang : string) (batch_size : Z) :
  model_name <> "" ->
  (forall batch, List.length (text_generation model_name batch)
                 = List.length batch) ->
  (0 < batch_size)%Z ->
  exists raw_penalties,
    Gemba.score sources hypotheses references lang model_name source_lang
                target_lang batch_size = Ok raw_penalties /\
    List.length raw_penalties
    = Nat.min (List.length sources) (List.length hypotheses) /\
    Gemba.score sources hypotheses [] lang model_name source_lang
                target_lang batch_size = Ok raw_penalties.
Proof.
  intros Hm Hlen Hb.
  destruct (GembaMoreFacts.score_length sources hypotheses references lang
              source_lang target_lang Hm Hlen Hb) as [raw [Hraw Hl]].
  exists raw. split; [exact Hraw|]. split; [exact Hl|].
  rewrite <- Hraw.
  rewrite !(GembaMoreFacts.score_unfold _ _ _ _ _ _ Hm Hb). reflexivity.
Qed.

Lemma one_penalty_per_pair_witness :
  ("llm" <> "" /\
   (forall batch,
       List.length (@text_generation Sample.sample_transformers "llm" batch)
       = List.length batch) /\
   (0 < 2)%Z) /\
  exists raw_penalties,
    @Gemba.score Sample.sample_transformers
      ["Hello world."; "Good night."; "Yes."] ["Hola mundo."; "Buenas."]
      ["x"] None "llm" "English" "Spanish" 2 = Ok raw_penalties /\
    List.length raw_penalties = 2%nat.
Proof.
  assert (Hm : "llm" <> "") by discriminate.
  assert (Hlen : forall batch,
             List.length (@text_generation Sample.sample_transformers "llm" batch)
             = List.length batch).
  { intros batch. simpl. apply length_map. }
  split; [repeat split; try assumption; reflexivity|].
  destruct (@one_penalty_per_pair Sample.sample_transformers
              ["Hello world."; "Good night."; "Yes."] ["Hola mundo."; "Buenas."]
              ["x"] None "llm" "English" "Spanish" 2 Hm Hlen eq_refl)
    as [raw [Hraw [Hl _]]].
  exists raw. split; [exact Hraw | exact Hl].
Defined.

(** ** Metric stage of the pipeline *)

(** X13. When [_run_metrics] returns, the added columns are the selected
    metrics in the fixed order bleu, chrf, bertscore, comet, xcomet,
    gemba, each at most once: the order and the repetitions of the
    names in the settings play no part, other names are ignored, and
    gemba is selected by its own flag only. The table keeps its rows,
    texts and languages; its columns are the former ones and the added
    ones, and every column that was not added keeps its values. *)
Theorem run_metrics_added_columns
  {sacrebleu : SacreBleu} {bertscore_lib : BertScoreLib}
  {comet_lib : CometLib} {transformers : Transformers}
  (scores_df : RunMetrics.SegmentTable) (cfg : RunMetrics.MetricsSettings)
  (scores_df' : RunMetrics.SegmentTable) (added_columns : list string) :
  RunMetrics._run_metrics scores_df cfg = Ok (scores_df', added_columns) ->
  added_columns = filter (RunMetrics.selected cfg) RunMetrics.METRIC_ORDER /\
  NoDup added_columns /\
  RunMetrics.texts scores_df' = RunMetrics.texts scores_df /\
  (forall c, In c (RunMetrics.score_columns scores_df') <->
             In c (RunMetrics.score_columns scores_df) \/ In c added_columns) /\
  (forall c, ~ In c added_columns ->
             RunMetrics.column scores_df' c = RunMetrics.column scores_df c).
Proof.
  intros Hrun. rewrite RunStepsFacts.run_metrics_steps in Hrun.
  destruct (RunStepsFacts.run_steps_ok _ _ _ Hrun)
    as [Ha [Ht [Hc [Hk [Hk' [Hin _]]]]]].
  simpl in Ha. rewrite RunStepsFacts.selected_names_order in *.
  subst added_columns.
  split; [reflexivity|].
  split; [apply NoDup_filter, RunStepsFacts.metric_order_nodup|].
  split; [exact Ht|]. split; [|exact Hc].
  intros c. split; [apply Hk'|].
  intros [H | H]; [apply Hk, H | apply Hin, H].
Qed.

Lemma run_metrics_added_columns_witness :
  exists df' added,
    @RunMetrics._run_metrics Sample.sample_sacrebleu
      SampleMore.sample_bertscore SampleMore.sample_comet
      Sample.sample_transformers SampleMore.sample_segments
      (SampleMore.settings ["chrf"; "gemba"; "bleu"; "chrf"; "ter"] None)
    = Ok (df', added) /\
    added = ["bleu"; "chrf"] /\
    RunMetrics.score_columns df' = ["quality_score"; "bleu"; "chrf"] /\
    NoDup added.
Proof.
  eexists. eexists. split; [reflexivity|].
  split; [reflexivity|]. split; [reflexivity|].
  exact (proj1 (proj2 (@run_metrics_added_columns Sample.sample_sacrebleu
                         SampleMore.sample_bertscore SampleMore.sample_comet
                         Sample.sample_transformers SampleMore.sample_segments
                         (SampleMore.settings
                            ["chrf"; "gemba"; "bleu"; "chrf"; "ter"] None)
                         _ _ eq_refl))).
Defined.

(** X14. [_run_metrics] returns whenever the settings that the selected
    metrics read as attributes are there (the table of BERTScore, the
    table of COMET and of xCOMET with its three settings), each selected
    library gives one score for each entry it receives and, with GEMBA
    selected, a model name is configured: the BLEU and ChrF columns
    always have the length of the table, so with only these two metrics
    selected the run cannot fail. With BERTScore selected and no
    [metrics.bertscore] table in the settings, the run raises when it
    reads the table: the defaults of the two BERTScore settings cover an
    absent setting, not an absent table. *)
Theorem run_metrics_returns
  {sacrebleu : SacreBleu} {bertscore_lib : BertScoreLib}
  {comet_lib : CometLib} {transformers : Transformers}
  (scores_df : RunMetrics.SegmentTable) (cfg : RunMetrics.MetricsSettings) :
  (RunMetrics.tables_set cfg = true ->
   (str_in "bertscore" (RunMetrics.run cfg) = true ->
    forall cands refs m l b,
      List.length cands = List.length refs ->
      List.length (bert_score_f1 cands refs m l b) = List.length cands) ->
   (str_in "comet" (RunMetrics.run cfg) = true \/
    str_in "xcomet" (RunMetrics.run cfg) = true ->
    forall m data b g,
      List.length (comet_predict_scores m data b g) = List.length data) ->
   (RunMetrics.getattr (RunMetrics.run_gemba cfg) false = true ->
    RunMetrics.gemba_model cfg <> "" /\
    forall batch,
      List.length (text_generation (RunMetrics.gemba_model cfg) batch)
      = List.length batch) ->
   exists scores_df' added_columns,
     RunMetrics._run_metrics scores_df cfg = Ok (scores_df', added_columns)) /\
  (str_in "bertscore" (RunMetrics.run cfg) = true ->
   RunMetrics.bertscore cfg = None ->
   RunMetrics._run_metrics scores_df cfg = Raise (AttributeError "bertscore")).
Proof.
  split; [|apply MetricStageFacts.missing_bertscore_table].
  intros Hset Hbert Hcomet Hgemba.
  rewrite RunStepsFacts.run_metrics_steps.
  assert (Hret : exists st,
    RunMetrics.run_steps (RunMetrics.metric_steps scores_df cfg) (scores_df, [])
    = Ok st).
  { apply RunStepsFacts.run_steps_returns. intros step Hstep Hsel.
    rewrite MetricStageFacts.metric_steps_split in Hstep.
    apply in_app_or in Hstep. destruct Hstep as [Hstep | [<- | []]].
    - apply (@MetricStageFacts.library_steps_lengths _ _ _ _
               scores_df cfg Hset Hbert Hcomet step Hstep Hsel).
    - simpl in Hsel. simpl RunMetrics.step_computed.
      destruct (Hgemba Hsel) as [Hmodel Hlen].
      destruct (GembaMoreFacts.score_length
                  (map RunMetrics.source (RunMetrics.segments scores_df))
                  (map RunMetrics.hypothesis (RunMetrics.segments scores_df))
                  (map RunMetrics.reference (RunMetrics.segments scores_df))
                  None "English" "the target language" Hmodel Hlen
                  (eq_refl : (0 < 4)%Z)) as [raw [Hraw Hl]].
      unfold Pipeline.gemba_column. rewrite Hraw. simpl.
      eexists. split; [reflexivity|].
      rewrite length_map, Hl, !length_map. apply Nat.min_id. }
  destruct Hret as [[df' added] Hst]. exists df', added. exact Hst.
Qed.

Lemma run_metrics_returns_witness :
  let cfg := SampleMore.settings ["bleu"; "chrf"] None in
  let cfg' := {| RunMetrics.run := ["bleu"; "bertscore"];
                 RunMetrics.bertscore := None;
                 RunMetrics.comet := None;
                 RunMetrics.xcomet := None;
                 RunMetrics.run_gemba := None;
                 RunMetrics.gemba_model := "llm" |} in
  (RunMetrics.tables_set cfg = true /\
   str_in "bertscore" (RunMetrics.run cfg) = false /\
   str_in "comet" (RunMetrics.run cfg) = false /\
   str_in "xcomet" (RunMetrics.run cfg) = false /\
   RunMetrics.getattr (RunMetrics.run_gemba cfg) false = false) /\
  (exists scores_df' added_columns,
     @RunMetrics._run_metrics Sample.sample_sacrebleu
       SampleMore.sample_bertscore SampleMore.sample_comet
       Sample.sample_transformers SampleMore.sample_segments cfg
     = Ok (scores_df', added_columns)) /\
  (str_in "bertscore" (RunMetrics.run cfg') = true /\
   RunMetrics.bertscore cfg' = None) /\
  @RunMetrics._run_metrics Sample.sample_sacrebleu
    SampleMore.sample_bertscore SampleMore.sample_comet
    Sample.sample_transformers SampleMore.sample_segments cfg'
  = Raise (AttributeError "bertscore").
Proof.
  intros cfg cfg'. split; [repeat split|]. split.
  - apply (proj1 (@run_metrics_returns Sample.sample_sacrebleu
                    SampleMore.sample_bertscore SampleMore.sample_comet
                    Sample.sample_transformers SampleMore.sample_segments cfg)).
    + reflexivity.
    + simpl. discriminate.
    + simpl. intros [H | H]; discriminate.
    + simpl. discriminate.
  - split; [split; reflexivity|].
    apply (proj2 (@run_metrics_returns Sample.sample_sacrebleu
                    SampleMore.sample_bertscore SampleMore.sample_comet
                    Sample.sample_transformers SampleMore.sample_segments cfg'));
      reflexivity.
Defined.

(** X15. With GEMBA selected and no model name configured,
    [_run_metrics] ends with the [ValueError] of [gemba.score], provided
    the settings that the other selected metrics read as attributes are
    there and their libraries give one score for each entry: no table
    and no column list is returned. As GEMBA is the last metric
    treated, the error is reached only once every other selected metric
    has been computed and joined without an error. *)
Theorem gemba_without_model_raises
  {sacrebleu : SacreBleu} {bertscore_lib : BertScoreLib}
  {comet_lib : CometLib} {transformers : Transformers}
  (scores_df : RunMetrics.SegmentTable) (cfg : RunMetrics.MetricsSettings) :
  RunMetrics.getattr (RunMetrics.run_gemba cfg) false = true ->
  RunMetrics.gemba_model cfg = "" ->
  RunMetrics.tables_set cfg = true ->
  (str_in "bertscore" (RunMetrics.run cfg) = true ->
   forall cands refs m l b,
     List.length cands = List.length refs ->
     List.length (bert_score_f1 cands refs m l b) = List.length cands) ->
  (str_in "comet" (RunMetrics.run cfg) = true \/
   str_in "xcomet" (RunMetrics.run cfg) = true ->
   forall m data b g,
     List.length (comet_predict_scores m data b g) = List.length data) ->
  RunMetrics._run_metrics scores_df cfg
  = Raise (ValueError
      "gemba.score() requires model_name. Set metrics.gemba_model in settings.toml.").
Proof.
  intros Hsel Hmodel Hset Hbert Hcomet.
  rewrite RunStepsFacts.run_metrics_steps.
  rewrite MetricStageFacts.metric_steps_split.
  rewrite MetricStageFacts.run_steps_app.
  destruct (RunStepsFacts.run_steps_returns
              (firstn 5 (RunMetrics.metric_steps scores_df cfg)) scores_df []
              (@MetricStageFacts.library_steps_lengths _ _ _ _
                 scores_df cfg Hset Hbert Hcomet))
    as [[df1 added1] E].
  rewrite E. simpl. rewrite Hsel, Hmodel.
  unfold RunMetrics.add_metric, Pipeline.gemba_column, Gemba.score.
  reflexivity.
Qed.

Lemma gemba_without_model_raises_witness :
  let cfg := {| RunMetrics.run := ["bleu"];
                RunMetrics.bertscore := None;
                RunMetrics.comet := None;
                RunMetrics.xcomet := None;
                RunMetrics.run_gemba := Some true;
                RunMetrics.gemba_model := "" |} in
  (RunMetrics.getattr (RunMetrics.run_gemba cfg) false = true /\
   RunMetrics.gemba_model cfg = "" /\
   RunMetrics.tables_set cfg = true /\
   str_in "bertscore" (RunMetrics.run cfg) = false /\
   str_in "comet" (RunMetrics.run cfg) = false /\
   str_in "xcomet" (RunMetrics.run cfg) = false) /\
  @RunMetrics._run_metrics Sample.sample_sacrebleu
    SampleMore.sample_bertscore SampleMore.sample_comet
    Sample.sample_transformers SampleMore.sample_segments cfg
  = Raise (ValueError
      "gemba.score() requires model_name. Set metrics.gemba_model in settings.toml.").
Proof.
  intros cfg. split; [repeat split|].
  apply (@gemba_without_model_raises Sample.sample_sacrebleu
           SampleMore.sample_bertscore SampleMore.sample_comet
           Sample.sample_transformers SampleMore.sample_segments cfg).
  - reflexivity.
  - reflexivity.
  - reflexivity.
  - simpl. discriminate.
  - simpl. intros [H | H]; discriminate.
Defined.

(** X16. The values joined by [_run_metrics] stand in the rows they
    belong to: in the returned table the bleu (chrf) cell of a row is
    the sacrebleu sentence score of that row's hypothesis against that
    row's reference, divided by 100, and the gemba column holds
    [1 / (1 + p)] for the penalties [p] that [gemba.score] returns for
    the rows, in row order. *)
Theorem joined_values_aligned
  {sacrebleu : SacreBleu} {bertscore_lib : BertScoreLib}
  {comet_lib : CometLib} {transformers : Transformers}
  (scores_df : RunMetrics.SegmentTable) (cfg : RunMetrics.MetricsSettings)
  (scores_df' : RunMetrics.SegmentTable) (added_columns : list string) :
  RunMetrics._run_metrics scores_df cfg = Ok (scores_df', added_columns) ->
  (In "bleu" added_columns ->
   RunMetrics.column scores_df' "bleu"
   = map (fun s => Fin (sentence_bleu (RunMetrics.hypothesis s)
                                      [RunMetrics.reference s] / 100))
         (RunMetrics.segments scores_df)) /\
  (In "chrf" added_columns ->
   RunMetrics.column scores_df' "chrf"
   = map (fun s => Fin (chrf_sentence_score 2 (RunMetrics.hypothesis s)
                                            [RunMetrics.reference s] / 100))
         (RunMetrics.segments scores_df)) /\
  (In "gemba" added_columns ->
   exists raw_penalties,
     Gemba.score (map RunMetrics.source (RunMetrics.segments scores_df))
                 (map RunMetrics.hypothesis (RunMetrics.segments scores_df))
                 (map RunMetrics.reference (RunMetrics.segments scores_df))
                 None (RunMetrics.gemba_model cfg) "English"
                 "the target language" 4 = Ok raw_penalties /\
     RunMetrics.column scores_df' "gemba"
     = map (fun p => Fin (1 / (1 + p))) raw_penalties).
Proof.
  intros Hrun. rewrite RunStepsFacts.run_metrics_steps in Hrun.
  destruct (RunStepsFacts.run_steps_ok _ _ _ Hrun)
    as [Ha [_ [_ [_ [_ [_ Hval]]]]]].
  simpl in Ha. rewrite RunStepsFacts.selected_names_order in Ha.
  assert (Hnd : NoDup (map RunMetrics.step_name
                           (RunMetrics.metric_steps scores_df cfg)))
    by exact RunStepsFacts.metric_order_nodup.
  specialize (Hval Hnd).
  assert (Hsel : forall name, In name added_columns ->
                              RunMetrics.selected cfg name = true).
  { intros name Hin. rewrite Ha in Hin. apply filter_In in Hin. apply Hin. }
  split; [|split]; intros Hin; apply Hsel in Hin;
    unfold RunMetrics.selected in Hin; simpl in Hin.
  - destruct (Hval _ (or_introl eq_refl) Hin) as [values [Ev Ec]].
    simpl in Ev, Ec. inversion Ev. subst values. rewrite Ec.
    rewrite PipelineFacts.bleu_score_rows, map_map. reflexivity.
  - destruct (Hval _ (or_intror (or_introl eq_refl)) Hin) as [values [Ev Ec]].
    simpl in Ev, Ec. inversion Ev. subst values. rewrite Ec.
    rewrite PipelineFacts.chrf_score_rows, map_map. reflexivity.
  - destruct (Hval _ (or_intror (or_intror (or_intror (or_intror
                        (or_intror (or_introl eq_refl)))))) Hin)
      as [values [Ev Ec]].
    simpl in Ev, Ec. unfold Pipeline.gemba_column in Ev.
    destruct (Gemba.score _ _ _ None (RunMetrics.gemba_model cfg) _ _ 4)
      as [raw | e]; simpl in Ev; [|discriminate].
    inversion Ev. subst values. exists raw. split; [reflexivity|].
    rewrite Ec, map_map. reflexivity.
Qed.

Lemma joined_values_aligned_witness :
  exists df' added,
    @RunMetrics._run_metrics Sample.sample_sacrebleu
      SampleMore.sample_bertscore SampleMore.sample_comet
      Sample.sample_transformers SampleMore.sample_segments
      (SampleMore.settings ["bleu"] (Some true))
    = Ok (df', added) /\
    added = ["bleu"; "gemba"] /\
    RunMetrics.column df' "bleu"
    = map (fun s => Fin (@sentence_bleu Sample.sample_sacrebleu
                           (RunMetrics.hypothesis s)
                           [RunMetrics.reference s] / 100))
          (RunMetrics.segments SampleMore.sample_segments).
Proof.
  eexists. eexists. split; [reflexivity|]. split; [reflexivity|].
  apply (proj1 (@joined_values_aligned Sample.sample_sacrebleu
                  SampleMore.sample_bertscore SampleMore.sample_comet
                  Sample.sample_transformers SampleMore.sample_segments
                  (SampleMore.settings ["bleu"] (Some true)) _ _ eq_refl)).
  left. reflexivity.
Defined.

(** X17. As the pipeline composes them ([run_correlation_analysis] on
    the table and the added columns that [_run_metrics] returns, with
    the human column [quality_score]): when the table has a
    [quality_score] column the analysis returns, no added metric is
    skipped and none is repeated, so that the correlation table holds
    exactly one record for each language of the table and each added
    metric. *)
Theorem metrics_then_correlation
  {sacrebleu : SacreBleu} {bertscore_lib : BertScoreLib}
  {comet_lib : CometLib} {transformers : Transformers} {scipy : SciPyStats}
  (scores_df : RunMetrics.SegmentTable) (cfg : RunMetrics.MetricsSettings)
  (scores_df' : RunMetrics.SegmentTable) (added_columns : list string) :
  RunMetrics._run_metrics scores_df cfg = Ok (scores_df', added_columns) ->
  In "quality_score" (RunMetrics.score_columns scores_df) ->
  exists out,
    run_correlation_analysis (RunMetrics.to_scores scores_df') added_columns
                             "quality_score" None = Ok out /\
    List.length out
    = (List.length (languages (RunMetrics.to_scores scores_df))
       * List.length added_columns)%nat /\
    forall l m,
      lang_present (RunMetrics.to_scores scores_df) l -> In m added_columns ->
      List.length (records_for l m out) = 1%nat.
Proof.
  intros Hrun Hq. rewrite RunStepsFacts.run_metrics_steps in Hrun.
  destruct (RunStepsFacts.run_steps_ok _ _ _ Hrun)
    as [Ha [Ht [_ [Hk [_ [Hin _]]]]]].
  simpl in Ha. rewrite RunStepsFacts.selected_names_order in *.
  assert (Hnd : NoDup added_columns).
  { rewrite Ha. apply NoDup_filter, RunStepsFacts.metric_order_nodup. }
  rewrite <- Ha in Hin.
  pose proof (PipelineFacts.texts_langs _ _ Ht) as Hlangs.
  assert (Hcol : str_in "quality_score"
                        (columns (RunMetrics.to_scores scores_df')) = true).
  { apply str_in_In. simpl. apply Hk, Hq. }
  eexists. split; [apply run_ok, Hcol|]. split.
  - rewrite <- (Permutation_length (sort_values_perm _)).
    rewrite collected_length. unfold languages, present_metrics.
    rewrite Hlangs.
    rewrite PipelineFacts.filter_all; [reflexivity|].
    intros m Hm. apply str_in_In. simpl. apply Hin, Hm.
  - intros l m Hl Hm. unfold records_for at 1.
    rewrite <- (Permutation_length
                  (filter_perm _ (sort_values_perm
                     (collected (columns (RunMetrics.to_scores scores_df'))
                        (tiers_of None) added_columns "quality_score"
                        (rows (RunMetrics.to_scores scores_df')))))).
    fold (records_for l m
            (collected (columns (RunMetrics.to_scores scores_df'))
               (tiers_of None) added_columns "quality_score"
               (rows (RunMetrics.to_scores scores_df')))).
    rewrite records_for_collected.
    assert (Hl' : lang_present (RunMetrics.to_scores scores_df') l).
    { destruct Hl as [r [Hr El]].
      assert (Hin' : In l (map row_lang (rows (RunMetrics.to_scores scores_df))))
        by (apply in_map_iff; exists r; split; assumption).
      rewrite <- Hlangs in Hin'. apply in_map_iff in Hin'.
      destruct Hin' as [r' [El' Hr']]. exists r'. split; assumption. }
    apply lang_present_keys in Hl'. rewrite Hl'.
    assert (Hm' : str_in m (columns (RunMetrics.to_scores scores_df')) = true).
    { apply str_in_In. simpl. apply Hin, Hm. }
    rewrite Hm'. simpl. apply NoDup_count_occ'; assumption.
Qed.

Lemma metrics_then_correlation_witness :
  In "quality_score" (RunMetrics.score_columns SampleMore.sample_segments) /\
  exists df' added out,
    @RunMetrics._run_metrics Sample.sample_sacrebleu
      SampleMore.sample_bertscore SampleMore.sample_comet
      Sample.sample_transformers SampleMore.sample_segments
      (SampleMore.settings ["chrf"; "bleu"; "bleu"] None)
    = Ok (df', added) /\
    @run_correlation_analysis Sample.sample_scipy
      (RunMetrics.to_scores df') added "quality_score" None = Ok out /\
    List.length out = (2 * 2)%nat.
Proof.
  assert (Hq : In "quality_score"
                  (RunMetrics.score_columns SampleMore.sample_segments))
    by (left; reflexivity).
  split; [exact Hq|].
  eexists. eexists.
  destruct (@metrics_then_correlation Sample.sample_sacrebleu
              SampleMore.sample_bertscore SampleMore.sample_comet
              Sample.sample_transformers Sample.sample_scipy
              SampleMore.sample_segments
              (SampleMore.settings ["chrf"; "bleu"; "bleu"] None)
              _ _ eq_refl Hq) as [out [Hout [Hlen _]]].
  exists out. split; [reflexivity|]. split; [exact Hout | exact Hlen].
Defined.

(** ** COMET and BLEU wrappers *)

(** X18. [comet.score] hands COMET one entry for each position that all
    three input lists have: with lists of different lengths it raises no
    error, the entries beyond the shortest list are dropped, and the
    entry at each kept position holds the source, hypothesis and
    reference of that position. *)
Theorem comet_data_truncated {comet : CometLib}
  (sources hypotheses references : list string) (lang : option string)
  (model_name : string) (batch_size gpus : Z) :
  let k := Nat.min (List.length sources)
                   (Nat.min (List.length hypotheses) (List.length references)) in
  List.length (Comet.zip3 sources hypotheses references) = k /\
  Comet.score sources hypotheses references lang model_name batch_size gpus
  = Comet.score (firstn k sources) (firstn k hypotheses) (firstn k references)
                lang model_name batch_size gpus /\
  forall i s h r,
    nth_error sources i = Some s -> nth_error hypotheses i = Some h ->
    nth_error references i = Some r ->
    nth_error (Comet.zip3 sources hypotheses references) i
    = Some {| src := s; mt := h; ref := r |}.
Proof.
  intros k.
  assert (Hlen : List.length (Comet.zip3 sources hypotheses references) = k).
  { unfold Comet.zip3, zip. rewrite length_map, !length_combine. reflexivity. }
  split; [exact Hlen|]. split.
  - unfold Comet.score. f_equal. unfold Comet.zip3, zip. f_equal.
    rewrite <- !combine_firstn.
    symmetry. apply firstn_all2. rewrite !length_combine. apply Nat.le_refl.
  - intros i s h r Hs Hh Hr. unfold Comet.zip3.
    rewrite nth_error_map.
    rewrite (WrapperFacts.nth_error_zip _ _ _ Hs
               (WrapperFacts.nth_error_zip _ _ _ Hh Hr)).
    reflexivity.
Qed.

(** X19. The scores of [bleu.score] and [chrf.score] are computed pair by
    pair: scoring two batches of pairs at once gives the scores of the
    first batch followed by those of the second. *)
Theorem surface_scores_of_batches {sacrebleu : SacreBleu}
  (sources sources' hyps hyps' refs refs' : list string)
  (lang : option string) :
  List.length hyps = List.length refs ->
  Bleu.score (sources ++ sources') (hyps ++ hyps') (refs ++ refs') lang
  = Bleu.score sources hyps refs lang ++ Bleu.score sources' hyps' refs' lang /\
  Chrf.score (sources ++ sources') (hyps ++ hyps') (refs ++ refs') lang
  = Chrf.score sources hyps refs lang ++ Chrf.score sources' hyps' refs' lang.
Proof.
  intros Hlen. unfold Bleu.score, Chrf.score, zip.
  rewrite PipelineFacts.combine_app by exact Hlen.
  rewrite !map_app. split; reflexivity.
Qed.

Lemma surface_scores_of_batches_witness :
  List.length ["a"; "b"] = List.length ["a"; "x"] /\
  @Bleu.score Sample.sample_sacrebleu [] (["a"; "b"] ++ ["c"])
              (["a"; "x"] ++ ["c"]) None
  = @Bleu.score Sample.sample_sacrebleu [] ["a"; "b"] ["a"; "x"] None
    ++ @Bleu.score Sample.sample_sacrebleu [] ["c"] ["c"] None.
Proof.
  split; [reflexivity|].
  exact (proj1 (@surface_scores_of_batches Sample.sample_sacrebleu
                  [] [] ["a"; "b"] ["c"] ["a"; "x"] ["c"] None eq_refl)).
Defined.

End Extra.
